(** * planka-mcp: board summary, activity feed and composite writes

    A shallow embedding of the aggregation tools of the Planka MCP server
    ([tools/board-summary.ts], [tools/activity-feed.ts],
    [tools/create-card-with-tasks.ts]) and of the accessors they call
    ([operations/cards.ts], [lists.ts], [tasks.ts], [comments.ts],
    [labels.ts]), followed by the properties the specification states
    about them (Part II) and by further properties of the same code and
    of [getTask], [batchCreateTasks], [resolveUsers] and [formatDuration]
    (Part III).

    Conventions.
    - A promise is modelled by its outcome: [Ok v] when it resolves with [v],
      [Err msg] when it rejects with an [Error] whose message is [msg].
    - JavaScript numbers that count things are [nat] or [Z]; the two
      percentages are computed in binary64 ([PrimFloat]), as the code does;
      the cap on comments, a number of any kind, is a rational.
    - Strings are [string]; [.length] and [substring] are read on bytes.
    - A field the code reads with [?.] or tests for truthiness is an
      [option]. *)

From Stdlib Require Import ZArith List String Ascii Bool Arith Lia.
From Stdlib Require Import Floats Sorted Permutation.
From Stdlib Require Import DecimalString.
From Stdlib Require QArith Qround.
Import ListNotations.
Local Open Scope string_scope.
Local Open Scope list_scope.

Set Implicit Arguments.

(* ================================================================== *)
(** * Part I. The embedding                                            *)
(* ================================================================== *)

(** ** Outcomes of promises *)

Inductive Result (A : Type) : Type :=
| Ok (a : A)
| Err (msg : string).
Arguments Ok {A} a.
Arguments Err {A} msg.

Definition bind {A B : Type} (m : Result A) (k : A -> Result B) : Result B :=
  match m with
  | Ok a => k a
  | Err e => Err e
  end.

Notation "x <- m ;; k" := (bind m (fun x => k))
  (at level 61, m at next level, right associativity).

Definition isOk {A : Type} (r : Result A) : bool :=
  match r with Ok _ => true | Err _ => false end.

Definition isErr {A : Type} (r : Result A) : bool := negb (isOk r).

(** [Promise.all(xs.map(async x => f x))]: resolves with every result, in
    the order of [xs], or rejects when one callback rejects.  Which of
    several rejections wins depends on timing; the one of the earliest
    element is kept here. *)
Fixpoint promiseAllMap {A B : Type} (f : A -> Result B) (xs : list A)
  : Result (list B) :=
  match xs with
  | [] => Ok []
  | x :: xs' =>
      y <- f x ;;
      ys <- promiseAllMap f xs' ;;
      Ok (y :: ys)
  end.

(** ** JavaScript helpers *)

(** Truthiness of a string-or-missing value: [null], [undefined] and the
    empty string are falsy. *)
Definition truthyStr (s : option string) : bool :=
  match s with
  | Some s' => negb (s' =? "")
  | None => false
  end.

(** Truthiness of an optional boolean. *)
Definition truthyBool (b : option bool) : bool :=
  match b with
  | Some true => true
  | _ => false
  end.

(** [a?.f() === lit] on a nullable string. *)
Definition optStrEq (a : option string) (lit : string) : bool :=
  match a with
  | Some s => s =? lit
  | None => false
  end.

(** [Array.prototype.find]. *)
Definition jsFind {A : Type} (p : A -> bool) (l : list A) : option A :=
  List.find p l.

(** [Array.prototype.some]. *)
Definition jsSome {A : Type} (p : A -> bool) (l : list A) : bool :=
  List.existsb p l.

(** ** Data model ([common/types.ts]) *)

Record Board := mkBoard {
  board_id : string;
  board_projectId : string;
  board_name : string }.

(** A list of a board; the name is null for the archive and trash lists. *)
Record PList := mkPList {
  list_id : string;
  list_boardId : string;
  list_name : option string }.

Record Card := mkCard {
  card_id : string;
  card_listId : string;
  card_name : string;
  card_createdAt : option string;
  card_updatedAt : option string;
  card_isCompleted : option bool;
  card_labelIds : option (list string) }.

Record Task := mkTask {
  task_id : string;
  task_name : string;
  task_isCompleted : bool;
  task_createdAt : option string;
  task_updatedAt : option string }.

(** A comment action: [text] at top level (new endpoint) or under [data]. *)
Record Comment := mkComment {
  comment_id : string;
  comment_userId : option string;
  comment_text : option string;
  comment_dataText : option string;
  comment_createdAt : option string }.

Record Label := mkLabel {
  label_id : string;
  label_name : option string }.

Record TaskList := mkTaskList {
  taskList_id : string }.

Record CardLabel := mkCardLabel {
  cardLabel_id : string;
  cardLabel_cardId : string;
  cardLabel_labelId : string }.

(** ** The backing service, as [plankaRequest] sees it *)

Inductive Method := GET | POST | PATCH | DELETE.

Inductive Body :=
| NoBody
| CardBody (name : string) (description : option string) (position : Z)
           (type : string)
| TaskListBody (name : string) (position : Z) (showOnFrontOfCard : bool)
| TaskBody (name : string) (position : Z)
| CommentBody (text : string).

Record Request := mkRequest {
  req_method : Method;
  req_path : string;
  req_body : Body }.

Definition get (path : string) : Request := mkRequest GET path NoBody.

(** The [item] of a response, by the kind of resource it carries. *)
Inductive Item :=
| ItemCard (c : Card)
| ItemTask (t : Task)
| ItemTaskList (tl : TaskList)
| ItemComment (c : Comment).

(** The [included] object: each key is present with an array, or absent
    (a key holding something that is not an array counts as absent, which
    is how every [Array.isArray] test of the accessors treats it). *)
Record Included := mkIncluded {
  inc_boards : option (list Board);
  inc_lists : option (list PList);
  inc_cards : option (list Card);
  inc_labels : option (list Label);
  inc_tasks : option (list Task);
  inc_taskLists : option (list TaskList);
  inc_cardLabels : option (list CardLabel) }.

(** A response, in the shape the accessors cast it to:
    [{ item?, items?, included? }]. *)
Record Response := mkResponse {
  resp_item : option Item;
  resp_items : option (list Comment);
  resp_included : option Included }.

Definition emptyResponse : Response := mkResponse None None None.

Definition method_eqb (a b : Method) : bool :=
  match a, b with
  | GET, GET | POST, POST | PATCH, PATCH | DELETE, DELETE => true
  | _, _ => false
  end.

(** ** Read accessors over a snapshot of the backing service

    The aggregators only read.  Reads are idempotent, so the service is a
    function from requests to outcomes; [Err] is a request that throws. *)

Module Snapshot.
Section Accessors.

Variable plankaRequest : Request -> Result Response.

(** [operations/lists.ts], [getLists]: a response of another shape, and
    a request that throws, both give the empty array. *)
Definition getLists (boardId : string) : list PList :=
  match plankaRequest (get ("/api/boards/" ++ boardId)) with
  | Ok response =>
      match resp_included response with
      | Some included =>
          match inc_lists included with
          | Some lists => lists
          | None => []
          end
      | None => []
      end
  | Err _ => []
  end.

(** The loop of [getCards] over the boards of the project list. *)
Fixpoint getCardsLoop (listId : string) (boards : list Board)
  : Result (list Card) :=
  match boards with
  | [] => Ok []
  | board :: rest =>
      boardResponse <-
        plankaRequest (get ("/api/boards/" ++ board_id board)) ;;
      match resp_included boardResponse with
      | None => getCardsLoop listId rest
      | Some boardIncluded =>
          match inc_cards boardIncluded with
          | None => getCardsLoop listId rest
          | Some cards =>
              let matchingCards :=
                filter (fun card => card_listId card =? listId) cards in
              if (0 <? List.length matchingCards)%nat
              then Ok matchingCards
              else getCardsLoop listId rest
          end
      end
  end.

(** [operations/cards.ts], [getCards]: the outer [catch] turns every
    failure into the empty array. *)
Definition getCards (listId : string) : list Card :=
  let attempt :=
    projectsResponse <- plankaRequest (get "/api/projects") ;;
    match resp_included projectsResponse with
    | None => Ok []
    | Some included =>
        match inc_boards included with
        | None => Ok []
        | Some boards => getCardsLoop listId boards
        end
    end in
  match attempt with
  | Ok cards => cards
  | Err _ => []
  end.

(** [operations/tasks.ts], [getTasks]: "If there's an error, return an
    empty array". *)
Definition getTasks (cardId : string) : list Task :=
  match plankaRequest (get ("/api/cards/" ++ cardId)) with
  | Ok response =>
      match resp_included response with
      | Some included =>
          match inc_tasks included with
          | Some tasks => tasks
          | None => []
          end
      | None => []
      end
  | Err _ => []
  end.

(** [operations/comments.ts], [getComments]: "If all else fails, return
    an empty array" (its header announces a throw that the body never
    makes). *)
Definition getComments (cardId : string) : list Comment :=
  match plankaRequest (get ("/api/cards/" ++ cardId ++ "/comments")) with
  | Ok response =>
      match resp_items response with
      | Some items => items
      | None => []
      end
  | Err _ => []
  end.

(** [operations/labels.ts], [getLabels]: "If all else fails, return an
    empty array". *)
Definition getLabels (boardId : string) : list Label :=
  match plankaRequest (get ("/api/boards/" ++ boardId)) with
  | Ok response =>
      match resp_included response with
      | Some included =>
          match inc_labels included with
          | Some labels => labels
          | None => []
          end
      | None => []
      end
  | Err _ => []
  end.

End Accessors.
End Snapshot.

(** ** Numbers *)

(** A count as a JavaScript number (exact below [2^53]). *)
Definition toNumber (n : nat) : float :=
  PrimFloat.of_uint63 (Uint63.of_Z (Z.of_nat n)).

(** [Math.round] on a finite double [v * 2^e]: the integer nearest to it,
    a tie going toward plus infinity, that is [floor (x + 1/2)] computed
    exactly.  NaN and the infinities do not arise below (a count divided by
    a positive count); they are sent to [0]. *)
Definition Math_round (x : float) : Z :=
  match Prim2SF x with
  | S754_finite s m e =>
      let v := if s then Z.neg m else Z.pos m in
      if (0 <=? e)%Z then (v * 2 ^ e)%Z
      else ((2 * v + 2 ^ (- e)) / 2 ^ (1 - e))%Z
  | _ => 0%Z
  end.

(** [total > 0 ? Math.round((part / total) * 100) : 0], the expression of
    both percentages of the board summary. *)
Definition roundedPercentage (part total : nat) : Z :=
  if (0 <? total)%nat
  then Math_round ((toNumber part / toNumber total) * 100)%float
  else 0%Z.

(** [round (100 * part / total)] on exact rationals, ties upward: what
    [Math.round] returns when its argument carries no rounding error. *)
Definition exactRoundedPercentage (part total : nat) : Z :=
  ((200 * Z.of_nat part + Z.of_nat total) / (2 * Z.of_nat total))%Z.

(** ** Board summary ([tools/board-summary.ts]) *)

Record GetBoardSummaryParams := mkSummaryParams {
  sp_boardId : string;
  sp_includeTaskDetails : bool;
  sp_includeComments : bool }.

Record TaskSummary := mkTaskSummary {
  ts_items : list Task;
  ts_total : nat;
  ts_completed : nat;
  ts_completionPercentage : Z }.

Record CardWithDetails := mkCardWithDetails {
  cwd_card : Card;
  cwd_tasks : option TaskSummary;
  cwd_comments : option (list Comment) }.

Record ListWithCards := mkListWithCards {
  lwc_list : PList;
  lwc_cards : list CardWithDetails;
  lwc_cardCount : nat }.

Record Stats := mkStats {
  totalCards : nat;
  backlogCount : nat;
  inProgressCount : nat;
  testingCount : nat;
  doneCount : nat;
  urgentCount : nat;
  bugCount : nat;
  completionPercentage : Z }.

Record WorkflowState := mkWorkflowState {
  hasCardsInBacklog : bool;
  hasCardsInProgress : bool;
  hasCardsInTesting : bool;
  nextActionSuggestion : string }.

Record BoardSummary := mkBoardSummary {
  bs_board : Board;
  bs_lists : list ListWithCards;
  bs_labels : list Label;
  bs_stats : Stats;
  bs_workflowState : WorkflowState }.

Definition getNextActionSuggestion
  (backlogCount inProgressCount testingCount : nat) : string :=
  if (0 <? testingCount)%nat then
    "Review cards in Testing that need feedback"
  else if (0 <? inProgressCount)%nat then
    "Continue working on cards in In Progress"
  else if (0 <? backlogCount)%nat then
    "Start working on a card from Backlog"
  else
    "All tasks complete! Create new cards or projects".

(** [list?.cardCount || 0]. *)
Definition cardCountOr0 (l : option ListWithCards) : nat :=
  match l with
  | Some l' => lwc_cardCount l'
  | None => 0%nat
  end.

Section BoardSummary.

(** [String.prototype.toLowerCase]. *)
Variable toLowerCase : string -> string.

(** [getBoard] of [operations/boards.ts] is not embedded; it is taken as
    given.  It resolves with the board or with a falsy value, or
    rejects. *)
Variable getBoard : string -> Result (option Board).
Variable getLists : string -> Result (list PList).
Variable getCards : string -> Result (list Card).
Variable getTasks : string -> Result (list Task).
Variable getComments : string -> Result (list Comment).
Variable getLabels : string -> Result (list Label).

(** [x.name?.toLowerCase() === lit]. *)
Definition nameIs (name : option string) (lit : string) : bool :=
  optStrEq (option_map toLowerCase name) lit.

(** The callback of the inner [Promise.all]. *)
Definition cardWithDetails (includeTaskDetails includeComments : bool)
  (card : Card) : Result CardWithDetails :=
  taskDetails <-
    (if includeTaskDetails then getTasks (card_id card) else Ok []) ;;
  cardComments <-
    (if includeComments then getComments (card_id card) else Ok []) ;;
  let completedTasks := List.length (filter task_isCompleted taskDetails) in
  let totalTasks := List.length taskDetails in
  let completionPercentage := roundedPercentage completedTasks totalTasks in
  Ok (mkCardWithDetails card
        (if includeTaskDetails
         then Some (mkTaskSummary taskDetails totalTasks completedTasks
                      completionPercentage)
         else None)
        (if includeComments then Some cardComments else None)).

(** The callback of the outer [Promise.all]. *)
Definition listWithCards (includeTaskDetails includeComments : bool)
  (list : PList) : Result ListWithCards :=
  listCards <- getCards (list_id list) ;;
  cardsWithDetails <-
    promiseAllMap (cardWithDetails includeTaskDetails includeComments)
      listCards ;;
  Ok (mkListWithCards list cardsWithDetails (List.length cardsWithDetails)).

(** [card.labelIds?.some(id => boardLabels.find(l => l.id === id &&
    l.name?.toLowerCase() === lit))], the filter behind [urgentCount]
    and [bugCount]. *)
Definition hasLabelNamed (boardLabels : list Label) (lit : string)
  (card : CardWithDetails) : bool :=
  match card_labelIds (cwd_card card) with
  | Some labelIds =>
      jsSome (fun labelId =>
                match jsFind (fun label =>
                                (label_id label =? labelId)
                                && nameIs (label_name label) lit)
                        boardLabels with
                | Some _ => true
                | None => false
                end) labelIds
  | None => false
  end.

Definition findList (lit : string) (listsWithCards : list ListWithCards)
  : option ListWithCards :=
  jsFind (fun list => nameIs (list_name (lwc_list list)) lit) listsWithCards.

Definition getBoardSummary (params : GetBoardSummaryParams)
  : Result BoardSummary :=
  let boardId := sp_boardId params in
  let includeTaskDetails := sp_includeTaskDetails params in
  let includeComments := sp_includeComments params in
  board <- getBoard boardId ;;
  match board with
  | None => Err ("Board with ID " ++ boardId ++ " not found")
  | Some board =>
      allLists <- getLists boardId ;;
      listsWithCards <-
        promiseAllMap (listWithCards includeTaskDetails includeComments)
          allLists ;;
      boardLabels <- getLabels boardId ;;
      let totalCards :=
        fold_left (fun sum list => (sum + lwc_cardCount list)%nat)
          listsWithCards 0%nat in
      let backlogList := findList "backlog" listsWithCards in
      let inProgressList := findList "in progress" listsWithCards in
      let testingList := findList "testing" listsWithCards in
      let doneList := findList "done" listsWithCards in
      let urgentCards :=
        List.length (filter (hasLabelNamed boardLabels "urgent")
                       (flat_map lwc_cards listsWithCards)) in
      let bugCards :=
        List.length (filter (hasLabelNamed boardLabels "bug")
                       (flat_map lwc_cards listsWithCards)) in
      Ok (mkBoardSummary board listsWithCards boardLabels
            (mkStats totalCards
               (cardCountOr0 backlogList)
               (cardCountOr0 inProgressList)
               (cardCountOr0 testingList)
               (cardCountOr0 doneList)
               urgentCards
               bugCards
               (roundedPercentage (cardCountOr0 doneList) totalCards))
            (mkWorkflowState
               (0 <? cardCountOr0 backlogList)%nat
               (0 <? cardCountOr0 inProgressList)%nat
               (0 <? cardCountOr0 testingList)%nat
               (getNextActionSuggestion
                  (cardCountOr0 backlogList)
                  (cardCountOr0 inProgressList)
                  (cardCountOr0 testingList))))
  end.

End BoardSummary.

(** The board summary as the server runs it: over the accessors of
    [operations/], none of which rejects. *)
Definition getBoardSummaryOn (toLowerCase : string -> string)
  (getBoard : string -> Result (option Board))
  (plankaRequest : Request -> Result Response)
  (params : GetBoardSummaryParams) : Result BoardSummary :=
  getBoardSummary toLowerCase getBoard
    (fun boardId => Ok (Snapshot.getLists plankaRequest boardId))
    (fun listId => Ok (Snapshot.getCards plankaRequest listId))
    (fun cardId => Ok (Snapshot.getTasks plankaRequest cardId))
    (fun cardId => Ok (Snapshot.getComments plankaRequest cardId))
    (fun boardId => Ok (Snapshot.getLabels plankaRequest boardId))
    params.

(** ** Activity feed ([tools/activity-feed.ts]) *)

Inductive EntryType :=
| card_created
| card_updated
| card_completed
| comment_added
| task_created
| task_completed.

Record ActivityEntry := mkEntry {
  e_timestamp : option string;
  e_type : EntryType;
  e_boardId : string;
  e_listId : option string;
  e_cardId : string;
  e_taskId : option string;
  e_commentId : option string;
  e_userId : option string;
  e_preview : option string }.

Record AffectedCard := mkAffectedCard {
  ac_cardId : string;
  ac_cardName : string;
  ac_boardId : string;
  ac_listId : string }.

Record Query := mkQuery {
  q_projectId : string;
  q_from : Z;
  q_to : Z }.

Record Summary := mkSummary {
  totalChanges : nat;
  newCards : nat;
  updatedCards : nat;
  completedCards : nat;
  newComments : nat;
  newTasks : nat;
  completedTasks : nat }.

Record ActivityFeedResult := mkFeedResult {
  query : Query;
  summary : Summary;
  changes : list ActivityEntry;
  affectedCards : list AffectedCard;
  userIds : list string }.

(** [maxComments] is a [z.number()]: any finite number, whole or not, of
    either sign, read as the rational it denotes. *)
Record GetActivityFeedParams := mkFeedParams {
  fp_projectId : string;
  fp_since : option string;
  fp_until : option string;
  fp_maxComments : option QArith_base.Q }.

(** The mutable locals of [getActivityFeed]: the array, the [Map] and the
    [Set] (both kept in insertion order) and the six counters. *)
Record FeedState := mkFeedState {
  st_changes : list ActivityEntry;
  st_affectedCardsMap : list (string * AffectedCard);
  st_userIdsSet : list string;
  st_newCards : nat;
  st_updatedCards : nat;
  st_completedCards : nat;
  st_newComments : nat;
  st_newTasks : nat;
  st_completedTasks : nat }.

Definition initialState : FeedState :=
  mkFeedState [] [] [] 0 0 0 0 0 0.

(** [changes.push(e)]. *)
Definition pushChange (e : ActivityEntry) (st : FeedState) : FeedState :=
  mkFeedState (st_changes st ++ [e]) (st_affectedCardsMap st)
    (st_userIdsSet st) (st_newCards st) (st_updatedCards st)
    (st_completedCards st) (st_newComments st) (st_newTasks st)
    (st_completedTasks st).

Definition incNewCards (st : FeedState) : FeedState :=
  mkFeedState (st_changes st) (st_affectedCardsMap st) (st_userIdsSet st)
    (S (st_newCards st)) (st_updatedCards st) (st_completedCards st)
    (st_newComments st) (st_newTasks st) (st_completedTasks st).

Definition incUpdatedCards (st : FeedState) : FeedState :=
  mkFeedState (st_changes st) (st_affectedCardsMap st) (st_userIdsSet st)
    (st_newCards st) (S (st_updatedCards st)) (st_completedCards st)
    (st_newComments st) (st_newTasks st) (st_completedTasks st).

Definition incCompletedCards (st : FeedState) : FeedState :=
  mkFeedState (st_changes st) (st_affectedCardsMap st) (st_userIdsSet st)
    (st_newCards st) (st_updatedCards st) (S (st_completedCards st))
    (st_newComments st) (st_newTasks st) (st_completedTasks st).

Definition incNewComments (st : FeedState) : FeedState :=
  mkFeedState (st_changes st) (st_affectedCardsMap st) (st_userIdsSet st)
    (st_newCards st) (st_updatedCards st) (st_completedCards st)
    (S (st_newComments st)) (st_newTasks st) (st_completedTasks st).

Definition incNewTasks (st : FeedState) : FeedState :=
  mkFeedState (st_changes st) (st_affectedCardsMap st) (st_userIdsSet st)
    (st_newCards st) (st_updatedCards st) (st_completedCards st)
    (st_newComments st) (S (st_newTasks st)) (st_completedTasks st).

Definition incCompletedTasks (st : FeedState) : FeedState :=
  mkFeedState (st_changes st) (st_affectedCardsMap st) (st_userIdsSet st)
    (st_newCards st) (st_updatedCards st) (st_completedCards st)
    (st_newComments st) (st_newTasks st) (S (st_completedTasks st)).

(** [Set.prototype.add]: a value already present keeps its place. *)
Fixpoint setAdd (x : string) (s : list string) : list string :=
  match s with
  | [] => [x]
  | y :: s' => if y =? x then s else y :: setAdd x s'
  end.

(** [Map.prototype.set]: a key already present keeps its place and takes
    the new value. *)
Fixpoint mapSet (k : string) (v : AffectedCard)
  (m : list (string * AffectedCard)) : list (string * AffectedCard) :=
  match m with
  | [] => [(k, v)]
  | (k', v') :: m' =>
      if k' =? k then (k, v) :: m' else (k', v') :: mapSet k v m'
  end.

Definition addUserId (u : string) (st : FeedState) : FeedState :=
  mkFeedState (st_changes st) (st_affectedCardsMap st)
    (setAdd u (st_userIdsSet st)) (st_newCards st) (st_updatedCards st)
    (st_completedCards st) (st_newComments st) (st_newTasks st)
    (st_completedTasks st).

Definition setAffected (k : string) (v : AffectedCard) (st : FeedState)
  : FeedState :=
  mkFeedState (st_changes st) (mapSet k v (st_affectedCardsMap st))
    (st_userIdsSet st) (st_newCards st) (st_updatedCards st)
    (st_completedCards st) (st_newComments st) (st_newTasks st)
    (st_completedTasks st).

(** [a || b] on strings. *)
Definition orStr (a : option string) (b : string) : string :=
  match a with
  | Some s => if s =? "" then b else s
  | None => b
  end.

Definition truncateText (text : string) (maxLength : nat) : string :=
  if (String.length text <=? maxLength)%nat then text
  else (substring 0 (maxLength - 3) text ++ "...")%string.

Section ActivityFeed.

(** [new Date(s).getTime()]: the instant in milliseconds, [None] for an
    Invalid Date. *)
Variable parseDate : string -> option Z.

(** [getBoards] of [operations/boards.ts] is not embedded; it is taken as
    given. *)
Variable getBoards : string -> Result (list Board).
Variable getLists : string -> Result (list PList).
Variable getCards : string -> Result (list Card).
Variable getTasks : string -> Result (list Task).
Variable getComments : string -> Result (list Comment).

(** [from] and [to] are [Date]s, [None] when invalid: every comparison
    with an Invalid Date is false. *)
Definition isWithinRange (dateStr : option string) (from to : option Z)
  : bool :=
  match dateStr with
  | None => false
  | Some s =>
      if s =? "" then false
      else
        match parseDate s, from, to with
        | Some date, Some f, Some t => (f <=? date)%Z && (date <=? t)%Z
        | _, _, _ => false
        end
  end.

(** The [if / else if] on the card's own timestamps.  The second component
    is [cardHasChanges]. *)
Definition cardStep (from to : option Z) (boardId listId : string)
  (card : Card) (st : FeedState) : FeedState * bool :=
  let cardId := card_id card in
  let createdAt := card_createdAt card in
  let updatedAt := card_updatedAt card in
  let isCompleted := card_isCompleted card in
  if isWithinRange createdAt from to then
    (incNewCards
       (pushChange (mkEntry createdAt card_created boardId (Some listId)
                      cardId None None None None) st),
     true)
  else if isWithinRange updatedAt from to then
    if truthyBool isCompleted && truthyStr updatedAt then
      (incCompletedCards
         (pushChange (mkEntry updatedAt card_completed boardId (Some listId)
                        cardId None None None None) st),
       true)
    else
      (incUpdatedCards
         (pushChange (mkEntry updatedAt card_updated boardId (Some listId)
                        cardId None None None None) st),
       true)
  else (st, false).

(** The body of the loop over the tasks of a card. *)
Definition taskStep (from to : option Z) (boardId listId cardId : string)
  (acc : FeedState * bool) (task : Task) : FeedState * bool :=
  let (st, cardHasChanges) := acc in
  if isWithinRange (task_createdAt task) from to then
    (incNewTasks
       (pushChange (mkEntry (task_createdAt task) task_created boardId
                      (Some listId) cardId (Some (task_id task)) None None
                      None) st),
     true)
  else if task_isCompleted task
          && isWithinRange (task_updatedAt task) from to then
    (incCompletedTasks
       (pushChange (mkEntry (task_updatedAt task) task_completed boardId
                      (Some listId) cardId (Some (task_id task)) None None
                      None) st),
     true)
  else (st, cardHasChanges).

(** [try { tasks = await getTasks(cardId); for ... } catch {}]. *)
Definition tasksBlock (from to : option Z) (boardId listId cardId : string)
  (acc : FeedState * bool) : FeedState * bool :=
  match getTasks cardId with
  | Ok tasks => fold_left (taskStep from to boardId listId cardId) tasks acc
  | Err _ => acc
  end.

(** The body of the loop over the comments of a card. *)
Definition commentStep (from to : option Z) (maxComments : Z)
  (boardId listId cardId : string)
  (acc : FeedState * bool) (comment : Comment) : FeedState * bool :=
  let (st, cardHasChanges) := acc in
  if isWithinRange (comment_createdAt comment) from to then
    let st1 :=
      if (Z.of_nat (st_newComments st) <? maxComments)%Z then
        pushChange
          (mkEntry (comment_createdAt comment) comment_added boardId
             (Some listId) cardId None (Some (comment_id comment))
             (comment_userId comment)
             (Some (truncateText
                      (orStr (comment_text comment)
                         (orStr (comment_dataText comment) "")) 100)))
          st
      else st in
    let st2 :=
      match comment_userId comment with
      | Some u => if u =? "" then st1 else addUserId u st1
      | None => st1
      end in
    (incNewComments st2, true)
  else (st, cardHasChanges).

(** [try { comments = await getComments(cardId); for ... } catch {}]. *)
Definition commentsBlock (from to : option Z) (maxComments : Z)
  (boardId listId cardId : string)
  (acc : FeedState * bool) : FeedState * bool :=
  match getComments cardId with
  | Ok comments =>
      fold_left (commentStep from to maxComments boardId listId cardId)
        comments acc
  | Err _ => acc
  end.

(** The body of [for (const card of cards)]. *)
Definition processCard (from to : option Z) (maxComments : Z)
  (boardId listId : string) (st : FeedState) (card : Card) : FeedState :=
  let cardId := card_id card in
  let cardName := card_name card in
  let acc := cardStep from to boardId listId card st in
  let acc := tasksBlock from to boardId listId cardId acc in
  let acc := commentsBlock from to maxComments boardId listId cardId acc in
  let (st', cardHasChanges) := acc in
  if cardHasChanges then
    setAffected cardId (mkAffectedCard cardId cardName boardId listId) st'
  else st'.

(** [for (const list of lists)]: [getCards] is awaited outside any inner
    [try], so its rejection leaves the loops. *)
Fixpoint forLists (from to : option Z) (maxComments : Z) (boardId : string)
  (st : FeedState) (lists : list PList) : Result FeedState :=
  match lists with
  | [] => Ok st
  | list :: rest =>
      let listId := list_id list in
      cards <- getCards listId ;;
      forLists from to maxComments boardId
        (fold_left (processCard from to maxComments boardId listId) cards st)
        rest
  end.

(** [for (const board of boards)]. *)
Fixpoint forBoards (from to : option Z) (maxComments : Z)
  (st : FeedState) (boards : list Board) : Result FeedState :=
  match boards with
  | [] => Ok st
  | board :: rest =>
      let boardId := board_id board in
      lists <- getLists boardId ;;
      st' <- forLists from to maxComments boardId st lists ;;
      forBoards from to maxComments st' rest
  end.

(** [new Date(e.timestamp).getTime()].  An entry of [changes] always
    carries the string that passed [isWithinRange]; a missing timestamp is
    read as an Invalid Date. *)
Definition entryTime (e : ActivityEntry) : option Z :=
  match e_timestamp e with
  | Some s => parseDate s
  | None => None
  end.

(** The comparator of the final sort, [time b - time a]; a NaN result is
    read as [+0] by [Array.prototype.sort]. *)
Definition compareEntries (a b : ActivityEntry) : Z :=
  match entryTime b, entryTime a with
  | Some tb, Some ta => (tb - ta)%Z
  | _, _ => 0%Z
  end.

(** [Array.prototype.sort] is stable: the result is the one ordering that
    is sorted for the comparator and keeps equal elements in their
    original order.  It is computed here by insertion. *)
Fixpoint insertEntry (a : ActivityEntry) (l : list ActivityEntry)
  : list ActivityEntry :=
  match l with
  | [] => [a]
  | x :: l' =>
      if (compareEntries a x <=? 0)%Z then a :: l
      else x :: insertEntry a l'
  end.

Definition sortChanges (l : list ActivityEntry) : list ActivityEntry :=
  fold_right insertEntry [] l.

(** The traversal inside the [try], before the sort. *)
Definition traverse (from to : option Z) (maxComments : Z)
  (projectId : string) : Result FeedState :=
  boards <- getBoards projectId ;;
  forBoards from to maxComments initialState boards.

(** The window of an invocation at clock reading [now]. *)
Definition windowFrom (now : Z) (params : GetActivityFeedParams)
  : option Z :=
  match fp_since params with
  | Some s => if s =? "" then Some (now - 24 * 60 * 60 * 1000)%Z
              else parseDate s
  | None => Some (now - 24 * 60 * 60 * 1000)%Z
  end.

Definition windowTo (now : Z) (params : GetActivityFeedParams)
  : option Z :=
  match fp_until params with
  | Some s => if s =? "" then Some now else parseDate s
  | None => Some now
  end.

(** [maxComments = 20] of the destructuring. *)
Definition maxCommentsOf (params : GetActivityFeedParams)
  : QArith_base.Q :=
  match fp_maxComments params with
  | Some n => n
  | None => QArith_base.inject_Z 20
  end.

(** [newComments < maxComments], the one use of the cap. *)
Definition belowCap (newComments : nat) (maxComments : QArith_base.Q)
  : bool :=
  if QArith_base.Qlt_le_dec (QArith_base.inject_Z (Z.of_nat newComments))
       maxComments
  then true else false.

(** The cap as the loops carry it.  [newComments] is a whole number, so
    [newComments < maxComments] holds exactly when [newComments] is below
    the least whole number that is not below [maxComments]: 3 for 2.5,
    [maxComments] itself when it is whole ([belowCap_threshold]). *)
Definition capOf (params : GetActivityFeedParams) : Z :=
  Qround.Qceiling (maxCommentsOf params).

(** [getActivityFeed]; [now] is the reading of [new Date()].  The result
    carries the two ends of the window as instants: [toISOString] throws a
    [RangeError] ("Invalid time value") on an Invalid Date, inside the
    [try]. *)
Definition getActivityFeed (now : Z) (params : GetActivityFeedParams)
  : Result ActivityFeedResult :=
  let projectId := fp_projectId params in
  let maxComments := capOf params in
  let from := windowFrom now params in
  let to := windowTo now params in
  let attempt :=
    st <- traverse from to maxComments projectId ;;
    let changes := sortChanges (st_changes st) in
    match from, to with
    | Some f, Some t =>
        Ok (mkFeedResult
              (mkQuery projectId f t)
              (mkSummary (List.length changes) (st_newCards st)
                 (st_updatedCards st) (st_completedCards st)
                 (st_newComments st) (st_newTasks st)
                 (st_completedTasks st))
              changes
              (map snd (st_affectedCardsMap st))
              (st_userIdsSet st))
    | _, _ => Err "Invalid time value"
    end in
  match attempt with
  | Ok r => Ok r
  | Err e => Err ("Failed to get activity feed: " ++ e)
  end.

End ActivityFeed.

(** The activity feed as the server runs it: over the accessors of
    [operations/], none of which rejects. *)
Definition getActivityFeedOn (parseDate : string -> option Z)
  (getBoards : string -> Result (list Board))
  (plankaRequest : Request -> Result Response)
  (now : Z) (params : GetActivityFeedParams) : Result ActivityFeedResult :=
  getActivityFeed parseDate getBoards
    (fun boardId => Ok (Snapshot.getLists plankaRequest boardId))
    (fun listId => Ok (Snapshot.getCards plankaRequest listId))
    (fun cardId => Ok (Snapshot.getTasks plankaRequest cardId))
    (fun cardId => Ok (Snapshot.getComments plankaRequest cardId))
    now params.

(** ** Writes against the backing service

    The composite helpers change the service; a request both answers and
    moves the service to a new state.  The state also keeps, in order, every
    request that was issued, and the process-wide [taskCardIdMap]. *)

Record CreateCardOptions := mkCreateCardOptions {
  cco_listId : string;
  cco_name : string;
  cco_description : option string;
  cco_position : option Z;
  cco_type : option string }.

Record CreateTaskParams := mkCreateTaskParams {
  ctp_cardId : string;
  ctp_name : string;
  ctp_position : option Z }.

Record CreateCommentOptions := mkCreateCommentOptions {
  ccm_cardId : string;
  ccm_text : string }.

Record CreateCardWithTasksParams := mkCardWithTasksParams {
  cwt_listId : string;
  cwt_name : string;
  cwt_description : option string;
  cwt_tasks : option (list string);
  cwt_comment : option string;
  cwt_position : option Z;
  cwt_type : option string }.

(** What [createCardWithTasks] resolves with.  A created task is
    [response.item], which may be missing; the created comment is the
    [item] of the response or, without one, the response itself. *)
Record CardWithTasks := mkCardWithTasks {
  cwt_card : Card;
  cwt_createdTasks : list (option Item);
  cwt_createdComment : option (Item + Response) }.

Record RemoveLabelResult := mkRemoveLabelResult {
  rl_success : bool;
  rl_message : option string }.

Definition itemId (i : Item) : string :=
  match i with
  | ItemCard c => card_id c
  | ItemTask t => task_id t
  | ItemTaskList tl => taskList_id tl
  | ItemComment c => comment_id c
  end.

(** The message of the [ZodError] that [CardResponseSchema.parse] throws;
    its text is zod's and is not reproduced. *)
Definition zodErrorMessage : string := "ZodError".

(** [PlankaCardSchema] of [common/types.ts] on the fields a [Card]
    carries: [createdAt] has to be a string, [updatedAt] may be null,
    [isCompleted] may be missing, and a key the schema does not list
    ([labelIds]) is stripped from the result.  The required keys that a
    [Card] does not carry ([description], [position], [dueDate]) are taken
    to be present and well-typed. *)
Definition parseCard (card : Card) : option Card :=
  match card_createdAt card with
  | Some _ =>
      Some (mkCard (card_id card) (card_listId card) (card_name card)
              (card_createdAt card) (card_updatedAt card)
              (card_isCompleted card) None)
  | None => None
  end.

Module Effects.
Section Writes.

Variable World : Type.

(** [plankaRequest] of [common/utils.ts] is not embedded; it is taken as
    given, as a transition of the backing service. *)
Variable plankaRequest : Request -> World -> Result Response * World.

Record Env := mkEnv {
  world : World;
  log : list Request;
  taskCardIdMap : list (string * string) }.

Definition M (A : Type) : Type := Env -> Result A * Env.

Definition ret {A : Type} (a : A) : M A := fun s => (Ok a, s).

Definition throw {A : Type} (msg : string) : M A := fun s => (Err msg, s).

Definition bindM {A B : Type} (m : M A) (k : A -> M B) : M B :=
  fun s =>
    match m s with
    | (Ok a, s') => k a s'
    | (Err e, s') => (Err e, s')
    end.

Notation "x <<- m ;; k" := (bindM m (fun x => k))
  (at level 61, m at next level, right associativity).

(** [try { m } catch (error) { handler error.message }]. *)
Definition tryCatch {A : Type} (m : M A) (handler : string -> M A) : M A :=
  fun s =>
    match m s with
    | (Ok a, s') => (Ok a, s')
    | (Err e, s') => handler e s'
    end.

(** [await plankaRequest(path, { method, body })], recorded in the log. *)
Definition request (r : Request) : M Response :=
  fun s =>
    let (res, w) := plankaRequest r (world s) in
    (res, mkEnv w (log s ++ [r]) (taskCardIdMap s)).

(** [taskCardIdMap[taskId] = cardId]. *)
Definition rememberTask (taskId cardId : string) : M unit :=
  fun s =>
    (Ok tt, mkEnv (world s) (log s) ((taskId, cardId) :: taskCardIdMap s)).

(** [operations/cards.ts], [createCard]. *)
Definition createCard (options : CreateCardOptions) : M Card :=
  tryCatch
    (let description :=
       match cco_description options with
       | Some d => if d =? "" then None else Some d
       | None => None
       end in
     let position :=
       match cco_position options with
       | Some p => p
       | None => 65535%Z
       end in
     let type := orStr (cco_type options) "project" in
     response <<-
       request (mkRequest POST
                  ("/api/lists/" ++ cco_listId options ++ "/cards")
                  (CardBody (cco_name options) description position type)) ;;
     match resp_item response with
     | Some (ItemCard card) =>
         match parseCard card with
         | Some parsed => ret parsed
         | None => throw zodErrorMessage
         end
     | _ => throw zodErrorMessage
     end)
    (fun message => throw ("Failed to create card: " ++ message)).

(** [operations/tasks.ts], [getOrCreateTaskList]. *)
Definition getOrCreateTaskList (cardId : string) : M string :=
  tryCatch
    (cardResponse <<- request (get ("/api/cards/" ++ cardId)) ;;
     let taskLists :=
       match resp_included cardResponse with
       | Some included =>
           match inc_taskLists included with
           | Some tls => tls
           | None => []
           end
       | None => []
       end in
     match taskLists with
     | first :: _ => ret (taskList_id first)
     | [] =>
         response <<-
           request (mkRequest POST
                      ("/api/cards/" ++ cardId ++ "/task-lists")
                      (TaskListBody "Tasks" 65535 true)) ;;
         match resp_item response with
         | Some item =>
             if itemId item =? "" then throw "Failed to create task list"
             else ret (itemId item)
         | None => throw "Failed to create task list"
         end
     end)
    (fun message => throw ("Failed to get/create task list: " ++ message)).

(** [operations/tasks.ts], [createTask]. *)
Definition createTask (params : CreateTaskParams) : M (option Item) :=
  tryCatch
    (let cardId := ctp_cardId params in
     let name := ctp_name params in
     let position :=
       match ctp_position params with
       | Some p => p
       | None => 65535%Z
       end in
     taskListId <<- getOrCreateTaskList cardId ;;
     response <<-
       request (mkRequest POST
                  ("/api/task-lists/" ++ taskListId ++ "/tasks")
                  (TaskBody name position)) ;;
     _ <<-
       match resp_item response with
       | Some item =>
           if itemId item =? "" then ret tt
           else rememberTask (itemId item) cardId
       | None => ret tt
       end ;;
     ret (resp_item response))
    (fun message => throw ("Failed to create task: " ++ message)).

(** [operations/comments.ts], [createComment]. *)
Definition createComment (options : CreateCommentOptions)
  : M (Item + Response) :=
  tryCatch
    (response <<-
       request (mkRequest POST
                  ("/api/cards/" ++ ccm_cardId options ++ "/comments")
                  (CommentBody (ccm_text options))) ;;
     match resp_item response with
     | Some item => ret (inl item)
     | None => ret (inr response)
     end)
    (fun message => throw ("Failed to create comment: " ++ message)).

(** The [for] loop of [createCardWithTasks], from index [i] on, with the
    array [createdTasks] built so far. *)
Fixpoint createTasksFrom (cardId : string) (i : nat) (tasks : list string)
  (createdTasks : list (option Item)) : M (list (option Item)) :=
  match tasks with
  | [] => ret createdTasks
  | taskName :: rest =>
      let taskPosition := (65535 * (Z.of_nat i + 1))%Z in
      task <<- createTask (mkCreateTaskParams cardId taskName
                             (Some taskPosition)) ;;
      createTasksFrom cardId (S i) rest (createdTasks ++ [task])
  end.

(** [tools/create-card-with-tasks.ts], [createCardWithTasks].  The [catch]
    logs and rethrows the error it caught. *)
Definition createCardWithTasks (params : CreateCardWithTasksParams)
  : M CardWithTasks :=
  let position :=
    match cwt_position params with
    | Some p => p
    | None => 65535%Z
    end in
  tryCatch
    (card <<-
       createCard (mkCreateCardOptions (cwt_listId params) (cwt_name params)
                     (Some (orStr (cwt_description params) ""))
                     (Some position) (cwt_type params)) ;;
     createdTasks <<-
       match cwt_tasks params with
       | Some tasks => createTasksFrom (card_id card) 0 tasks []
       | None => ret []
       end ;;
     createdComment <<-
       match cwt_comment params with
       | Some comment =>
           if comment =? "" then ret None
           else
             c <<- createComment (mkCreateCommentOptions (card_id card)
                                    comment) ;;
             ret (Some c)
       | None => ret None
       end ;;
     ret (mkCardWithTasks card createdTasks createdComment))
    (fun message => throw message).

(** [operations/labels.ts], [removeLabelFromCard]. *)
Definition removeLabelFromCard (cardId labelId : string)
  : M RemoveLabelResult :=
  tryCatch
    (cardResponse <<- request (get ("/api/cards/" ++ cardId)) ;;
     let cardLabels :=
       match resp_included cardResponse with
       | Some included =>
           match inc_cardLabels included with
           | Some cls => cls
           | None => []
           end
       | None => []
       end in
     let cardLabel :=
       jsFind (fun cl => (cardLabel_cardId cl =? cardId)
                         && (cardLabel_labelId cl =? labelId)) cardLabels in
     match cardLabel with
     | None =>
         ret (mkRemoveLabelResult true (Some "Label was not on card"))
     | Some cl =>
         tryCatch
           (_ <<- request (mkRequest DELETE
                             ("/api/card-labels/" ++ cardLabel_id cl)
                             NoBody) ;;
            ret (mkRemoveLabelResult true None))
           (fun _ =>
              throw ("Cannot remove label - this may be a Planka version limitation. "
                     ++ "The DELETE /api/card-labels endpoint returned an error. "
                     ++ "Try removing the label manually through the Planka UI."))
     end)
    (fun message => throw ("Failed to remove label from card: " ++ message)).

End Writes.
End Effects.

(** ** Vocabulary of the properties: requests *)

(** The name and position a request asks a task to be created with; empty
    for a request that does not create a task. *)
Definition isTaskPost (r : Request) : list (string * Z) :=
  match req_method r, req_body r with
  | POST, TaskBody n p => [(n, p)]
  | _, _ => []
  end.

(** The tasks a sequence of requests creates, in order. *)
Definition taskPosts (l : list Request) : list (string * Z) :=
  flat_map isTaskPost l.

(** The positions [createCardWithTasks] is said to give the tasks named
    [names], the first of which has index [i]. *)
Fixpoint expectedTaskPosts (i : nat) (names : list string)
  : list (string * Z) :=
  match names with
  | [] => []
  | n :: rest => (n, (65535 * (Z.of_nat i + 1))%Z) :: expectedTaskPosts (S i) rest
  end.

(** A request that reads or creates, as opposed to one that changes or
    deletes what exists. *)
Definition readsOrCreates (r : Request) : Prop :=
  req_method r = GET \/ req_method r = POST.

Definition isDelete (r : Request) : bool := method_eqb (req_method r) DELETE.

(** The options [createCardWithTasks] passes to [createCard]. *)
Definition cardOptionsOf (params : CreateCardWithTasksParams)
  : CreateCardOptions :=
  mkCreateCardOptions (cwt_listId params) (cwt_name params)
    (Some (orStr (cwt_description params) ""))
    (Some match cwt_position params with
          | Some p => p
          | None => 65535%Z
          end)
    (cwt_type params).

(** Going from [s] to [s'], the requests [extra] were issued, in order. *)
Definition requestsAppended (World : Type) (s s' : Effects.Env World)
  (extra : list Request) : Prop :=
  Effects.log s' = Effects.log s ++ extra.

(** The task names of an invocation ([tasks] may be left out). *)
Definition tasksOf (params : CreateCardWithTasksParams) : list string :=
  match cwt_tasks params with
  | Some tasks => tasks
  | None => []
  end.

(** "A later step fails": after the card was created (as [card], leaving
    the service in [s1]), the tasks named [done] are created and then
    either the next task or the comment is refused with error [e], leaving
    the service in [s3]. *)
Inductive LaterStepFails (World : Type)
  (plankaRequest : Request -> World -> Result Response * World)
  (params : CreateCardWithTasksParams) (card : Card)
  (s1 : Effects.Env World) (done : list string) (e : string)
  (s3 : Effects.Env World) : Prop :=
| TaskFails (t : string) (post : list string)
    (created : list (option Item)) (s2 : Effects.Env World) :
    tasksOf params = done ++ t :: post ->
    Effects.createTasksFrom plankaRequest (card_id card) 0 done [] s1
    = (Ok created, s2) ->
    Effects.createTask plankaRequest
      (mkCreateTaskParams (card_id card) t
         (Some (65535 * (Z.of_nat (List.length done) + 1))%Z)) s2
    = (Err e, s3) ->
    LaterStepFails plankaRequest params card s1 done e s3
| CommentFails (comment : string)
    (created : list (option Item)) (s2 : Effects.Env World) :
    tasksOf params = done ->
    cwt_comment params = Some comment ->
    comment <> "" ->
    Effects.createTasksFrom plankaRequest (card_id card) 0 done [] s1
    = (Ok created, s2) ->
    Effects.createComment plankaRequest
      (mkCreateCommentOptions (card_id card) comment) s2
    = (Err e, s3) ->
    LaterStepFails plankaRequest params card s1 done e s3.

(** ** Vocabulary of the properties: board summary *)

(** [l] is the list that [find] picks for the name [lit]: the first list
    of the board whose lower-cased name is [lit]. *)
Definition FirstNamed (toLowerCase : string -> string) (lit : string)
  (lists : list PList) (l : PList) : Prop :=
  exists pre post,
    lists = pre ++ l :: post /\
    nameIs toLowerCase (list_name l) lit = true /\
    Forall (fun x => nameIs toLowerCase (list_name x) lit = false) pre.

(** The list named [lit] holds at least one card. *)
Definition namedListHasCards (toLowerCase : string -> string)
  (getCards : string -> Result (list Card)) (lit : string)
  (lists : list PList) : Prop :=
  exists l cards,
    FirstNamed toLowerCase lit lists l /\
    getCards (list_id l) = Ok cards /\
    cards <> [].

(** "Fetching a nested collection fails": with the lists of the board at
    hand, one of the accessor calls the summary makes rejects. *)
Inductive NestedFetchRejects
  (getCards : string -> Result (list Card))
  (getTasks : string -> Result (list Task))
  (getComments : string -> Result (list Comment))
  (getLabels : string -> Result (list Label))
  (params : GetBoardSummaryParams) (lists : list PList) : Prop :=
| CardsReject (l : PList) (e : string) :
    In l lists -> getCards (list_id l) = Err e ->
    NestedFetchRejects getCards getTasks getComments getLabels params lists
| TasksReject (l : PList) (cards : list Card) (c : Card) (e : string) :
    sp_includeTaskDetails params = true ->
    In l lists -> getCards (list_id l) = Ok cards -> In c cards ->
    getTasks (card_id c) = Err e ->
    NestedFetchRejects getCards getTasks getComments getLabels params lists
| CommentsReject (l : PList) (cards : list Card) (c : Card) (e : string) :
    sp_includeComments params = true ->
    In l lists -> getCards (list_id l) = Ok cards -> In c cards ->
    getComments (card_id c) = Err e ->
    NestedFetchRejects getCards getTasks getComments getLabels params lists
| LabelsReject (e : string) :
    getLabels (sp_boardId params) = Err e ->
    NestedFetchRejects getCards getTasks getComments getLabels params lists.

(** The details the summary attaches to a card over the accessors of
    [operations/], none of which rejects. *)
Definition detailsOf (plankaRequest : Request -> Result Response)
  (itd ic : bool) (card : Card) : CardWithDetails :=
  let taskDetails :=
    if itd then Snapshot.getTasks plankaRequest (card_id card) else [] in
  let completedTasks := List.length (filter task_isCompleted taskDetails) in
  let totalTasks := List.length taskDetails in
  mkCardWithDetails card
    (if itd
     then Some (mkTaskSummary taskDetails totalTasks completedTasks
                  (roundedPercentage completedTasks totalTasks))
     else None)
    (if ic then Some (Snapshot.getComments plankaRequest (card_id card))
     else None).

Definition listOf (plankaRequest : Request -> Result Response)
  (itd ic : bool) (l : PList) : ListWithCards :=
  let cards :=
    map (detailsOf plankaRequest itd ic)
      (Snapshot.getCards plankaRequest (list_id l)) in
  mkListWithCards l cards (List.length cards).

(** ** A small board for the summary

    Board [b1] of project [p1] has the lists "Backlog" and "Done", holding
    [nBacklog] and [nDone] cards.  The first card of "Done" has forty
    tasks, twenty-three of them completed; the request for any other card
    fails, as does every request not listed. *)

Definition lowerChar (c : ascii) : ascii :=
  let n := nat_of_ascii c in
  if ((65 <=? n) && (n <=? 90))%nat then ascii_of_nat (n + 32) else c.

(** [toLowerCase] on ASCII text. *)
Fixpoint asciiLower (s : string) : string :=
  match s with
  | EmptyString => EmptyString
  | String c s' => String (lowerChar c) (asciiLower s')
  end.

Definition sampleBoard : Board := mkBoard "b1" "p1" "Sprint".

Definition cardIn (listId : string) (k : nat) : Card :=
  mkCard (listId ++ "-" ++ String (ascii_of_nat (65 + k)) EmptyString)
    listId "card" (Some "2024-05-01T10:00:00.000Z") None None None.

Definition boardSnapshot (nBacklog nDone : nat) (r : Request)
  : Result Response :=
  match req_method r with
  | GET =>
      if req_path r =? "/api/projects" then
        Ok (mkResponse None None
              (Some (mkIncluded (Some [sampleBoard]) None None None None
                       None None)))
      else if req_path r =? "/api/boards/b1" then
        Ok (mkResponse None None
              (Some (mkIncluded None
                       (Some [mkPList "l1" "b1" (Some "Backlog");
                              mkPList "l2" "b1" (Some "Done")])
                       (Some (map (cardIn "l1") (seq 0 nBacklog)
                              ++ map (cardIn "l2") (seq 0 nDone)))
                       (Some [mkLabel "lb1" (Some "Urgent")])
                       None None None)))
      else if req_path r =? "/api/cards/l2-A" then
        Ok (mkResponse None None
              (Some (mkIncluded None None None None
                       (Some (repeat (mkTask "t" "task" true None None) 23
                              ++ repeat (mkTask "t" "task" false None None) 17))
                       None None)))
      else Err "Request failed"
  | _ => Err "Request failed"
  end.

Definition sampleGetBoard (boardId : string) : Result (option Board) :=
  if boardId =? "b1" then Ok (Some sampleBoard) else Ok None.

(** ** Vocabulary of the properties: activity feed *)

Definition isCardEvent (e : ActivityEntry) : bool :=
  match e_type e with
  | card_created | card_updated | card_completed => true
  | _ => false
  end.

Definition isTaskEvent (e : ActivityEntry) : bool :=
  match e_type e with
  | task_created | task_completed => true
  | _ => false
  end.

Definition isCommentEvent (e : ActivityEntry) : bool :=
  match e_type e with
  | comment_added => true
  | _ => false
  end.

(** The rule of the specification for the event of a card: creation in
    the window first; otherwise an update in the window, reported as a
    completion when the card is completed; otherwise nothing. *)
Definition specCardEvents (parseDate : string -> option Z)
  (from to : option Z) (boardId listId : string) (card : Card)
  : list ActivityEntry :=
  if isWithinRange parseDate (card_createdAt card) from to then
    [mkEntry (card_createdAt card) card_created boardId (Some listId)
       (card_id card) None None None None]
  else if isWithinRange parseDate (card_updatedAt card) from to then
    [mkEntry (card_updatedAt card)
       (if truthyBool (card_isCompleted card) then card_completed
        else card_updated)
       boardId (Some listId) (card_id card) None None None None]
  else [].

(** The comments the feed sees on a card: a rejected fetch is read as no
    comments. *)
Definition commentsOf (getComments : string -> Result (list Comment))
  (card : Card) : list Comment :=
  match getComments (card_id card) with
  | Ok comments => comments
  | Err _ => []
  end.

Definition inWindowComments (parseDate : string -> option Z)
  (getComments : string -> Result (list Comment)) (from to : option Z)
  (card : Card) : list Comment :=
  filter (fun c => isWithinRange parseDate (comment_createdAt c) from to)
    (commentsOf getComments card).

(** The cards a traversal visits, in order, each with the ids of its
    board and list. *)
Definition cardsOfList (getCards : string -> Result (list Card))
  (boardId : string) (l : PList) : list (string * string * Card) :=
  match getCards (list_id l) with
  | Ok cards => map (fun c => (boardId, list_id l, c)) cards
  | Err _ => []
  end.

Definition cardsOfBoard (getLists : string -> Result (list PList))
  (getCards : string -> Result (list Card)) (b : Board)
  : list (string * string * Card) :=
  match getLists (board_id b) with
  | Ok lists => flat_map (cardsOfList getCards (board_id b)) lists
  | Err _ => []
  end.

Definition traversedCards (getBoards : string -> Result (list Board))
  (getLists : string -> Result (list PList))
  (getCards : string -> Result (list Card)) (projectId : string)
  : list (string * string * Card) :=
  match getBoards projectId with
  | Ok boards => flat_map (cardsOfBoard getLists getCards) boards
  | Err _ => []
  end.

(** The instant of an entry is [t]. *)
Definition atInstant (parseDate : string -> option Z) (t : Z)
  (e : ActivityEntry) : bool :=
  match entryTime parseDate e with
  | Some t' => (t' =? t)%Z
  | None => false
  end.

(** An entry whose timestamp denotes an instant. *)
Definition datedEntry (parseDate : string -> option Z) (e : ActivityEntry)
  : Prop :=
  entryTime parseDate e <> None.

(** [a] is not older than [b]: both carry an instant, and that of [a] is
    not before that of [b]. *)
Definition notOlderThan (parseDate : string -> option Z)
  (a b : ActivityEntry) : Prop :=
  exists ta tb,
    entryTime parseDate a = Some ta /\
    entryTime parseDate b = Some tb /\ (tb <= ta)%Z.

Definition cardsSum (st : FeedState) : nat :=
  (st_newCards st + st_updatedCards st + st_completedCards st)%nat.

Definition tasksSum (st : FeedState) : nat :=
  (st_newTasks st + st_completedTasks st)%nat.

(** The counters of a state agree with its array of changes, for the cap
    [maxComments] on materialized comments. *)
Definition Counted (parseDate : string -> option Z) (maxComments : Z)
  (st : FeedState) : Prop :=
  Forall (datedEntry parseDate) (st_changes st) /\
  List.length (filter isCardEvent (st_changes st)) = cardsSum st /\
  List.length (filter isTaskEvent (st_changes st)) = tasksSum st /\
  List.length (filter isCommentEvent (st_changes st))
  = Nat.min (st_newComments st) (Z.to_nat maxComments).

(** Every entry of the map of affected cards sits under its own id. *)
Definition Keyed (st : FeedState) : Prop :=
  Forall (fun kv => ac_cardId (snd kv) = fst kv) (st_affectedCardsMap st).

(** The body of the loop over cards, on a visited card. *)
Definition visit (parseDate : string -> option Z)
  (getTasks : string -> Result (list Task))
  (getComments : string -> Result (list Comment))
  (from to : option Z) (maxComments : Z)
  (st : FeedState) (x : string * string * Card) : FeedState :=
  processCard parseDate getTasks getComments from to maxComments
    (fst (fst x)) (snd (fst x)) st (snd x).

(** ** A small project for the activity feed

    Project [p1] has the board [b1] with the lists "Backlog" ([l1]) and
    "Done" ([l2]).  The clock reads 2024-05-02 12:00 UTC.  Card [cA] was
    created two hours ago and updated one hour ago; it has one task created
    two hours ago, one older task completed one hour ago, and three
    comments of the last hour, the second by a user whose id is the empty
    string.  Card [cB] is forty hours old.  Card [cC], in "Done", is
    forty hours old and was completed half an hour ago.  Project [p2] has
    no board.  With [details] off, the requests for the tasks and the
    comments of a card fail. *)

(** [new Date(s).getTime()] on the timestamps of the project. *)
Definition sampleParseDate (s : string) : option Z :=
  if s =? "2024-04-30T20:00:00.000Z" then Some 1714507200000%Z
  else if s =? "2024-05-02T10:00:00.000Z" then Some 1714644000000%Z
  else if s =? "2024-05-02T11:00:00.000Z" then Some 1714647600000%Z
  else if s =? "2024-05-02T11:30:00.000Z" then Some 1714649400000%Z
  else if s =? "2024-05-02T12:00:00.000Z" then Some 1714651200000%Z
  else None.

Definition sampleNow : Z := 1714651200000%Z.

Definition feedSnapshot (details : bool) (r : Request) : Result Response :=
  match req_method r with
  | GET =>
      if req_path r =? "/api/projects" then
        Ok (mkResponse None None
              (Some (mkIncluded (Some [sampleBoard]) None None None None
                       None None)))
      else if req_path r =? "/api/boards/b1" then
        Ok (mkResponse None None
              (Some (mkIncluded None
                       (Some [mkPList "l1" "b1" (Some "Backlog");
                              mkPList "l2" "b1" (Some "Done")])
                       (Some [mkCard "cA" "l1" "Draft the report"
                                (Some "2024-05-02T10:00:00.000Z")
                                (Some "2024-05-02T11:00:00.000Z")
                                (Some false) None;
                              mkCard "cB" "l1" "Collect figures"
                                (Some "2024-04-30T20:00:00.000Z") None
                                None None;
                              mkCard "cC" "l2" "Book the room"
                                (Some "2024-04-30T20:00:00.000Z")
                                (Some "2024-05-02T11:30:00.000Z")
                                (Some true) None])
                       None None None None)))
      else if negb details then Err "Request failed"
      else if req_path r =? "/api/cards/cA" then
        Ok (mkResponse None None
              (Some (mkIncluded None None None None
                       (Some [mkTask "t1" "Outline" false
                                (Some "2024-05-02T10:00:00.000Z") None;
                              mkTask "t2" "Title" true
                                (Some "2024-04-30T20:00:00.000Z")
                                (Some "2024-05-02T11:00:00.000Z")])
                       None None)))
      else if req_path r =? "/api/cards/cA/comments" then
        Ok (mkResponse None
              (Some [mkComment "m1" (Some "u1") (Some "Looks good") None
                       (Some "2024-05-02T11:00:00.000Z");
                     mkComment "m2" (Some "") None (Some "Imported note")
                       (Some "2024-05-02T11:00:00.000Z");
                     mkComment "m3" (Some "u2") (Some "Please add figures")
                       None (Some "2024-05-02T11:30:00.000Z")])
              None)
      else Err "Request failed"
  | _ => Err "Request failed"
  end.

Definition sampleGetBoards (projectId : string) : Result (list Board) :=
  if projectId =? "p1" then Ok [sampleBoard]
  else if projectId =? "p2" then Ok []
  else Err "Project not found".

(** The feed of the sample project for the default window and the cap
    [maxComments]. *)
Definition sampleFeed (projectId : string) (maxComments : option Z)
  : Result ActivityFeedResult :=
  getActivityFeedOn sampleParseDate sampleGetBoards (feedSnapshot true)
    sampleNow
    (mkFeedParams projectId None None
       (option_map QArith_base.inject_Z maxComments)).

(** ** A small service for the write helpers

    The service holds one card, [c1], in list [l1], with one task list, and
    counts the tasks it has stored.  It refuses a task once [limit] tasks
    are stored, and it refuses every comment. *)

Definition sampleCard : Card :=
  mkCard "c1" "l1" "Write report" (Some "2024-05-01T10:00:00.000Z") None
    (Some false) None.

Definition sampleService (limit : nat) (r : Request) (stored : nat)
  : Result Response * nat :=
  match req_method r with
  | GET =>
      if req_path r =? "/api/cards/c1" then
        (Ok (mkResponse (Some (ItemCard sampleCard)) None
               (Some (mkIncluded None None None None None
                        (Some [mkTaskList "tl1"])
                        (Some [mkCardLabel "cl1" "c1" "urgent-id"])))),
         stored)
      else (Err "Not found", stored)
  | POST =>
      if req_path r =? "/api/lists/l1/cards" then
        (Ok (mkResponse (Some (ItemCard sampleCard)) None None), stored)
      else if req_path r =? "/api/task-lists/tl1/tasks" then
        if (stored <? limit)%nat then
          (Ok (mkResponse
                 (Some (ItemTask (mkTask "t" "task" false None None)))
                 None None),
           S stored)
        else (Err "Too many tasks", stored)
      else (Err "Not found", stored)
  | _ => (Ok emptyResponse, stored)
  end.

Definition sampleEnv : Effects.Env nat := Effects.mkEnv 0%nat [] [].

Definition sampleParams (comment : option string)
  : CreateCardWithTasksParams :=
  mkCardWithTasksParams "l1" "Write report" None
    (Some ["outline"; "draft"; "review"]) comment None None.

(** ** Further operations on tasks ([operations/tasks.ts]) *)

(** An element of [results] in [batchCreateTasks]:
    [{ success: true, result }] or [{ success: false, error: { message } }]. *)
Inductive TaskResult :=
| TaskCreated (result : option Item)
| TaskFailed (message : string).

(** An element of [failures]: the index, the task as submitted to
    [createTask] and the message. *)
Record TaskError := mkTaskError {
  te_index : nat;
  te_task : CreateTaskParams;
  te_error : string }.

Record BatchResult := mkBatchResult {
  br_results : list TaskResult;
  br_successes : list (option Item);
  br_failures : list TaskError }.

Module TaskOps.
Section Tasks.

Variable World : Type.
Variable plankaRequest : Request -> World -> Result Response * World.

(** [taskCardIdMap] is a plain object: reading a key it does not own
    falls back on [Object.prototype].  [inherited key] is what the
    template literal makes of the inherited value ([None] when the key
    names no inherited property); every inherited value is truthy. *)
Variable inherited : string -> option string.

(** [taskCardIdMap[id]], kept when truthy.  An assignment to the key
    [__proto__] creates no property, so that key always reads the
    inherited value. *)
Definition lookupTaskCardId (m : list (string * string)) (id : string)
  : option string :=
  if id =? "__proto__" then inherited id
  else
    match find (fun kv => fst kv =? id) m with
    | Some kv => if snd kv =? "" then None else Some (snd kv)
    | None => inherited id
    end.

(** [cardId || taskCardIdMap[id]], kept when truthy. *)
Definition taskCardIdOf (cardId : option string) (m : list (string * string))
  (id : string) : option string :=
  match cardId with
  | Some c => if c =? "" then lookupTaskCardId m id else Some c
  | None => lookupTaskCardId m id
  end.

(** [operations/tasks.ts], [getTask]. *)
Definition getTask (id : string) (cardId : option string)
  : Effects.M World Task :=
  Effects.tryCatch
    (fun s =>
       match taskCardIdOf cardId (Effects.taskCardIdMap s) id with
       | None =>
           Effects.throw
             ("Card ID is required to get a task. "
              ++ "Either provide it directly or create the task first.") s
       | Some taskCardId =>
           Effects.bindM
             (Effects.request plankaRequest (get ("/api/cards/" ++ taskCardId)))
             (fun response =>
                let tasks :=
                  match resp_included response with
                  | Some included => inc_tasks included
                  | None => None
                  end in
                match tasks with
                | None =>
                    Effects.throw
                      ("Failed to get tasks for card " ++ taskCardId)
                | Some tasks =>
                    match jsFind (fun task => task_id task =? id) tasks with
                    | Some task => Effects.ret task
                    | None =>
                        Effects.throw
                          ("Task with ID " ++ id ++ " not found in card "
                           ++ taskCardId)
                    end
                end) s
       end)
    (fun message => Effects.throw ("Failed to get task: " ++ message)).

(** [if (!task.position) task.position = 65535 * (i + 1)]: a missing
    position and the position [0] are replaced. *)
Definition positioned (i : nat) (task : CreateTaskParams)
  : CreateTaskParams :=
  let filled :=
    mkCreateTaskParams (ctp_cardId task) (ctp_name task)
      (Some (65535 * (Z.of_nat i + 1))%Z) in
  match ctp_position task with
  | Some p => if (p =? 0)%Z then filled else task
  | None => filled
  end.

(** The [for] loop of [batchCreateTasks], from index [i] on, with the
    three arrays built so far. *)
Fixpoint batchLoop (i : nat) (tasks : list CreateTaskParams)
  (acc : BatchResult) : Effects.M World BatchResult :=
  match tasks with
  | [] => Effects.ret acc
  | task :: rest =>
      let task := positioned i task in
      fun s =>
        match Effects.createTask plankaRequest task s with
        | (Ok result, s') =>
            batchLoop (S i) rest
              (mkBatchResult (br_results acc ++ [TaskCreated result])
                 (br_successes acc ++ [result]) (br_failures acc)) s'
        | (Err errorMessage, s') =>
            batchLoop (S i) rest
              (mkBatchResult (br_results acc ++ [TaskFailed errorMessage])
                 (br_successes acc)
                 (br_failures acc ++ [mkTaskError i task errorMessage])) s'
        end
  end.

(** [operations/tasks.ts], [batchCreateTasks]. *)
Definition batchCreateTasks (tasks : list CreateTaskParams)
  : Effects.M World BatchResult :=
  Effects.tryCatch (batchLoop 0 tasks (mkBatchResult [] [] []))
    (fun message =>
       Effects.throw ("Failed to batch create tasks: " ++ message)).

End Tasks.
End TaskOps.

(** The indexes at which a list of results holds a failure, counting
    from [i]. *)
Fixpoint failedFrom (i : nat) (results : list TaskResult) : list nat :=
  match results with
  | [] => []
  | TaskCreated _ :: rest => failedFrom (S i) rest
  | TaskFailed _ :: rest => i :: failedFrom (S i) rest
  end.

Definition isGet (r : Request) : bool := method_eqb (req_method r) GET.

(** ** Users of the activity feed ([tools/activity-feed.ts]) *)

Record User := mkUser {
  user_id : string;
  user_name : option string;
  user_username : string;
  user_email : string }.

(** [result[key] = value] on a plain object whose own properties are kept
    as an association list; the order of enumeration is not modelled.
    The key [__proto__] creates no property. *)
Fixpoint recordSet (V : Type) (k : string) (v : V) (m : list (string * V))
  : list (string * V) :=
  match m with
  | [] => [(k, v)]
  | (k', v') :: m' =>
      if k' =? k then (k, v) :: m' else (k', v') :: recordSet k v m'
  end.

(** The own property [k] of a record. *)
Definition recordGet (V : Type) (k : string) (m : list (string * V))
  : option V :=
  match find (fun kv => fst kv =? k) m with
  | Some kv => Some (snd kv)
  | None => None
  end.

(** [resolveUsers]; [usersResponse] is the outcome of
    [plankaRequest("/api/users")], read as [{ items?: any[] }]: the items
    when they are an array. *)
Definition resolveUsers (usersResponse : Result (option (list User)))
  (userIds : list string) : Result (list (string * User)) :=
  match usersResponse with
  | Ok (Some users) =>
      Ok (fold_left
            (fun result userId =>
               match jsFind (fun u => user_id u =? userId) users with
               | Some user =>
                   if userId =? "__proto__" then result
                   else recordSet userId
                          (mkUser (user_id user) (user_name user)
                             (user_username user) (user_email user))
                          result
               | None => result
               end)
            userIds [])
  | Ok None => Ok []
  | Err message => Err ("Failed to resolve users: " ++ message)
  end.

(** ** A service that stores tasks

    The service holds the card [c1] with the task list [tl1]; its state is
    the number of tasks stored.  The [k]-th task stored gets the id
    [t<k>]; the card is reported with its task list and its tasks. *)

Definition storedTask (k : nat) : Task :=
  mkTask ("t" ++ String (ascii_of_nat (49 + k)) EmptyString) "task" false
    None None.

Definition taskService (limit : nat) (r : Request) (stored : nat)
  : Result Response * nat :=
  match req_method r with
  | GET =>
      if req_path r =? "/api/cards/c1" then
        (Ok (mkResponse (Some (ItemCard sampleCard)) None
               (Some (mkIncluded None None None None
                        (Some (map storedTask (seq 0 stored)))
                        (Some [mkTaskList "tl1"])
                        (Some [mkCardLabel "cl0" "c1" "bug-id";
                               mkCardLabel "cl1" "c1" "urgent-id";
                               mkCardLabel "cl2" "c1" "urgent-id"])))),
         stored)
      else (Err "Not found", stored)
  | POST =>
      if req_path r =? "/api/task-lists/tl1/tasks" then
        if (stored <? limit)%nat then
          (Ok (mkResponse (Some (ItemTask (storedTask stored))) None None),
           S stored)
        else (Err "Too many tasks", stored)
      else (Err "Not found", stored)
  | DELETE =>
      if req_path r =? "/api/card-labels/cl1" then (Ok emptyResponse, stored)
      else (Err "Not found", stored)
  | PATCH => (Err "Not found", stored)
  end.

(** No key is inherited: the ids at hand name no property of
    [Object.prototype]. *)
Definition noInherited (key : string) : option string := None.

(** The card-label associations a card response carries. *)
Definition cardLabelsOf (r : Response) : list CardLabel :=
  match resp_included r with
  | Some included =>
      match inc_cardLabels included with
      | Some cardLabels => cardLabels
      | None => []
      end
  | None => []
  end.


(** ** Durations ([operations/cards.ts]) *)

(** The template literal on an integer: its decimal digits, with a minus
    sign when negative. *)
Definition numberToString (n : Z) : string :=
  NilZero.string_of_int (Z.to_int n).

(** White space, as far as ASCII goes. *)
Definition isSpace (c : ascii) : bool :=
  let n := nat_of_ascii c in
  ((9 <=? n) && (n <=? 13))%nat || (n =? 32)%nat.

Fixpoint trimStart (s : string) : string :=
  match s with
  | EmptyString => EmptyString
  | String c s' => if isSpace c then trimStart s' else s
  end.

Fixpoint trimEnd (s : string) : string :=
  match s with
  | EmptyString => EmptyString
  | String c s' =>
      match trimEnd s' with
      | EmptyString => if isSpace c then EmptyString else String c EmptyString
      | t => String c t
      end
  end.

(** [String.prototype.trim]. *)
Definition trim (s : string) : string := trimStart (trimEnd s).

(** [formatDuration], on a whole number of seconds of magnitude below
    [2^53] (a safe integer).  There the binary64 operations of the code
    are exact: [Math.floor] of the quotient by 3600 or 60 is [Z.div] (the
    quotient is below [2^42] and at least 1/3600 away from the next whole
    number, more than half the spacing of the doubles around it), [%]
    keeps the sign of the dividend, as [Z.rem] does, and the template
    literal prints every digit.  Beyond that range the code rounds and
    this definition does not follow it. *)
Definition formatDuration (seconds : Z) : string :=
  let hours := (seconds / 3600)%Z in
  let minutes := (Z.rem seconds 3600 / 60)%Z in
  let remainingSeconds := Z.rem seconds 60 in
  let result := "" in
  let result :=
    if (0 <? hours)%Z then (result ++ numberToString hours ++ "h ")%string
    else result in
  let result :=
    if (0 <? minutes)%Z || (0 <? hours)%Z
    then (result ++ numberToString minutes ++ "m ")%string
    else result in
  let result := (result ++ numberToString remainingSeconds ++ "s")%string in
  trim result.

(** ** Vocabulary of the further properties: activity feed *)

Definition type_eqb (a b : EntryType) : bool :=
  match a, b with
  | card_created, card_created
  | card_updated, card_updated
  | card_completed, card_completed
  | comment_added, comment_added
  | task_created, task_created
  | task_completed, task_completed => true
  | _, _ => false
  end.

(** The number of entries of one type. *)
Definition countType (ty : EntryType) (l : list ActivityEntry) : nat :=
  List.length (filter (fun e => type_eqb (e_type e) ty) l).

(** The entry, if any, that the loop over the tasks of a card pushes for
    one task. *)
Definition specTaskEvents (parseDate : string -> option Z)
  (from to : option Z) (boardId listId cardId : string) (task : Task)
  : list ActivityEntry :=
  if isWithinRange parseDate (task_createdAt task) from to then
    [mkEntry (task_createdAt task) task_created boardId (Some listId) cardId
       (Some (task_id task)) None None None]
  else if task_isCompleted task
          && isWithinRange parseDate (task_updatedAt task) from to then
    [mkEntry (task_updatedAt task) task_completed boardId (Some listId)
       cardId (Some (task_id task)) None None None]
  else [].

(** The tasks the feed sees on a card: a rejected fetch is read as no
    tasks. *)
Definition tasksOfCard (getTasks : string -> Result (list Task))
  (card : Card) : list Task :=
  match getTasks (card_id card) with
  | Ok tasks => tasks
  | Err _ => []
  end.

(** The entry a materialized comment is pushed as. *)
Definition commentEntryOf (boardId listId cardId : string) (cm : Comment)
  : ActivityEntry :=
  mkEntry (comment_createdAt cm) comment_added boardId (Some listId) cardId
    None (Some (comment_id cm)) (comment_userId cm)
    (Some (truncateText
             (orStr (comment_text cm) (orStr (comment_dataText cm) "")) 100)).

(** [if (comment.userId) userIdsSet.add(comment.userId)]. *)
Definition addTruthy (u : option string) (s : list string) : list string :=
  match u with
  | Some u' => if u' =? "" then s else setAdd u' s
  | None => s
  end.

Definition taskEventsOf (parseDate : string -> option Z)
  (getTasks : string -> Result (list Task)) (from to : option Z)
  (x : string * string * Card) : list ActivityEntry :=
  flat_map (specTaskEvents parseDate from to (fst (fst x)) (snd (fst x))
              (card_id (snd x)))
    (tasksOfCard getTasks (snd x)).

(** The comments of the window on a visited card, as the entries they
    would be pushed as. *)
Definition commentEntriesOf (parseDate : string -> option Z)
  (getComments : string -> Result (list Comment)) (from to : option Z)
  (x : string * string * Card) : list ActivityEntry :=
  map (commentEntryOf (fst (fst x)) (snd (fst x)) (card_id (snd x)))
    (inWindowComments parseDate getComments from to (snd x)).

(** The entries a visit pushes, in order, when [k] comments of the window
    were counted before it. *)
Definition eventsOf (parseDate : string -> option Z)
  (getTasks : string -> Result (list Task))
  (getComments : string -> Result (list Comment))
  (from to : option Z) (maxComments : Z) (k : nat)
  (x : string * string * Card) : list ActivityEntry :=
  specCardEvents parseDate from to (fst (fst x)) (snd (fst x)) (snd x)
  ++ taskEventsOf parseDate getTasks from to x
  ++ firstn (Z.to_nat maxComments - k)
       (commentEntriesOf parseDate getComments from to x).

(** The entries a sequence of visits pushes. *)
Fixpoint specChanges (parseDate : string -> option Z)
  (getTasks : string -> Result (list Task))
  (getComments : string -> Result (list Comment))
  (from to : option Z) (maxComments : Z) (k : nat)
  (xs : list (string * string * Card)) : list ActivityEntry :=
  match xs with
  | [] => []
  | x :: xs' =>
      eventsOf parseDate getTasks getComments from to maxComments k x
      ++ specChanges parseDate getTasks getComments from to maxComments
           (k + List.length
                  (inWindowComments parseDate getComments from to (snd x)))
           xs'
  end.

(** A visited card has activity in the window: an event of its own, an
    event of one of its tasks, or a comment (materialized or not). *)
Definition activeCard (parseDate : string -> option Z)
  (getTasks : string -> Result (list Task))
  (getComments : string -> Result (list Comment))
  (from to : option Z) (x : string * string * Card) : bool :=
  negb (Nat.eqb (List.length
                   (specCardEvents parseDate from to (fst (fst x))
                      (snd (fst x)) (snd x)
                    ++ taskEventsOf parseDate getTasks from to x)) 0)
  || negb (Nat.eqb (List.length
                      (inWindowComments parseDate getComments from to
                         (snd x))) 0).

(** The entry of the map of affected cards for a visited card. *)
Definition affectedOf (x : string * string * Card) : AffectedCard :=
  mkAffectedCard (card_id (snd x)) (card_name (snd x)) (fst (fst x))
    (snd (fst x)).

(** Each counter of a state, the comment counter apart, is the number of
    entries of its type. *)
Definition KindCounted (st : FeedState) : Prop :=
  st_newCards st = countType card_created (st_changes st) /\
  st_updatedCards st = countType card_updated (st_changes st) /\
  st_completedCards st = countType card_completed (st_changes st) /\
  st_newTasks st = countType task_created (st_changes st) /\
  st_completedTasks st = countType task_completed (st_changes st).

(** What a visit adds to the set of user ids: the truthy user ids of the
    comments of the window, in order. *)
Definition addUsersOf (parseDate : string -> option Z)
  (getComments : string -> Result (list Comment)) (from to : option Z)
  (x : string * string * Card) (s : list string) : list string :=
  fold_left (fun s c => addTruthy (comment_userId c) s)
    (inWindowComments parseDate getComments from to (snd x)) s.

(** What a visit does to the map of affected cards. *)
Definition markAffected (parseDate : string -> option Z)
  (getTasks : string -> Result (list Task))
  (getComments : string -> Result (list Comment)) (from to : option Z)
  (m : list (string * AffectedCard)) (x : string * string * Card)
  : list (string * AffectedCard) :=
  if activeCard parseDate getTasks getComments from to x
  then mapSet (card_id (snd x)) (affectedOf x) m else m.

(** Every entry a visited card can contribute: its own event, the events
    of its tasks and its comments of the window, capped or not. *)
Definition candidateEvents (parseDate : string -> option Z)
  (getTasks : string -> Result (list Task))
  (getComments : string -> Result (list Comment))
  (from to : option Z) (x : string * string * Card) : list ActivityEntry :=
  specCardEvents parseDate from to (fst (fst x)) (snd (fst x)) (snd x)
  ++ taskEventsOf parseDate getTasks from to x
  ++ commentEntriesOf parseDate getComments from to x.

(** What holds of every entry a visited card can contribute. *)
Definition entryOf (parseDate : string -> option Z) (from to : option Z)
  (x : string * string * Card) (e : ActivityEntry) : Prop :=
  e_boardId e = fst (fst x) /\
  e_listId e = Some (snd (fst x)) /\
  e_cardId e = card_id (snd x) /\
  (exists z f t,
     entryTime parseDate e = Some z /\ from = Some f /\ to = Some t /\
     (f <= z <= t)%Z) /\
  (forall p, e_preview e = Some p -> (String.length p <= 100)%nat) /\
  (e_userId e <> None -> e_type e = comment_added).

(** An accessor that answers with an empty list where [f] rejects. *)
Definition swallowing (A : Type) (f : string -> Result (list A))
  : string -> Result (list A) :=
  fun id => Ok (match f id with Ok l => l | Err _ => [] end).

(** The boards of the project, the lists of each board and the cards of
    each list can all be fetched. *)
Definition fetchesResolve (getBoards : string -> Result (list Board))
  (getLists : string -> Result (list PList))
  (getCards : string -> Result (list Card)) (projectId : string) : Prop :=
  exists boards,
    getBoards projectId = Ok boards /\
    Forall (fun b =>
              exists lists,
                getLists (board_id b) = Ok lists /\
                Forall (fun l => isOk (getCards (list_id l)) = true) lists)
      boards.

(** Going from [st] to [st'], the entries [evs] were pushed and counted:
    each of the five card and task counters grew by the number of pushed
    entries of its type. *)
Definition Pushed (st st' : FeedState) (evs : list ActivityEntry) : Prop :=
  st_changes st' = st_changes st ++ evs /\
  st_newCards st' = (st_newCards st + countType card_created evs)%nat /\
  st_updatedCards st' = (st_updatedCards st + countType card_updated evs)%nat /\
  st_completedCards st'
  = (st_completedCards st + countType card_completed evs)%nat /\
  st_newTasks st' = (st_newTasks st + countType task_created evs)%nat /\
  st_completedTasks st'
  = (st_completedTasks st + countType task_completed evs)%nat.

(* ================================================================== *)
(** * Part II. Properties                                              *)
(* ================================================================== *)

(** ** Lists *)

Lemma find_all_false (A : Type) (f : A -> bool) (l : list A) :
  (forall x, In x l -> f x = false) -> find f l = None.
Proof.
  induction l as [|a l IH]; intros H; cbn; [reflexivity|].
  rewrite (H a (or_introl eq_refl)). apply IH.
  intros x Hx. apply H. now right.
Qed.

Lemma Forall2_In_right (A B : Type) (R : A -> B -> Prop) (xs : list A)
  (ys : list B) (y : B) :
  Forall2 R xs ys -> In y ys -> exists x, In x xs /\ R x y.
Proof.
  induction 1 as [|x y' xs ys Hxy _ IH]; intros Hin; [contradiction|].
  destruct Hin as [<- |Hin].
  - exists x. split; [now left|exact Hxy].
  - destruct (IH Hin) as (x' & Hx' & Hr). exists x'. split; [now right|exact Hr].
Qed.

Lemma Permutation_filter (A : Type) (f : A -> bool) (l l' : list A) :
  Permutation l l' -> Permutation (filter f l) (filter f l').
Proof.
  induction 1 as [|x l l' _ IH|x y l|l l' l'' _ IH1 _ IH2]; cbn.
  - constructor.
  - destruct (f x); [now constructor|exact IH].
  - destruct (f x), (f y); try reflexivity. apply perm_swap.
  - now transitivity (filter f l').
Qed.

(** ** Writes: what a call issues *)

Section WriteFacts.

Variable World : Type.
Variable plankaRequest : Request -> World -> Result Response * World.

Local Notation "'ENV'" := (Effects.Env World).

Import Effects.

Local Notation "'appended'" := (@requestsAppended World).

Lemma appended_refl (s : ENV) : appended s s [].
Proof. unfold requestsAppended. now rewrite app_nil_r. Qed.

Lemma appended_trans (s1 s2 s3 : ENV) (e1 e2 : list Request) :
  appended s1 s2 e1 -> appended s2 s3 e2 -> appended s1 s3 (e1 ++ e2).
Proof.
  unfold requestsAppended. intros H1 H2. now rewrite H2, H1, app_assoc.
Qed.

Lemma request_spec (r : Request) (s : ENV) :
  exists res w,
    plankaRequest r (world s) = (res, w) /\
    request plankaRequest r s
    = (res, mkEnv w (log s ++ [r]) (taskCardIdMap s)).
Proof.
  unfold request. destruct (plankaRequest r (world s)) as [res w]. eauto.
Qed.

Lemma taskPosts_app (l1 l2 : list Request) :
  taskPosts (l1 ++ l2) = taskPosts l1 ++ taskPosts l2.
Proof. unfold taskPosts. apply flat_map_app. Qed.

(** One [request] of the run recorded in [H], executed. *)
Ltac step_request H :=
  match type of H with
  | context [request _ ?r ?s0] =>
      let rs := fresh "rs" in
      let w := fresh "w" in
      let Hq := fresh "Hq" in
      let Hr := fresh "Hr" in
      destruct (request_spec r s0) as (rs & w & Hq & Hr);
      rewrite Hr in H; clear Hr
  end.

(** [createCard] issues one request, the POST of the card. *)
Lemma createCard_log (options : CreateCardOptions) (s s' : ENV)
  (res : Result Card) :
  createCard plankaRequest options s = (res, s') ->
  exists r, appended s s' [r] /\ req_method r = POST /\ taskPosts [r] = [].
Proof.
  unfold createCard, tryCatch, bindM, ret, throw. intros H.
  step_request H. eexists. unfold requestsAppended.
  destruct rs as [resp|e];
    [destruct (resp_item resp) as [[c| | |]|];
     [destruct (parseCard c)| | | |]|];
    inversion H; subst; cbn; auto.
Qed.

(** [getOrCreateTaskList] reads the card and may create a task list. *)
Lemma getOrCreateTaskList_log (cardId : string) (s s' : ENV)
  (res : Result string) :
  getOrCreateTaskList plankaRequest cardId s = (res, s') ->
  exists extra,
    appended s s' extra /\ Forall readsOrCreates extra /\ taskPosts extra = [].
Proof.
  unfold getOrCreateTaskList, tryCatch, bindM, ret, throw. intros H.
  step_request H.
  assert (G : readsOrCreates (get ("/api/cards/" ++ cardId)))
    by (left; reflexivity).
  destruct rs as [resp|e].
  - destruct (match resp_included resp with
              | Some included =>
                  match inc_taskLists included with
                  | Some tls => tls
                  | None => []
                  end
              | None => []
              end) as [|first rest].
    + step_request H.
      assert (G2 : readsOrCreates
                     (mkRequest POST ("/api/cards/" ++ cardId ++ "/task-lists")
                        (TaskListBody "Tasks" 65535 true)))
        by (right; reflexivity).
      eexists [_; _]. unfold requestsAppended.
      destruct rs as [resp2|e2];
        [destruct (resp_item resp2) as [it|];
         [destruct (itemId it =? "")|]|];
        inversion H; subst; cbn [log]; rewrite <- app_assoc;
        (split; [reflexivity|split; [auto|reflexivity]]).
    + inversion H; subst. eexists [_]. unfold requestsAppended. cbn [log].
      split; [reflexivity|split; [auto|reflexivity]].
  - inversion H; subst. eexists [_]. unfold requestsAppended. cbn [log].
    split; [reflexivity|split; [auto|reflexivity]].
Qed.

(** [createTask] reads or creates; it asks for at most one task, the one
    of its parameters, and for exactly that one when it succeeds. *)
Lemma createTask_log (cardId name : string) (position : Z) (s s' : ENV)
  (res : Result (option Item)) :
  createTask plankaRequest (mkCreateTaskParams cardId name (Some position)) s
  = (res, s') ->
  exists extra,
    appended s s' extra /\ Forall readsOrCreates extra /\
    (taskPosts extra = [(name, position)] \/
     (taskPosts extra = [] /\ isOk res = false)).
Proof.
  unfold createTask, tryCatch. unfold bindM at 1.
  cbn [ctp_cardId ctp_name ctp_position].
  destruct (getOrCreateTaskList plankaRequest cardId s) as [r1 s1] eqn:E1.
  apply getOrCreateTaskList_log in E1. destruct E1 as (ex1 & A1 & F1 & T1).
  destruct r1 as [taskListId|e1].
  - unfold bindM at 1. intros H. step_request H.
    set (post := mkRequest POST ("/api/task-lists/" ++ taskListId ++ "/tasks")
                   (TaskBody name position)) in *.
    exists (ex1 ++ [post]).
    assert (A : forall tm,
               appended s (mkEnv w (log s1 ++ [post]) tm) (ex1 ++ [post])).
    { intros tm. unfold requestsAppended in *. cbn [log]. now rewrite A1, app_assoc. }
    split; [|split].
    + destruct rs as [resp|e]; cbn in H.
      * unfold bindM, ret, rememberTask in H.
        destruct (resp_item resp) as [it|]; [destruct (itemId it =? "")|];
          inversion H; subst; apply A.
      * unfold throw in H. inversion H; subst. apply A.
    + apply Forall_app. split; [assumption|].
      constructor; [right; reflexivity|constructor].
    + left. rewrite taskPosts_app, T1. reflexivity.
  - unfold throw. intros H. inversion H; subst. exists ex1.
    split; [assumption|split; [assumption|right; split; [assumption|reflexivity]]].
Qed.

(** [createComment] issues one request, the POST of the comment. *)
Lemma createComment_log (options : CreateCommentOptions) (s s' : ENV)
  (res : Result (Item + Response)) :
  createComment plankaRequest options s = (res, s') ->
  exists r, appended s s' [r] /\ req_method r = POST /\ taskPosts [r] = [].
Proof.
  unfold createComment, tryCatch, bindM, ret, throw. intros H.
  step_request H. eexists. unfold requestsAppended.
  destruct rs as [resp|e]; [destruct (resp_item resp) as [it|]|];
    inversion H; subst; cbn; auto.
Qed.

Lemma expectedTaskPosts_app (i : nat) (a b : list string) :
  expectedTaskPosts i (a ++ b)
  = expectedTaskPosts i a ++ expectedTaskPosts (i + List.length a) b.
Proof.
  revert i. induction a as [|x a IH]; intros i;
    cbn [app expectedTaskPosts List.length].
  - now rewrite Nat.add_0_r.
  - rewrite IH.
    replace (S i + List.length a)%nat with (i + S (List.length a))%nat by lia.
    reflexivity.
Qed.

Lemma expectedTaskPosts_nth (names : list string) (i k : nat) (name : string) :
  nth_error names k = Some name ->
  nth_error (expectedTaskPosts i names) k
  = Some (name, (65535 * (Z.of_nat (i + k) + 1))%Z).
Proof.
  revert i k. induction names as [|x names IH]; intros i [|k] H;
    cbn [nth_error expectedTaskPosts] in *; try discriminate.
  - inversion H; subst. now rewrite Nat.add_0_r.
  - rewrite (IH (S i) k H).
    replace (S i + k)%nat with (i + S k)%nat by lia. reflexivity.
Qed.

Lemma expectedTaskPosts_length (i : nat) (names : list string) :
  List.length (expectedTaskPosts i names) = List.length names.
Proof. revert i. induction names; intros i; cbn; auto. Qed.

(** Whatever its outcome, the task loop only reads and creates. *)
Lemma createTasksFrom_log (names : list string) (cardId : string) (i : nat)
  (acc : list (option Item)) (s s' : ENV) (res : Result (list (option Item))) :
  createTasksFrom plankaRequest cardId i names acc s = (res, s') ->
  exists extra, appended s s' extra /\ Forall readsOrCreates extra.
Proof.
  revert i acc s. induction names as [|n names IH]; intros i acc s H.
  - cbn in H. inversion H; subst. exists []. split; [apply appended_refl|constructor].
  - cbn [createTasksFrom] in H. unfold bindM in H.
    destruct (createTask plankaRequest _ s) as [r1 s1] eqn:E1.
    apply createTask_log in E1. destruct E1 as (ex1 & A1 & F1 & _).
    destruct r1 as [task|e].
    + apply IH in H. destruct H as (ex2 & A2 & F2).
      exists (ex1 ++ ex2). split; [eapply appended_trans; eauto|].
      apply Forall_app; auto.
    + inversion H; subst. eauto.
  Qed.

(** A task loop that completes has created the tasks it was given, in
    order, at the positions [65535 * (index + 1)]. *)
Lemma createTasksFrom_ok (names : list string) (cardId : string) (i : nat)
  (acc created : list (option Item)) (s s' : ENV) :
  createTasksFrom plankaRequest cardId i names acc s = (Ok created, s') ->
  List.length created = (List.length acc + List.length names)%nat /\
  exists extra,
    appended s s' extra /\ Forall readsOrCreates extra /\
    taskPosts extra = expectedTaskPosts i names.
Proof.
  revert i acc s. induction names as [|n names IH]; intros i acc s H.
  - cbn in H. inversion H; subst. split; [cbn; lia|].
    exists []. split; [apply appended_refl|split; [constructor|reflexivity]].
  - cbn [createTasksFrom] in H. unfold bindM in H.
    destruct (createTask plankaRequest _ s) as [r1 s1] eqn:E1.
    apply createTask_log in E1. destruct E1 as (ex1 & A1 & F1 & T1).
    destruct r1 as [task|e]; [|discriminate].
    destruct T1 as [T1|[_ T1]]; [|discriminate].
    apply IH in H. destruct H as (L & ex2 & A2 & F2 & T2).
    split; [rewrite L, length_app; cbn; lia|].
    exists (ex1 ++ ex2). split; [eapply appended_trans; eauto|].
    split; [apply Forall_app; auto|].
    rewrite taskPosts_app, T1, T2. reflexivity.
Qed.

(** A failing task ends the loop with its error, where it stands. *)
Lemma createTasksFrom_fail (pre post : list string) (t cardId e : string)
  (i : nat) (acc created : list (option Item)) (s s2 s3 : ENV) :
  createTasksFrom plankaRequest cardId i pre acc s = (Ok created, s2) ->
  createTask plankaRequest
    (mkCreateTaskParams cardId t
       (Some (65535 * (Z.of_nat (i + List.length pre) + 1))%Z)) s2
  = (Err e, s3) ->
  createTasksFrom plankaRequest cardId i (pre ++ t :: post) acc s
  = (Err e, s3).
Proof.
  revert i acc s. induction pre as [|n pre IH]; intros i acc s H1 H2.
  - cbn in H1. inversion H1; subst. cbn [app createTasksFrom]. unfold bindM.
    cbn [List.length] in H2. rewrite Nat.add_0_r in H2. now rewrite H2.
  - cbn [app createTasksFrom] in *. unfold bindM in *.
    destruct (createTask plankaRequest _ s) as [[task|e1] s1]; [|discriminate].
    apply (IH (S i) _ s1 H1).
    cbn [List.length] in H2.
    replace (S i + List.length pre)%nat with (i + S (List.length pre))%nat by lia.
    exact H2.
Qed.

(** What the whole call issues, whatever its outcome: reads and creations
    only. *)
Lemma createCardWithTasks_log (params : CreateCardWithTasksParams)
  (s sf : ENV) (res : Result CardWithTasks) :
  createCardWithTasks plankaRequest params s = (res, sf) ->
  exists extra, appended s sf extra /\ Forall readsOrCreates extra.
Proof.
  unfold createCardWithTasks, tryCatch. unfold bindM at 1.
  fold (cardOptionsOf params).
  destruct (createCard plankaRequest (cardOptionsOf params) s)
    as [r1 s1] eqn:E1.
  apply createCard_log in E1. destruct E1 as (rq & A1 & M1 & _).
  assert (F1 : Forall readsOrCreates [rq])
    by (constructor; [right; exact M1|constructor]).
  destruct r1 as [card|e].
  2: { unfold throw. intros H. inversion H; subst. eauto. }
  unfold bindM at 1.
  destruct (match cwt_tasks params with
            | Some tasks => createTasksFrom plankaRequest (card_id card) 0 tasks []
            | None => ret []
            end s1) as [r2 s2] eqn:E2.
  assert (X2 : exists ex2, appended s1 s2 ex2 /\ Forall readsOrCreates ex2).
  { destruct (cwt_tasks params) as [tasks|].
    - eapply createTasksFrom_log; eauto.
    - unfold ret in E2. inversion E2; subst. exists [].
      split; [apply appended_refl|constructor]. }
  destruct X2 as (ex2 & A2 & F2).
  destruct r2 as [createdTasks|e].
  2: { unfold throw. intros H. inversion H; subst.
       exists ([rq] ++ ex2). split; [eapply appended_trans; eauto|].
       apply Forall_app; auto. }
  unfold bindM at 1.
  destruct (match cwt_comment params with
            | Some comment =>
                if comment =? "" then ret None
                else bindM (createComment plankaRequest
                              (mkCreateCommentOptions (card_id card) comment))
                       (fun c => ret (Some c))
            | None => ret None
            end s2) as [r3 s3] eqn:E3.
  assert (X3 : exists ex3, appended s2 s3 ex3 /\ Forall readsOrCreates ex3).
  { destruct (cwt_comment params) as [comment|];
      [destruct (comment =? "")|]; unfold ret in E3;
      try (inversion E3; subst; exists [];
           split; [apply appended_refl|constructor]).
    unfold bindM in E3.
    destruct (createComment plankaRequest _ s2) as [r s'] eqn:E.
    apply createComment_log in E. destruct E as (rq3 & A3 & M3 & _).
    exists [rq3]. split.
    - destruct r; inversion E3; subst; exact A3.
    - constructor; [right; exact M3|constructor]. }
  destruct X3 as (ex3 & A3 & F3).
  intros H.
  assert (sf = s3) by (destruct r3; unfold ret, throw in H; inversion H; auto).
  subst sf. exists (([rq] ++ ex2) ++ ex3).
  split; [eapply appended_trans; [eapply appended_trans|]; eauto|].
  repeat (apply Forall_app; split); auto.
Qed.

(** The task phase of the call, whether or not [tasks] was given. *)
Lemma tasks_phase (params : CreateCardWithTasksParams) (cardId : string) :
  match cwt_tasks params with
  | Some tasks => createTasksFrom plankaRequest cardId 0 tasks []
  | None => ret []
  end
  = createTasksFrom plankaRequest cardId 0 (tasksOf params) [].
Proof. unfold tasksOf. destruct (cwt_tasks params); reflexivity. Qed.

(** The call, once the card exists: the task phase, then the comment. *)
Lemma createCardWithTasks_after_card (params : CreateCardWithTasksParams)
  (s s1 : ENV) (card : Card) :
  createCard plankaRequest (cardOptionsOf params) s = (Ok card, s1) ->
  createCardWithTasks plankaRequest params s
  = match createTasksFrom plankaRequest (card_id card) 0 (tasksOf params) [] s1
    with
    | (Ok createdTasks, s2) =>
        match cwt_comment params with
        | Some comment =>
            if comment =? "" then
              (Ok (mkCardWithTasks card createdTasks None), s2)
            else
              match createComment plankaRequest
                      (mkCreateCommentOptions (card_id card) comment) s2 with
              | (Ok c, s3) =>
                  (Ok (mkCardWithTasks card createdTasks (Some c)), s3)
              | (Err e, s3) => (Err e, s3)
              end
        | None => (Ok (mkCardWithTasks card createdTasks None), s2)
        end
    | (Err e, s2) => (Err e, s2)
    end.
Proof.
  intros H. unfold createCardWithTasks, tryCatch. unfold bindM at 1.
  fold (cardOptionsOf params). rewrite H. unfold bindM at 1.
  rewrite tasks_phase.
  destruct (createTasksFrom plankaRequest (card_id card) 0 (tasksOf params) [] s1)
    as [[createdTasks|e] s2]; [|reflexivity].
  unfold bindM at 1.
  destruct (cwt_comment params) as [comment|]; [|reflexivity].
  destruct (comment =? ""); [reflexivity|].
  unfold bindM.
  destruct (createComment plankaRequest _ s2) as [[c|e] s3]; reflexivity.
Qed.

(** C9. A call of [createCardWithTasks] whose task phase completes has
    created exactly the tasks of its list, one request each, in the order
    of the list, the task of index [i] at position [65535 * (i + 1)]; the
    array of created tasks it returns has the length of the list. *)
Theorem createCardWithTasks_tasks_in_order
  (params : CreateCardWithTasksParams) (s s1 s2 : ENV) (card : Card)
  (created : list (option Item)) :
  createCard plankaRequest (cardOptionsOf params) s = (Ok card, s1) ->
  createTasksFrom plankaRequest (card_id card) 0 (tasksOf params) [] s1
  = (Ok created, s2) ->
  List.length created = List.length (tasksOf params) /\
  (exists extra,
      appended s1 s2 extra /\
      taskPosts extra = expectedTaskPosts 0 (tasksOf params)) /\
  (forall res sf,
      createCardWithTasks plankaRequest params s = (res, sf) ->
      (exists all,
          appended s sf all /\
          taskPosts all = expectedTaskPosts 0 (tasksOf params)) /\
      (forall r, res = Ok r -> cwt_createdTasks r = created)) /\
  List.length (expectedTaskPosts 0 (tasksOf params))
  = List.length (tasksOf params) /\
  (forall i name,
      nth_error (tasksOf params) i = Some name ->
      nth_error (expectedTaskPosts 0 (tasksOf params)) i
      = Some (name, (65535 * (Z.of_nat i + 1))%Z)).
Proof.
  intros Hcard Htasks.
  destruct (createTasksFrom_ok _ _ _ _ _ Htasks) as (L & ex2 & A2 & F2 & T2).
  destruct (createCard_log _ _ Hcard) as (rq & A1 & M1 & T1).
  split; [exact L|]. split; [eauto|]. split; [|split].
  - intros res sf H.
    rewrite (createCardWithTasks_after_card _ _ Hcard), Htasks in H.
    destruct (cwt_comment params) as [comment|] eqn:Ec;
      [destruct (comment =? "") eqn:En|].
    + inversion H; subst. split.
      * exists ([rq] ++ ex2). split; [eapply appended_trans; eauto|].
        now rewrite taskPosts_app, T1, T2.
      * intros r Hr. inversion Hr; subst. reflexivity.
    + destruct (createComment plankaRequest _ s2) as [rc s3] eqn:E3.
      destruct (createComment_log _ _ E3) as (rq3 & A3 & M3 & T3).
      assert (sf = s3) by (destruct rc; inversion H; auto). subst sf.
      split.
      * exists (([rq] ++ ex2) ++ [rq3]).
        split; [eapply appended_trans; [eapply appended_trans|]; eauto|].
        now rewrite !taskPosts_app, T1, T2, T3, app_nil_r.
      * intros r Hr. subst res. destruct rc; inversion H; subst. reflexivity.
    + inversion H; subst. split.
      * exists ([rq] ++ ex2). split; [eapply appended_trans; eauto|].
        now rewrite taskPosts_app, T1, T2.
      * intros r Hr. inversion Hr; subst. reflexivity.
  - apply expectedTaskPosts_length.
  - intros i name Hn. now rewrite (expectedTaskPosts_nth _ 0 _ Hn).
Qed.

(** C4.  When the card is created and a later step fails (a task, or the
    comment), the call ends with the error of that step, in the state the
    failed step left: everything it issued, from the POST of the card on,
    reads or creates, so nothing that was created is deleted or changed;
    the tasks created before the failure were asked for at their
    positions. *)
Theorem createCardWithTasks_no_rollback
  (params : CreateCardWithTasksParams) (s s1 s3 : ENV) (card : Card)
  (done : list string) (e : string) :
  createCard plankaRequest (cardOptionsOf params) s = (Ok card, s1) ->
  LaterStepFails plankaRequest params card s1 done e s3 ->
  createCardWithTasks plankaRequest params s = (Err e, s3) /\
  exists cardPost rest,
    appended s s3 (cardPost :: rest) /\
    req_method cardPost = POST /\
    Forall readsOrCreates (cardPost :: rest) /\
    (forall r, In r (cardPost :: rest) -> isDelete r = false) /\
    exists tail,
      taskPosts (cardPost :: rest) = expectedTaskPosts 0 done ++ tail /\
      (List.length tail <= 1)%nat.
Proof.
  intros Hcard Hfail.
  assert (Hrun : createCardWithTasks plankaRequest params s = (Err e, s3)).
  { rewrite (createCardWithTasks_after_card _ _ Hcard).
    destruct Hfail as [t post created s2 Hn Hpre Ht
                      |comment created s2 Hn Hc Hne Hpre Hcm].
    - rewrite Hn.
      erewrite createTasksFrom_fail; [reflexivity|exact Hpre|exact Ht].
    - rewrite Hn, Hpre, Hc.
      apply String.eqb_neq in Hne. rewrite Hne, Hcm. reflexivity. }
  split; [exact Hrun|].
  destruct (createCard_log _ _ Hcard) as (rq & A1 & M1 & T1).
  assert (X : exists rest tail,
             appended s1 s3 rest /\ Forall readsOrCreates rest /\
             taskPosts rest = expectedTaskPosts 0 done ++ tail /\
             (List.length tail <= 1)%nat).
  { destruct Hfail as [t post created s2 Hn Hpre Ht
                      |comment created s2 Hn Hc Hne Hpre Hcm].
    - destruct (createTasksFrom_ok _ _ _ _ _ Hpre) as (_ & ex2 & A2 & F2 & T2).
      destruct (createTask_log _ _ _ _ Ht) as (ex3 & A3 & F3 & T3).
      exists (ex2 ++ ex3), (taskPosts ex3).
      split; [eapply appended_trans; eauto|].
      split; [apply Forall_app; auto|].
      split; [now rewrite taskPosts_app, T2|].
      destruct T3 as [-> |[-> _]]; cbn; lia.
    - destruct (createTasksFrom_ok _ _ _ _ _ Hpre) as (_ & ex2 & A2 & F2 & T2).
      destruct (createComment_log _ _ Hcm) as (rq3 & A3 & M3 & T3).
      exists (ex2 ++ [rq3]), [].
      split; [eapply appended_trans; eauto|].
      split; [apply Forall_app; split; auto;
              constructor; [right; exact M3|constructor]|].
      split; [now rewrite taskPosts_app, T2, T3|cbn; lia]. }
  destruct X as (rest & tail & A & F & T & L).
  assert (F' : Forall readsOrCreates (rq :: rest))
    by (constructor; [right; exact M1|exact F]).
  exists rq, rest. split; [exact (appended_trans A1 A)|].
  split; [exact M1|]. split; [exact F'|]. split.
  - intros r Hr. rewrite Forall_forall in F'. unfold isDelete.
    destruct (F' r Hr) as [-> | ->]; reflexivity.
  - exists tail. split; [|exact L].
    change (rq :: rest) with ([rq] ++ rest).
    now rewrite taskPosts_app, T1, T.
Qed.

(** C8.  When the card is fetched and none of its card-label associations
    matches both [cardId] and [labelId], [removeLabelFromCard] resolves
    with [success: true] and has issued that one GET: no request goes to
    the card-labels endpoint. *)
Theorem removeLabelFromCard_absent (cardId labelId : string) (s : ENV)
  (cardResponse : Response) (w : World) :
  plankaRequest (get ("/api/cards/" ++ cardId)) (world s)
  = (Ok cardResponse, w) ->
  (forall included cardLabels cl,
      resp_included cardResponse = Some included ->
      inc_cardLabels included = Some cardLabels ->
      In cl cardLabels ->
      ~ (cardLabel_cardId cl = cardId /\ cardLabel_labelId cl = labelId)) ->
  exists result s',
    removeLabelFromCard plankaRequest cardId labelId s = (Ok result, s') /\
    rl_success result = true /\
    rl_message result = Some "Label was not on card" /\
    world s' = w /\
    appended s s' [get ("/api/cards/" ++ cardId)] /\
    filter isDelete (log s') = filter isDelete (log s).
Proof.
  intros Hget Hnone.
  unfold removeLabelFromCard, tryCatch. unfold bindM at 1.
  unfold request at 1. rewrite Hget.
  set (cardLabels := match resp_included cardResponse with
                     | Some included =>
                         match inc_cardLabels included with
                         | Some cls => cls
                         | None => []
                         end
                     | None => []
                     end).
  assert (Hfind : jsFind (fun cl => (cardLabel_cardId cl =? cardId)
                                    && (cardLabel_labelId cl =? labelId))
                    cardLabels = None).
  { unfold jsFind. apply find_all_false. intros cl Hin.
    apply andb_false_iff.
    destruct (cardLabel_cardId cl =? cardId) eqn:E1; [|now left].
    destruct (cardLabel_labelId cl =? labelId) eqn:E2; [|now right].
    exfalso. apply String.eqb_eq in E1, E2.
    subst cardLabels.
    destruct (resp_included cardResponse) as [included|] eqn:Ei;
      [|contradiction].
    destruct (inc_cardLabels included) as [cls|] eqn:Ec; [|contradiction].
    exact (Hnone included cls cl eq_refl Ec Hin (conj E1 E2)). }
  rewrite Hfind. unfold ret.
  do 2 eexists. split; [reflexivity|].
  cbn [rl_success rl_message world log]. unfold requestsAppended.
  repeat split; try reflexivity.
  rewrite filter_app. cbn. now rewrite app_nil_r.
Qed.

End WriteFacts.

(** The three properties above, on the sample service. *)

Lemma createCardWithTasks_tasks_in_order_witness :
  exists s1 s2 created,
    Effects.createCard (sampleService 3) (cardOptionsOf (sampleParams None))
      sampleEnv = (Ok sampleCard, s1) /\
    Effects.createTasksFrom (sampleService 3) "c1" 0
      ["outline"; "draft"; "review"] [] s1 = (Ok created, s2) /\
    List.length created = 3%nat /\
    taskPosts (Effects.log s2)
    = [("outline", 65535%Z); ("draft", 131070%Z); ("review", 196605%Z)].
Proof.
  pose (s1 := snd (Effects.createCard (sampleService 3)
                     (cardOptionsOf (sampleParams None)) sampleEnv)).
  pose (run := Effects.createTasksFrom (sampleService 3) "c1" 0
                 ["outline"; "draft"; "review"] [] s1).
  pose (created := repeat (Some (ItemTask (mkTask "t" "task" false None None)))
                     3).
  assert (H1 : Effects.createCard (sampleService 3)
                 (cardOptionsOf (sampleParams None)) sampleEnv
               = (Ok sampleCard, s1)) by (vm_compute; reflexivity).
  assert (H2 : Effects.createTasksFrom (sampleService 3) (card_id sampleCard)
                 0 (tasksOf (sampleParams None)) [] s1
               = (Ok created, snd run)) by (vm_compute; reflexivity).
  destruct (createCardWithTasks_tasks_in_order (sampleService 3)
              (sampleParams None) sampleEnv H1 H2)
    as (L & (extra & A & T) & _).
  exists s1, (snd run), created.
  split; [exact H1|]. split; [exact H2|]. split; [exact L|].
  unfold requestsAppended in A. rewrite A, taskPosts_app, T. reflexivity.
Defined.

Lemma createCardWithTasks_no_rollback_witness :
  exists s1 s3,
    Effects.createCard (sampleService 1) (cardOptionsOf (sampleParams None))
      sampleEnv = (Ok sampleCard, s1) /\
    LaterStepFails (sampleService 1) (sampleParams None) sampleCard s1
      ["outline"] "Failed to create task: Too many tasks" s3 /\
    Effects.createCardWithTasks (sampleService 1) (sampleParams None) sampleEnv
    = (Err "Failed to create task: Too many tasks", s3) /\
    Effects.world s3 = 1%nat /\
    forallb (fun r => negb (isDelete r)) (Effects.log s3) = true.
Proof.
  pose (s1 := snd (Effects.createCard (sampleService 1)
                     (cardOptionsOf (sampleParams None)) sampleEnv)).
  pose (s2 := snd (Effects.createTasksFrom (sampleService 1) "c1" 0
                     ["outline"] [] s1)).
  pose (s3 := snd (Effects.createTask (sampleService 1)
                     (mkCreateTaskParams "c1" "draft" (Some 131070%Z)) s2)).
  assert (H1 : Effects.createCard (sampleService 1)
                 (cardOptionsOf (sampleParams None)) sampleEnv
               = (Ok sampleCard, s1)) by (vm_compute; reflexivity).
  assert (H2 : LaterStepFails (sampleService 1) (sampleParams None) sampleCard
                 s1 ["outline"] "Failed to create task: Too many tasks" s3).
  { apply TaskFails
      with (t := "draft") (post := ["review"])
           (created := [Some (ItemTask (mkTask "t" "task" false None None))])
           (s2 := s2); vm_compute; reflexivity. }
  destruct (@createCardWithTasks_no_rollback _ _ _ _ _ _ _ _ _ H1 H2)
    as (Hrun & cardPost & rest & A & _).
  exists s1, s3. split; [exact H1|]. split; [exact H2|]. split; [exact Hrun|].
  split; vm_compute; reflexivity.
Defined.

Lemma removeLabelFromCard_absent_witness :
  sampleService 3 (get ("/api/cards/" ++ "c1")) (Effects.world sampleEnv)
  = (Ok (mkResponse (Some (ItemCard sampleCard)) None
           (Some (mkIncluded None None None None None
                    (Some [mkTaskList "tl1"])
                    (Some [mkCardLabel "cl1" "c1" "urgent-id"])))), 0%nat) /\
  exists s',
    Effects.removeLabelFromCard (sampleService 3) "c1" "bug-id" sampleEnv
    = (Ok (mkRemoveLabelResult true (Some "Label was not on card")), s') /\
    Effects.log s' = [get "/api/cards/c1"].
Proof.
  assert (H1 : sampleService 3 (get ("/api/cards/" ++ "c1"))
                 (Effects.world sampleEnv)
               = (Ok (mkResponse (Some (ItemCard sampleCard)) None
                        (Some (mkIncluded None None None None None
                                 (Some [mkTaskList "tl1"])
                                 (Some [mkCardLabel "cl1" "c1" "urgent-id"])))),
                  0%nat)) by reflexivity.
  split; [exact H1|].
  destruct (@removeLabelFromCard_absent _ (sampleService 3) "c1" "bug-id"
              sampleEnv _ _ H1) as (result & s' & Hrun & Hs & Hm & _ & A & _).
  - intros included cardLabels cl Hi Hc Hin [_ Hl].
    cbn in Hi. inversion Hi; subst included. cbn in Hc.
    inversion Hc; subst cardLabels.
    destruct Hin as [<- |[]]. discriminate Hl.
  - exists s'. destruct result as [ok msg]. cbn in Hs, Hm. subst ok msg.
    split; [exact Hrun|]. exact A.
Defined.

(** ** Board summary *)

Lemma promiseAllMap_pure (A B : Type) (g : A -> B) (xs : list A) :
  promiseAllMap (fun x => Ok (g x)) xs = Ok (map g xs).
Proof.
  induction xs as [|x xs IH]; cbn; [reflexivity|]. now rewrite IH.
Qed.

Lemma promiseAllMap_ext (A B : Type) (f g : A -> Result B) (xs : list A) :
  (forall x, In x xs -> f x = g x) ->
  promiseAllMap f xs = promiseAllMap g xs.
Proof.
  induction xs as [|x xs IH]; intros H; cbn; [reflexivity|].
  rewrite (H x (or_introl eq_refl)), IH; [reflexivity|].
  intros y Hy. apply H. now right.
Qed.

(** One rejecting callback makes [Promise.all] reject. *)
Lemma promiseAllMap_rejects (A B : Type) (f : A -> Result B) (xs : list A)
  (x : A) :
  In x xs -> isErr (f x) = true -> isErr (promiseAllMap f xs) = true.
Proof.
  induction xs as [|y xs IH]; intros Hin Hx; [contradiction|].
  cbn. destruct Hin as [-> |Hin].
  - destruct (f x); [discriminate|reflexivity].
  - destruct (f y); [|reflexivity]. cbn.
    specialize (IH Hin Hx). destruct (promiseAllMap f xs); [discriminate|reflexivity].
Qed.

(** A resolved [Promise.all] pairs every input with its result. *)
Lemma promiseAllMap_resolves (A B : Type) (f : A -> Result B) (xs : list A)
  (ys : list B) :
  promiseAllMap f xs = Ok ys -> Forall2 (fun x y => f x = Ok y) xs ys.
Proof.
  revert ys. induction xs as [|x xs IH]; intros ys H; cbn in H.
  - inversion H. constructor.
  - destruct (f x) as [y|] eqn:Ex; [|discriminate]. cbn in H.
    destruct (promiseAllMap f xs) as [ys'|]; [|discriminate].
    inversion H; subst. constructor; auto.
Qed.

Lemma isErr_bind (A B : Type) (m : Result A) (k : A -> Result B) :
  isErr m = true -> isErr (bind m k) = true.
Proof. destruct m; [discriminate|reflexivity]. Qed.

Section SummaryFacts.

Variable toLowerCase : string -> string.
Variable getBoard : string -> Result (option Board).
Variable getLists : string -> Result (list PList).
Variable getCards : string -> Result (list Card).
Variable getTasks : string -> Result (list Task).
Variable getComments : string -> Result (list Comment).
Variable getLabels : string -> Result (list Label).

Local Notation "'summaryOf'" :=
  (getBoardSummary toLowerCase getBoard getLists getCards getTasks
     getComments getLabels).

(** What a resolved [listWithCards] holds. *)
Lemma listWithCards_resolves (itd ic : bool) (l : PList) (lw : ListWithCards) :
  listWithCards getCards getTasks getComments itd ic l = Ok lw ->
  lwc_list lw = l /\
  exists cards,
    getCards (list_id l) = Ok cards /\
    lwc_cardCount lw = List.length cards /\
    map cwd_card (lwc_cards lw) = cards.
Proof.
  unfold listWithCards. destruct (getCards (list_id l)) as [cards|];
    [|discriminate]. cbn.
  destruct (promiseAllMap _ cards) as [cds|] eqn:E; [|discriminate]. cbn.
  intros H. inversion H; subst. clear H. cbn. split; [reflexivity|].
  exists cards. split; [reflexivity|].
  apply promiseAllMap_resolves in E.
  assert (X : map cwd_card cds = cards).
  { induction E as [|c cd cards cds Hc _ IH]; cbn; [reflexivity|].
    f_equal; [|exact IH]. unfold cardWithDetails in Hc.
    destruct (if itd then getTasks (card_id c) else Ok []); [|discriminate].
    destruct (if ic then getComments (card_id c) else Ok []); [|discriminate].
    cbn in Hc. inversion Hc. reflexivity. }
  split; [|exact X]. now rewrite <- X, length_map.
Qed.

(** The count the summary reads for the name [lit] is positive exactly
    when the list so named holds a card. *)
Lemma findList_count (itd ic : bool) (lit : string) (lists : list PList)
  (lws : list ListWithCards) :
  Forall2 (fun l lw =>
             listWithCards getCards getTasks getComments itd ic l = Ok lw)
    lists lws ->
  (0 < cardCountOr0 (findList toLowerCase lit lws))%nat <->
  namedListHasCards toLowerCase getCards lit lists.
Proof.
  intros F. induction F as [|l lw lists lws Hl _ IH].
  - cbn. split; [lia|]. intros (l & cards & (pre & post & E & _) & _).
    destruct pre; discriminate.
  - destruct (listWithCards_resolves _ _ _ Hl) as (El & cards & Hc & Hn & _).
    unfold findList, jsFind in *. cbn [find]. rewrite El.
    destruct (nameIs toLowerCase (list_name l) lit) eqn:En.
    + cbn [cardCountOr0]. rewrite Hn. split.
      * intros Hpos. exists l, cards. split; [|split; [exact Hc|]].
        -- exists [], lists. split; [reflexivity|split; [exact En|constructor]].
        -- intros ->. cbn in Hpos. lia.
      * intros (l' & cards' & (pre & post & E & En' & Fpre) & Hc' & Hne).
        destruct pre as [|x pre].
        -- cbn in E. inversion E; subst l'. rewrite Hc in Hc'.
           inversion Hc'; subst cards'. destruct cards; [contradiction|cbn; lia].
        -- cbn in E. inversion E; subst x. inversion Fpre; subst.
           congruence.
    + rewrite IH. split.
      * intros (l' & cards' & (pre & post & E & En' & Fpre) & Hc' & Hne).
        exists l', cards'. split; [|split; assumption].
        exists (l :: pre), post. rewrite E.
        split; [reflexivity|split; [exact En'|constructor; assumption]].
      * intros (l' & cards' & (pre & post & E & En' & Fpre) & Hc' & Hne).
        destruct pre as [|x pre].
        -- cbn in E. inversion E; subst l'. congruence.
        -- cbn in E. inversion E; subst x lists. inversion Fpre; subst.
           exists l', cards'. split; [|split; assumption].
           exists pre, post. auto.
Qed.

(** No list named [lit]: the count read for it is zero. *)
Lemma findList_absent (itd ic : bool) (lit : string) (lists : list PList)
  (lws : list ListWithCards) :
  Forall2 (fun l lw =>
             listWithCards getCards getTasks getComments itd ic l = Ok lw)
    lists lws ->
  (forall l, In l lists -> nameIs toLowerCase (list_name l) lit = false) ->
  cardCountOr0 (findList toLowerCase lit lws) = 0%nat.
Proof.
  intros F Habs.
  destruct (cardCountOr0 (findList toLowerCase lit lws)) eqn:E; [reflexivity|].
  assert (P : (0 < cardCountOr0 (findList toLowerCase lit lws))%nat) by lia.
  apply (proj1 (findList_count _ _ lit F)) in P.
  destruct P as (l & cards & (pre & post & El & En & _) & _).
  rewrite Habs in En; [discriminate|]. rewrite El. apply in_elt.
Qed.

(** What a resolved summary was built from. *)
Lemma getBoardSummary_resolves (params : GetBoardSummaryParams)
  (s : BoardSummary) :
  summaryOf params = Ok s ->
  exists lists,
    getLists (sp_boardId params) = Ok lists /\
    Forall2 (fun l lw =>
               listWithCards getCards getTasks getComments
                 (sp_includeTaskDetails params) (sp_includeComments params) l
               = Ok lw)
      lists (bs_lists s) /\
    getLabels (sp_boardId params) = Ok (bs_labels s) /\
    nextActionSuggestion (bs_workflowState s)
    = getNextActionSuggestion
        (cardCountOr0 (findList toLowerCase "backlog" (bs_lists s)))
        (cardCountOr0 (findList toLowerCase "in progress" (bs_lists s)))
        (cardCountOr0 (findList toLowerCase "testing" (bs_lists s))).
Proof.
  unfold getBoardSummary.
  destruct (getBoard (sp_boardId params)) as [[board|]|]; try discriminate.
  cbn [bind].
  destruct (getLists (sp_boardId params)) as [lists|]; [|discriminate].
  cbn [bind].
  destruct (promiseAllMap _ lists) as [lws|] eqn:E; [|discriminate].
  cbn [bind].
  destruct (getLabels (sp_boardId params)) as [labels|]; [|discriminate].
  cbn [bind]. intros H. inversion H; subst; clear H. cbn.
  exists lists. split; [reflexivity|].
  split; [apply promiseAllMap_resolves; exact E|]. split; reflexivity.
Qed.

(** C6.  The suggestion of a board summary follows the first match of:
    the list named "testing" holds a card (review them); else the list
    named "in progress" holds a card (continue); else the list named
    "backlog" holds a card (start one); else the generic suggestion.
    Names are compared after lower-casing, and a board on which no list
    carries any of the three names gets the generic suggestion. *)
Theorem nextActionSuggestion_priority (params : GetBoardSummaryParams)
  (s : BoardSummary) (lists : list PList) :
  summaryOf params = Ok s ->
  getLists (sp_boardId params) = Ok lists ->
  let suggestion := nextActionSuggestion (bs_workflowState s) in
  let testing := namedListHasCards toLowerCase getCards "testing" lists in
  let inProgress :=
    namedListHasCards toLowerCase getCards "in progress" lists in
  let backlog := namedListHasCards toLowerCase getCards "backlog" lists in
  (testing -> suggestion = "Review cards in Testing that need feedback") /\
  (~ testing -> inProgress ->
   suggestion = "Continue working on cards in In Progress") /\
  (~ testing -> ~ inProgress -> backlog ->
   suggestion = "Start working on a card from Backlog") /\
  (~ testing -> ~ inProgress -> ~ backlog ->
   suggestion = "All tasks complete! Create new cards or projects") /\
  ((forall l, In l lists ->
      nameIs toLowerCase (list_name l) "testing" = false /\
      nameIs toLowerCase (list_name l) "in progress" = false /\
      nameIs toLowerCase (list_name l) "backlog" = false) ->
   suggestion = "All tasks complete! Create new cards or projects").
Proof.
  intros Hs Hl.
  destruct (getBoardSummary_resolves _ Hs) as (lists' & Hl' & F & _ & Hn).
  rewrite Hl in Hl'. inversion Hl'; subst lists'; clear Hl'.
  cbv zeta. rewrite Hn. unfold getNextActionSuggestion.
  pose proof (findList_count _ _ "testing" F) as Ct.
  pose proof (findList_count _ _ "in progress" F) as Cp.
  pose proof (findList_count _ _ "backlog" F) as Cb.
  repeat split.
  - intros T. apply Ct in T. apply Nat.ltb_lt in T. now rewrite T.
  - intros NT P.
    destruct (0 <? cardCountOr0 (findList toLowerCase "testing" (bs_lists s)))%nat
      eqn:Et; [apply Nat.ltb_lt in Et; tauto|].
    apply Cp in P. apply Nat.ltb_lt in P. now rewrite P.
  - intros NT NP B.
    destruct (0 <? cardCountOr0 (findList toLowerCase "testing" (bs_lists s)))%nat
      eqn:Et; [apply Nat.ltb_lt in Et; tauto|].
    destruct (0 <? cardCountOr0 (findList toLowerCase "in progress" (bs_lists s)))%nat
      eqn:Ep; [apply Nat.ltb_lt in Ep; tauto|].
    apply Cb in B. apply Nat.ltb_lt in B. now rewrite B.
  - intros NT NP NB.
    destruct (0 <? cardCountOr0 (findList toLowerCase "testing" (bs_lists s)))%nat
      eqn:Et; [apply Nat.ltb_lt in Et; tauto|].
    destruct (0 <? cardCountOr0 (findList toLowerCase "in progress" (bs_lists s)))%nat
      eqn:Ep; [apply Nat.ltb_lt in Ep; tauto|].
    destruct (0 <? cardCountOr0 (findList toLowerCase "backlog" (bs_lists s)))%nat
      eqn:Eb; [apply Nat.ltb_lt in Eb; tauto|].
    reflexivity.
  - intros Habs.
    rewrite (findList_absent _ _ "testing" F),
            (findList_absent _ _ "in progress" F),
            (findList_absent _ _ "backlog" F);
      [reflexivity| | |]; intros l Hin; apply (Habs l Hin).
Qed.

(** [getBoardSummary] recovers from nothing: when the board exists and an
    accessor call for a nested collection rejects, the call rejects. *)
Lemma getBoardSummary_propagates (params : GetBoardSummaryParams)
  (board : Board) (lists : list PList) :
  getBoard (sp_boardId params) = Ok (Some board) ->
  getLists (sp_boardId params) = Ok lists ->
  NestedFetchRejects getCards getTasks getComments getLabels params lists ->
  isErr (summaryOf params) = true.
Proof.
  intros Hb Hl Hrej. unfold getBoardSummary. rewrite Hb. cbn [bind].
  rewrite Hl. cbn [bind].
  set (f := listWithCards getCards getTasks getComments
              (sp_includeTaskDetails params) (sp_includeComments params)).
  assert (Hlist : forall l cards c,
             In l lists -> getCards (list_id l) = Ok cards -> In c cards ->
             isErr (cardWithDetails getTasks getComments
                      (sp_includeTaskDetails params)
                      (sp_includeComments params) c) = true ->
             isErr (promiseAllMap f lists) = true).
  { intros l cards c Hin Hc Hcin Hcd.
    apply (promiseAllMap_rejects f lists l Hin).
    unfold f, listWithCards. rewrite Hc. cbn [bind].
    apply isErr_bind. exact (promiseAllMap_rejects _ cards c Hcin Hcd). }
  destruct Hrej as [l e Hin Hc|l cards c e Hflag Hin Hc Hcin He
                   |l cards c e Hflag Hin Hc Hcin He|e He].
  - apply isErr_bind. apply (promiseAllMap_rejects f lists l Hin).
    unfold f, listWithCards. now rewrite Hc.
  - apply isErr_bind. apply (Hlist l cards c Hin Hc Hcin).
    unfold cardWithDetails. now rewrite Hflag, He.
  - apply isErr_bind. apply (Hlist l cards c Hin Hc Hcin).
    unfold cardWithDetails. rewrite Hflag, He.
    destruct (if sp_includeTaskDetails params then getTasks (card_id c)
              else Ok []); reflexivity.
  - destruct (promiseAllMap f lists); [|reflexivity]. cbn [bind].
    now rewrite He.
Qed.

End SummaryFacts.

(** ** The accessors of [operations/] on a failing request *)

Section AccessorFacts.

Variable plankaRequest : Request -> Result Response.

Lemma getLabels_swallows (boardId : string) :
  isErr (plankaRequest (get ("/api/boards/" ++ boardId))) = true ->
  Snapshot.getLabels plankaRequest boardId = [].
Proof.
  unfold Snapshot.getLabels. destruct (plankaRequest _); [discriminate|reflexivity].
Qed.

Lemma getLists_swallows (boardId : string) :
  isErr (plankaRequest (get ("/api/boards/" ++ boardId))) = true ->
  Snapshot.getLists plankaRequest boardId = [].
Proof.
  unfold Snapshot.getLists. destruct (plankaRequest _); [discriminate|reflexivity].
Qed.

Lemma getTasks_swallows (cardId : string) :
  isErr (plankaRequest (get ("/api/cards/" ++ cardId))) = true ->
  Snapshot.getTasks plankaRequest cardId = [].
Proof.
  unfold Snapshot.getTasks. destruct (plankaRequest _); [discriminate|reflexivity].
Qed.

Lemma getComments_swallows (cardId : string) :
  isErr (plankaRequest (get ("/api/cards/" ++ cardId ++ "/comments"))) = true ->
  Snapshot.getComments plankaRequest cardId = [].
Proof.
  unfold Snapshot.getComments.
  destruct (plankaRequest _); [discriminate|reflexivity].
Qed.

Lemma getCards_swallows (listId : string) :
  isErr (plankaRequest (get "/api/projects")) = true ->
  Snapshot.getCards plankaRequest listId = [].
Proof.
  unfold Snapshot.getCards. destruct (plankaRequest _); [discriminate|reflexivity].
Qed.

End AccessorFacts.

(** ** The board summary over the accessors of [operations/] *)

Section SummaryOnFacts.

Variable toLowerCase : string -> string.
Variable getBoard : string -> Result (option Board).
Variable plankaRequest : Request -> Result Response.

Lemma getBoardSummaryOn_resolves (params : GetBoardSummaryParams)
  (board : Board) :
  getBoard (sp_boardId params) = Ok (Some board) ->
  exists s,
    getBoardSummaryOn toLowerCase getBoard plankaRequest params = Ok s /\
    bs_board s = board /\
    bs_labels s = Snapshot.getLabels plankaRequest (sp_boardId params) /\
    bs_lists s
    = map (listOf plankaRequest (sp_includeTaskDetails params)
             (sp_includeComments params))
        (Snapshot.getLists plankaRequest (sp_boardId params)).
Proof.
  intros Hb. unfold getBoardSummaryOn, getBoardSummary. rewrite Hb.
  cbn [bind].
  rewrite (promiseAllMap_ext _
             (fun l => Ok (listOf plankaRequest (sp_includeTaskDetails params)
                             (sp_includeComments params) l))).
  - rewrite promiseAllMap_pure. cbn [bind]. eexists. split; [reflexivity|].
    cbn. auto.
  - intros l _. unfold listWithCards. cbn [bind].
    rewrite (promiseAllMap_ext _
               (fun c => Ok (detailsOf plankaRequest
                               (sp_includeTaskDetails params)
                               (sp_includeComments params) c))).
    + rewrite promiseAllMap_pure. reflexivity.
    + intros c _. unfold cardWithDetails, detailsOf.
      destruct (sp_includeTaskDetails params), (sp_includeComments params);
        reflexivity.
Qed.

(** With the accessors of [operations/], and comments not asked for, the
    summary of an existing board always resolves; a failed request behind
    the labels, the cards or the tasks of a card leaves that collection
    empty in it. *)
Lemma getBoardSummaryOn_swallows (params : GetBoardSummaryParams)
  (board : Board) :
  getBoard (sp_boardId params) = Ok (Some board) ->
  sp_includeComments params = false ->
  exists s,
    getBoardSummaryOn toLowerCase getBoard plankaRequest params = Ok s /\
    (isErr (plankaRequest (get ("/api/boards/" ++ sp_boardId params))) = true ->
     bs_labels s = []) /\
    (isErr (plankaRequest (get "/api/projects")) = true ->
     forall lw, In lw (bs_lists s) ->
                lwc_cards lw = [] /\ lwc_cardCount lw = 0%nat) /\
    (sp_includeTaskDetails params = true ->
     forall lw cd,
       In lw (bs_lists s) -> In cd (lwc_cards lw) ->
       isErr (plankaRequest (get ("/api/cards/" ++ card_id (cwd_card cd))))
       = true ->
       cwd_tasks cd = Some (mkTaskSummary [] 0 0 0)).
Proof.
  intros Hb _.
  destruct (getBoardSummaryOn_resolves params Hb) as (s & Hs & _ & Hlab & Hls).
  exists s. split; [exact Hs|]. split; [|split].
  - intros He. rewrite Hlab. now apply getLabels_swallows.
  - intros He lw Hin. rewrite Hls in Hin. apply in_map_iff in Hin.
    destruct Hin as (l & <- & _). unfold listOf.
    rewrite (getCards_swallows _ _ He). split; reflexivity.
  - intros Hflag lw cd Hin Hcd He. rewrite Hls in Hin.
    apply in_map_iff in Hin. destruct Hin as (l & <- & _).
    unfold listOf in Hcd. cbn [lwc_cards] in Hcd.
    apply in_map_iff in Hcd. destruct Hcd as (c & <- & _).
    unfold detailsOf in *. rewrite Hflag in *. cbn [cwd_card] in He.
    cbn [cwd_tasks]. rewrite (getTasks_swallows _ _ He). reflexivity.
Qed.

End SummaryOnFacts.

(** C1 (amended).  On a board that exists, [getBoardSummary] recovers from
    nothing: if an accessor call for a nested collection rejects, the call
    rejects.  But [getCards], [getTasks] and [getLabels] never reject: a
    failed request is caught inside them and read as the empty array, so
    the call (comments not asked for) resolves with a summary in which
    that collection is empty. *)
Theorem getBoardSummary_nested_failures (toLowerCase : string -> string)
  (getBoard : string -> Result (option Board))
  (params : GetBoardSummaryParams) (board : Board) :
  getBoard (sp_boardId params) = Ok (Some board) ->
  (forall getLists getCards getTasks getComments getLabels lists,
      getLists (sp_boardId params) = Ok lists ->
      NestedFetchRejects getCards getTasks getComments getLabels params lists ->
      isErr (getBoardSummary toLowerCase getBoard getLists getCards getTasks
               getComments getLabels params) = true) /\
  (forall plankaRequest,
      sp_includeComments params = false ->
      exists s,
        getBoardSummaryOn toLowerCase getBoard plankaRequest params = Ok s /\
        (isErr (plankaRequest (get ("/api/boards/" ++ sp_boardId params)))
         = true ->
         bs_labels s = []) /\
        (isErr (plankaRequest (get "/api/projects")) = true ->
         forall lw, In lw (bs_lists s) ->
                    lwc_cards lw = [] /\ lwc_cardCount lw = 0%nat) /\
        (sp_includeTaskDetails params = true ->
         forall lw cd,
           In lw (bs_lists s) -> In cd (lwc_cards lw) ->
           isErr (plankaRequest (get ("/api/cards/" ++ card_id (cwd_card cd))))
           = true ->
           cwd_tasks cd = Some (mkTaskSummary [] 0 0 0))).
Proof.
  intros Hb. split.
  - intros getLists getCards getTasks getComments getLabels lists Hl Hrej.
    eapply getBoardSummary_propagates; eauto.
  - intros plankaRequest Hc.
    eapply getBoardSummaryOn_swallows; eauto.
Qed.

Lemma getBoardSummary_nested_failures_witness :
  sampleGetBoard (sp_boardId (mkSummaryParams "b1" true false))
  = Ok (Some sampleBoard) /\
  exists s,
    getBoardSummaryOn asciiLower sampleGetBoard (boardSnapshot 2 1)
      (mkSummaryParams "b1" true false) = Ok s /\
    forall lw cd,
      In lw (bs_lists s) -> In cd (lwc_cards lw) ->
      card_id (cwd_card cd) <> "l2-A" ->
      cwd_tasks cd = Some (mkTaskSummary [] 0 0 0).
Proof.
  assert (Hb : sampleGetBoard (sp_boardId (mkSummaryParams "b1" true false))
               = Ok (Some sampleBoard)) by reflexivity.
  split; [exact Hb|].
  destruct (proj2 (@getBoardSummary_nested_failures asciiLower sampleGetBoard
                     (mkSummaryParams "b1" true false) sampleBoard Hb)
              (boardSnapshot 2 1) eq_refl) as (s & Hs & _ & _ & Ht).
  exists s. split; [exact Hs|].
  intros lw cd Hlw Hcd Hid. apply (Ht eq_refl lw cd Hlw Hcd).
  unfold boardSnapshot, get. cbn [req_method req_path].
  destruct ("/api/cards/" ++ card_id (cwd_card cd) =? "/api/projects")%string
    eqn:E1; [apply String.eqb_eq in E1|].
  - assert (L : String.length ("/api/cards/" ++ card_id (cwd_card cd))
                = String.length "/api/projects") by now rewrite E1.
    cbn in E1. inversion E1.
  - destruct ("/api/cards/" ++ card_id (cwd_card cd) =? "/api/boards/b1")%string
      eqn:E2; [apply String.eqb_eq in E2; cbn in E2; inversion E2|].
    destruct ("/api/cards/" ++ card_id (cwd_card cd) =? "/api/cards/l2-A")%string
      eqn:E3; [|reflexivity].
    apply String.eqb_eq in E3. cbn in E3. inversion E3. contradiction.
Defined.

(** The claim as the specification states it fails: the request for the
    tasks of a card fails, and the call still resolves, with the tasks of
    that card empty. *)
Lemma getBoardSummary_nested_failures_counterexample :
  isErr (boardSnapshot 2 1 (get ("/api/cards/" ++ "l1-A"))) = true /\
  isErr (getBoardSummaryOn asciiLower sampleGetBoard (boardSnapshot 2 1)
           (mkSummaryParams "b1" true false)) = false /\
  match getBoardSummaryOn asciiLower sampleGetBoard (boardSnapshot 2 1)
          (mkSummaryParams "b1" true false) with
  | Ok s =>
      map (fun lw => map (fun cd => (card_id (cwd_card cd), cwd_tasks cd))
                       (lwc_cards lw)) (bs_lists s)
      = [[("l1-A", Some (mkTaskSummary [] 0 0 0));
          ("l1-B", Some (mkTaskSummary [] 0 0 0))];
         [("l2-A",
           Some (mkTaskSummary
                   (repeat (mkTask "t" "task" true None None) 23
                    ++ repeat (mkTask "t" "task" false None None) 17)
                   40 23 57))]]
  | Err _ => False
  end.
Proof. vm_compute. repeat split. Qed.

Lemma nextActionSuggestion_priority_witness :
  let getLists := fun id => Ok (Snapshot.getLists (boardSnapshot 2 1) id) in
  let getCards := fun id => Ok (Snapshot.getCards (boardSnapshot 2 1) id) in
  exists s,
    getBoardSummaryOn asciiLower sampleGetBoard (boardSnapshot 2 1)
      (mkSummaryParams "b1" false false) = Ok s /\
    getLists "b1" = Ok [mkPList "l1" "b1" (Some "Backlog");
                        mkPList "l2" "b1" (Some "Done")] /\
    namedListHasCards asciiLower getCards "backlog"
      [mkPList "l1" "b1" (Some "Backlog"); mkPList "l2" "b1" (Some "Done")] /\
    nextActionSuggestion (bs_workflowState s)
    = "Start working on a card from Backlog".
Proof.
  intros getLists getCards.
  pose (params := mkSummaryParams "b1" false false).
  pose (lists := [mkPList "l1" "b1" (Some "Backlog");
                  mkPList "l2" "b1" (Some "Done")]).
  destruct (getBoardSummaryOn asciiLower sampleGetBoard (boardSnapshot 2 1)
              params) as [s|e] eqn:Hs; [|vm_compute in Hs; discriminate].
  assert (Hl : getLists (sp_boardId params) = Ok lists) by reflexivity.
  assert (absent : forall lit,
             (forall l, In l lists -> nameIs asciiLower (list_name l) lit = false) ->
             ~ namedListHasCards asciiLower getCards lit lists).
  { intros lit Habs (l & cards & (pre & post & E & En & _) & _).
    rewrite Habs in En; [discriminate|]. rewrite E. apply in_elt. }
  assert (NT : ~ namedListHasCards asciiLower getCards "testing" lists).
  { apply absent. intros l [<- |[<- |[]]]; reflexivity. }
  assert (NP : ~ namedListHasCards asciiLower getCards "in progress" lists).
  { apply absent. intros l [<- |[<- |[]]]; reflexivity. }
  assert (B : namedListHasCards asciiLower getCards "backlog" lists).
  { exists (mkPList "l1" "b1" (Some "Backlog")),
      [cardIn "l1" 0; cardIn "l1" 1].
    split; [|split; [reflexivity|discriminate]].
    exists [], [mkPList "l2" "b1" (Some "Done")].
    split; [reflexivity|split; [reflexivity|constructor]]. }
  destruct (@nextActionSuggestion_priority asciiLower sampleGetBoard getLists
              getCards
              (fun id => Ok (Snapshot.getTasks (boardSnapshot 2 1) id))
              (fun id => Ok (Snapshot.getComments (boardSnapshot 2 1) id))
              (fun id => Ok (Snapshot.getLabels (boardSnapshot 2 1) id))
              params s lists Hs Hl) as (_ & _ & Hstart & _).
  exists s. split; [exact Hs|]. split; [exact Hl|]. split; [exact B|].
  exact (Hstart NT NP B).
Defined.

(** ** The two percentages *)

Section PercentageFacts.

Variable toLowerCase : string -> string.
Variable getBoard : string -> Result (option Board).
Variable getLists : string -> Result (list PList).
Variable getCards : string -> Result (list Card).
Variable getTasks : string -> Result (list Task).
Variable getComments : string -> Result (list Comment).
Variable getLabels : string -> Result (list Label).

(** Both percentages of a summary are [roundedPercentage] of the two
    counts they stand beside. *)
Lemma getBoardSummary_percentages (params : GetBoardSummaryParams)
  (s : BoardSummary) :
  getBoardSummary toLowerCase getBoard getLists getCards getTasks getComments
    getLabels params = Ok s ->
  completionPercentage (bs_stats s)
  = roundedPercentage (doneCount (bs_stats s)) (totalCards (bs_stats s)) /\
  forall lw cd ts,
    In lw (bs_lists s) -> In cd (lwc_cards lw) -> cwd_tasks cd = Some ts ->
    ts_total ts = List.length (ts_items ts) /\
    ts_completed ts = List.length (filter task_isCompleted (ts_items ts)) /\
    ts_completionPercentage ts
    = roundedPercentage (ts_completed ts) (ts_total ts).
Proof.
  intros Hs. split.
  - unfold getBoardSummary in Hs.
    destruct (getBoard (sp_boardId params)) as [[board|]|]; try discriminate.
    cbn [bind] in Hs.
    destruct (getLists (sp_boardId params)) as [lists|]; [|discriminate].
    cbn [bind] in Hs.
    destruct (promiseAllMap _ lists) as [lws|]; [|discriminate].
    cbn [bind] in Hs.
    destruct (getLabels (sp_boardId params)) as [labels|]; [|discriminate].
    cbn [bind] in Hs. inversion Hs; subst; clear Hs. reflexivity.
  - destruct (getBoardSummary_resolves _ _ _ _ _ _ _ _ Hs)
      as (lists & _ & F & _).
    intros lw cd ts Hlw Hcd Hts.
    destruct (@Forall2_In_right _ _ _ _ _ _ F Hlw) as (l & _ & Hl).
    unfold listWithCards in Hl.
    destruct (getCards (list_id l)) as [cards|]; [|discriminate].
    cbn [bind] in Hl.
    destruct (promiseAllMap _ cards) as [cds|] eqn:E; [|discriminate].
    cbn [bind] in Hl. inversion Hl; subst lw; clear Hl. cbn [lwc_cards] in Hcd.
    apply promiseAllMap_resolves in E.
    destruct (@Forall2_In_right _ _ _ _ _ _ E Hcd) as (c & _ & Hc).
    unfold cardWithDetails in Hc.
    destruct (if sp_includeTaskDetails params then getTasks (card_id c)
              else Ok []) as [tasks|]; [|discriminate].
    cbn [bind] in Hc.
    destruct (if sp_includeComments params then getComments (card_id c)
              else Ok []) as [cms|]; [|discriminate].
    cbn [bind] in Hc. inversion Hc; subst cd; clear Hc. cbn [cwd_tasks] in Hts.
    destruct (sp_includeTaskDetails params); [|discriminate].
    inversion Hts; subst ts. cbn. auto.
Qed.

End PercentageFacts.

(** Below forty, the double-precision computation returns the exactly
    rounded percentage. *)
Lemma roundedPercentage_exact_below_40 (part total : nat) :
  (part <= total)%nat -> (total < 40)%nat ->
  roundedPercentage part total = exactRoundedPercentage part total.
Proof.
  intros Hp Ht.
  assert (H : forallb
                (fun t =>
                   forallb
                     (fun p => Z.eqb (roundedPercentage p t)
                                 (exactRoundedPercentage p t))
                     (seq 0 (S t)))
                (seq 0 40) = true) by (vm_compute; reflexivity).
  rewrite forallb_forall in H.
  assert (Hin : In total (seq 0 40)) by (apply in_seq; lia).
  specialize (H total Hin). rewrite forallb_forall in H.
  apply Z.eqb_eq. apply H. apply in_seq. lia.
Qed.

(** C5.  Every summary computes its percentages as
    [Math.round((part / total) * 100)] in double precision, [0] when
    [total] is [0]; one of three gives [33], and below forty the result is
    the exactly rounded percentage.  At twenty-three of forty it is not:
    [(23 / 40) * 100] is [57.49999999999999] in double precision and
    rounds to [57], while [100 * 23 / 40 = 57.5] rounds to [58].  The board
    with forty cards, twenty-three of them in "Done", and its card with
    forty tasks, twenty-three of them completed, both show [57]. *)
Theorem completionPercentage_rounding :
  (forall toLowerCase getBoard getLists getCards getTasks getComments
          getLabels params s,
      getBoardSummary toLowerCase getBoard getLists getCards getTasks
        getComments getLabels params = Ok s ->
      completionPercentage (bs_stats s)
      = roundedPercentage (doneCount (bs_stats s)) (totalCards (bs_stats s)) /\
      forall lw cd ts,
        In lw (bs_lists s) -> In cd (lwc_cards lw) -> cwd_tasks cd = Some ts ->
        ts_completionPercentage ts
        = roundedPercentage (ts_completed ts) (ts_total ts)) /\
  (forall part, roundedPercentage part 0 = 0%Z) /\
  roundedPercentage 1 3 = 33%Z /\
  (forall part total,
      (part <= total)%nat -> (total < 40)%nat ->
      roundedPercentage part total = exactRoundedPercentage part total) /\
  roundedPercentage 23 40 = 57%Z /\
  exactRoundedPercentage 23 40 = 58%Z /\
  match getBoardSummaryOn asciiLower sampleGetBoard (boardSnapshot 17 23)
          (mkSummaryParams "b1" true false) with
  | Ok s =>
      (totalCards (bs_stats s), doneCount (bs_stats s),
       completionPercentage (bs_stats s)) = (40%nat, 23%nat, 57%Z) /\
      flat_map
        (fun lw =>
           flat_map
             (fun cd =>
                match cwd_tasks cd with
                | Some ts =>
                    if (0 <? ts_total ts)%nat
                    then [(ts_total ts, ts_completed ts,
                           ts_completionPercentage ts)]
                    else []
                | None => []
                end) (lwc_cards lw)) (bs_lists s)
      = [(40%nat, 23%nat, 57%Z)]
  | Err _ => False
  end.
Proof.
  split; [|split; [|split; [|split; [|split; [|split]]]]].
  - intros toLowerCase getBoard getLists getCards getTasks getComments
      getLabels params s Hs.
    destruct (getBoardSummary_percentages _ _ _ _ _ _ _ _ Hs) as [H1 H2].
    split; [exact H1|]. intros lw cd ts Hlw Hcd Hts.
    apply (H2 lw cd ts Hlw Hcd Hts).
  - intros part. reflexivity.
  - vm_compute. reflexivity.
  - exact roundedPercentage_exact_below_40.
  - vm_compute. reflexivity.
  - vm_compute. reflexivity.
  - vm_compute. split; reflexivity.
Qed.

(** ** The final sort of the activity feed *)

Section SortFacts.

Variable parseDate : string -> option Z.

Local Notation "'timeOf'" := (entryTime parseDate).
Local Notation "'insertE'" := (insertEntry parseDate).
Local Notation "'sortE'" := (sortChanges parseDate).

Local Notation "'dated'" := (datedEntry parseDate).
Local Notation "'notOlder'" := (notOlderThan parseDate).

Lemma insertEntry_perm (a : ActivityEntry) (l : list ActivityEntry) :
  Permutation (a :: l) (insertE a l).
Proof.
  induction l as [|x l IH]; cbn; [reflexivity|].
  destruct (compareEntries parseDate a x <=? 0)%Z; [reflexivity|].
  rewrite perm_swap. now constructor.
Qed.

Lemma sortChanges_perm (l : list ActivityEntry) : Permutation l (sortE l).
Proof.
  induction l as [|a l IH]; cbn; [reflexivity|].
  rewrite <- insertEntry_perm. now constructor.
Qed.

Lemma sortChanges_dated (l : list ActivityEntry) :
  Forall dated l -> Forall dated (sortE l).
Proof.
  intros F. eapply Permutation_Forall; [apply sortChanges_perm|exact F].
Qed.

Lemma insertEntry_HdRel (x a : ActivityEntry) (l : list ActivityEntry) :
  HdRel notOlder x l -> notOlder x a -> HdRel notOlder x (insertE a l).
Proof.
  intros Hl Ha. destruct l as [|y l]; cbn; [now constructor|].
  destruct (compareEntries parseDate a y <=? 0)%Z; constructor;
    [exact Ha|now inversion Hl].
Qed.

Lemma insertEntry_sorted (a : ActivityEntry) (l : list ActivityEntry) :
  dated a -> Forall dated l -> Sorted notOlder l ->
  Sorted notOlder (insertE a l).
Proof.
  intros Ha Fl Sl. induction l as [|x l IH]; cbn.
  - repeat constructor.
  - inversion Fl as [|? ? Hx Fl']; subst. inversion Sl as [|? ? Sl' Hd]; subst.
    unfold datedEntry in Ha, Hx.
    destruct (timeOf a) as [ta|] eqn:Ea; [|contradiction].
    destruct (timeOf x) as [tx|] eqn:Ex; [|contradiction].
    unfold compareEntries. rewrite Ea, Ex.
    destruct (tx - ta <=? 0)%Z eqn:Ec.
    + apply Z.leb_le in Ec. constructor; [exact Sl|].
      constructor. exists ta, tx. repeat split; auto. lia.
    + apply Z.leb_gt in Ec. constructor.
      * apply IH; assumption.
      * apply insertEntry_HdRel; [exact Hd|].
        exists tx, ta. repeat split; auto. lia.
Qed.

Lemma sortChanges_sorted (l : list ActivityEntry) :
  Forall dated l -> Sorted notOlder (sortE l).
Proof.
  induction l as [|a l IH]; intros F; cbn; [constructor|].
  inversion F; subst.
  apply insertEntry_sorted; [assumption|apply sortChanges_dated; assumption|auto].
Qed.

(** Insertion never moves an entry past one of the same instant. *)
Lemma insertEntry_stable (t : Z) (a : ActivityEntry) (l : list ActivityEntry) :
  filter (atInstant parseDate t) (insertE a l)
  = filter (atInstant parseDate t) (a :: l).
Proof.
  induction l as [|x l IH]; [reflexivity|].
  cbn [insertEntry].
  destruct (compareEntries parseDate a x <=? 0)%Z eqn:Ec; [reflexivity|].
  apply Z.leb_gt in Ec. cbn [filter] in *. rewrite IH.
  unfold compareEntries in Ec. unfold atInstant.
  destruct (timeOf x) as [tx|]; [|lia].
  destruct (timeOf a) as [ta|]; [|lia].
  destruct (ta =? t)%Z eqn:E1, (tx =? t)%Z eqn:E2; try reflexivity.
  apply Z.eqb_eq in E1, E2. lia.
Qed.

Lemma sortChanges_stable (t : Z) (l : list ActivityEntry) :
  filter (atInstant parseDate t) (sortE l) = filter (atInstant parseDate t) l.
Proof.
  induction l as [|a l IH]; [reflexivity|].
  cbn [sortChanges fold_right]. fold (sortE l).
  rewrite insertEntry_stable. cbn [filter]. now rewrite IH.
Qed.

Lemma Sorted_adjacent (R : ActivityEntry -> ActivityEntry -> Prop)
  (l : list ActivityEntry) (i : nat) (e1 e2 : ActivityEntry) :
  Sorted R l ->
  nth_error l i = Some e1 -> nth_error l (S i) = Some e2 -> R e1 e2.
Proof.
  intros S. revert i. induction S as [|x l S IH Hd]; intros i H1 H2.
  - destruct i; discriminate.
  - destruct i as [|i].
    + cbn in H1, H2. inversion H1; subst x.
      destruct l as [|y l]; [discriminate|]. cbn in H2. inversion H2; subst y.
      now inversion Hd.
    + cbn in H1, H2. exact (IH i H1 H2).
Qed.

End SortFacts.

(** ** The traversal of the activity feed *)

(** Splits the conjunctions of the goal, and nothing else. *)
Ltac conjs := repeat match goal with |- _ /\ _ => split end.

Section FeedFacts.

Variable parseDate : string -> option Z.
Variable getBoards : string -> Result (list Board).
Variable getLists : string -> Result (list PList).
Variable getCards : string -> Result (list Card).
Variable getTasks : string -> Result (list Task).
Variable getComments : string -> Result (list Comment).
Variables from to : option Z.
Variable maxComments : Z.

Local Notation "'inRange'" := (fun d => isWithinRange parseDate d from to).
Local Notation "'counted'" := (Counted parseDate maxComments).

Lemma isWithinRange_dated (d : option string) (ty : EntryType)
  (b : string) (l : option string) (c : string)
  (t cm u p : option string) :
  isWithinRange parseDate d from to = true ->
  datedEntry parseDate (mkEntry d ty b l c t cm u p).
Proof.
  unfold isWithinRange, datedEntry, entryTime. cbn.
  destruct d as [s|]; [|discriminate].
  destruct (s =? ""); [discriminate|].
  destruct (parseDate s); [discriminate|].
  discriminate.
Qed.

Lemma isWithinRange_truthy (d : option string) :
  isWithinRange parseDate d from to = true -> truthyStr d = true.
Proof.
  unfold isWithinRange, truthyStr. destruct d as [s|]; [|discriminate].
  destruct (s =? ""); [discriminate|reflexivity].
Qed.

Lemma counted_push (st : FeedState) (e : ActivityEntry) (st' : FeedState) :
  counted st ->
  datedEntry parseDate e ->
  st_changes st' = st_changes st ++ [e] ->
  cardsSum st' = (cardsSum st + if isCardEvent e then 1 else 0)%nat ->
  tasksSum st' = (tasksSum st + if isTaskEvent e then 1 else 0)%nat ->
  Nat.min (st_newComments st') (Z.to_nat maxComments)
  = (Nat.min (st_newComments st) (Z.to_nat maxComments)
     + if isCommentEvent e then 1 else 0)%nat ->
  counted st'.
Proof.
  intros (F & C & T & M) He Hc Hcs Hts Hm. unfold Counted.
  rewrite Hc, !filter_app, !length_app, Hcs, Hts, Hm, C, T, M.
  split; [apply Forall_app; split; [exact F|now constructor]|].
  cbn [filter].
  destruct (isCardEvent e), (isTaskEvent e), (isCommentEvent e); cbn;
    conjs; lia.
Qed.

(** The card step appends the events of the rule, and only counts them. *)
Lemma cardStep_spec (boardId listId : string) (card : Card) (st : FeedState) :
  let r := cardStep parseDate from to boardId listId card st in
  st_changes (fst r)
  = st_changes st ++ specCardEvents parseDate from to boardId listId card /\
  snd r = negb (Nat.eqb (List.length
                           (specCardEvents parseDate from to boardId listId card)) 0) /\
  st_newComments (fst r) = st_newComments st /\
  st_userIdsSet (fst r) = st_userIdsSet st /\
  st_affectedCardsMap (fst r) = st_affectedCardsMap st /\
  (counted st -> counted (fst r)).
Proof.
  unfold cardStep, specCardEvents. cbv zeta.
  destruct (isWithinRange parseDate (card_createdAt card) from to) eqn:Ec.
  - cbn. conjs; try reflexivity. intros H.
    eapply counted_push; [exact H| |reflexivity|..];
      [now apply isWithinRange_dated|unfold cardsSum; cbn; lia
      |unfold tasksSum; cbn; lia|cbn; lia].
  - destruct (isWithinRange parseDate (card_updatedAt card) from to) eqn:Eu.
    + rewrite (isWithinRange_truthy _ Eu), andb_true_r.
      destruct (truthyBool (card_isCompleted card)); cbn;
        (conjs; try reflexivity; intros H;
         eapply counted_push; [exact H| |reflexivity|..];
         [now apply isWithinRange_dated|unfold cardsSum; cbn; lia
         |unfold tasksSum; cbn; lia|cbn; lia]).
    + cbn. rewrite app_nil_r. conjs; auto.
Qed.

(** A task step appends at most one task event and leaves the rest. *)
Lemma taskStep_spec (boardId listId cardId : string)
  (acc : FeedState * bool) (task : Task) :
  let r := taskStep parseDate from to boardId listId cardId acc task in
  filter isCardEvent (st_changes (fst r))
  = filter isCardEvent (st_changes (fst acc)) /\
  (snd acc = true -> snd r = true) /\
  st_newComments (fst r) = st_newComments (fst acc) /\
  st_userIdsSet (fst r) = st_userIdsSet (fst acc) /\
  st_affectedCardsMap (fst r) = st_affectedCardsMap (fst acc) /\
  (counted (fst acc) -> counted (fst r)).
Proof.
  destruct acc as [st flag]. unfold taskStep. cbv zeta.
  destruct (isWithinRange parseDate (task_createdAt task) from to) eqn:Ec.
  - cbn. rewrite filter_app. cbn. rewrite app_nil_r.
    conjs; try reflexivity. intros H.
    eapply counted_push; [exact H| |reflexivity|..];
      [now apply isWithinRange_dated|unfold cardsSum; cbn; lia
      |unfold tasksSum; cbn; lia|cbn; lia].
  - destruct (task_isCompleted task
              && isWithinRange parseDate (task_updatedAt task) from to) eqn:Eu.
    + apply andb_true_iff in Eu. destruct Eu as [_ Eu].
      cbn. rewrite filter_app. cbn. rewrite app_nil_r.
      conjs; try reflexivity. intros H.
      eapply counted_push; [exact H| |reflexivity|..];
        [now apply isWithinRange_dated|unfold cardsSum; cbn; lia
        |unfold tasksSum; cbn; lia|cbn; lia].
    + cbn. conjs; auto.
Qed.

Lemma tasksBlock_spec (boardId listId cardId : string)
  (acc : FeedState * bool) :
  let r := tasksBlock parseDate getTasks from to boardId listId cardId acc in
  filter isCardEvent (st_changes (fst r))
  = filter isCardEvent (st_changes (fst acc)) /\
  (snd acc = true -> snd r = true) /\
  st_newComments (fst r) = st_newComments (fst acc) /\
  st_userIdsSet (fst r) = st_userIdsSet (fst acc) /\
  st_affectedCardsMap (fst r) = st_affectedCardsMap (fst acc) /\
  (counted (fst acc) -> counted (fst r)).
Proof.
  unfold tasksBlock. cbv zeta.
  destruct (getTasks cardId) as [tasks|]; [|conjs; auto].
  revert acc. induction tasks as [|task tasks IH]; intros acc.
  - cbn. conjs; auto.
  - cbn [fold_left].
    destruct (taskStep_spec boardId listId cardId acc task)
      as (A1 & A2 & A3 & A4 & A5 & A6).
    destruct (IH (taskStep parseDate from to boardId listId cardId acc task))
      as (B1 & B2 & B3 & B4 & B5 & B6).
    conjs; try congruence; auto.
Qed.

Lemma setAdd_In (x : string) (s : list string) : In x (setAdd x s).
Proof.
  induction s as [|y s IH]; cbn; [now left|].
  destruct (y =? x) eqn:E.
  - apply String.eqb_eq in E. subst. now left.
  - now right.
Qed.

Lemma setAdd_incl (x : string) (s : list string) : incl s (setAdd x s).
Proof.
  induction s as [|y s IH]; cbn; [intros z []|].
  destruct (y =? x); [apply incl_refl|].
  intros z [<- |Hz]; [now left|right; now apply IH].
Qed.

Lemma mapSet_In (k : string) (v : AffectedCard)
  (m : list (string * AffectedCard)) :
  In k (map fst (mapSet k v m)).
Proof.
  induction m as [|[k' v'] m IH]; cbn; [now left|].
  destruct (k' =? k); cbn; [now left|now right].
Qed.

Lemma mapSet_incl (k : string) (v : AffectedCard)
  (m : list (string * AffectedCard)) :
  incl (map fst m) (map fst (mapSet k v m)).
Proof.
  induction m as [|[k' v'] m IH]; cbn; [intros z []|].
  destruct (k' =? k) eqn:E; cbn.
  - apply String.eqb_eq in E. subst. apply incl_refl.
  - intros z [<- |Hz]; [now left|right; now apply IH].
Qed.

Lemma mapSet_keyed (k : string) (v : AffectedCard)
  (m : list (string * AffectedCard)) :
  ac_cardId v = k ->
  Forall (fun kv => ac_cardId (snd kv) = fst kv) m ->
  Forall (fun kv => ac_cardId (snd kv) = fst kv) (mapSet k v m).
Proof.
  intros Hv. induction m as [|[k' v'] m IH]; intros F; cbn.
  - constructor; [exact Hv|constructor].
  - inversion F as [|kv m' Hk Fm]. destruct (k' =? k); constructor; auto.
Qed.

(** A state that differs from a counted one by a comment that was counted
    but not materialized is counted. *)
Lemma counted_skip (st st' : FeedState) :
  counted st ->
  st_changes st' = st_changes st ->
  cardsSum st' = cardsSum st ->
  tasksSum st' = tasksSum st ->
  Nat.min (st_newComments st') (Z.to_nat maxComments)
  = Nat.min (st_newComments st) (Z.to_nat maxComments) ->
  counted st'.
Proof.
  intros (F & C & T & M) Hc Hcs Hts Hm. unfold Counted.
  rewrite Hc, Hcs, Hts, Hm. auto.
Qed.

(** A comment step counts a comment of the window, materializes it under
    the cap, and records its user. *)
Lemma commentStep_spec (boardId listId cardId : string)
  (acc : FeedState * bool) (comment : Comment) :
  let r := commentStep parseDate from to maxComments boardId listId cardId
             acc comment in
  let w := isWithinRange parseDate (comment_createdAt comment) from to in
  filter isCardEvent (st_changes (fst r))
  = filter isCardEvent (st_changes (fst acc)) /\
  snd r = snd acc || w /\
  st_newComments (fst r)
  = (st_newComments (fst acc) + if w then 1 else 0)%nat /\
  st_affectedCardsMap (fst r) = st_affectedCardsMap (fst acc) /\
  incl (st_userIdsSet (fst acc)) (st_userIdsSet (fst r)) /\
  (w = true ->
   forall u, comment_userId comment = Some u -> u <> "" ->
             In u (st_userIdsSet (fst r))) /\
  (counted (fst acc) -> counted (fst r)).
Proof.
  destruct acc as [st flag]. unfold commentStep. cbv zeta.
  destruct (isWithinRange parseDate (comment_createdAt comment) from to)
    eqn:Ew.
  2: { cbn. rewrite orb_false_r, Nat.add_0_r. conjs; auto.
       - apply incl_refl.
       - discriminate. }
  assert (Hu : forall st1,
             let st2 := match comment_userId comment with
                        | Some u => if u =? "" then st1 else addUserId u st1
                        | None => st1
                        end in
             st_changes st2 = st_changes st1 /\
             cardsSum st2 = cardsSum st1 /\
             tasksSum st2 = tasksSum st1 /\
             st_newComments st2 = st_newComments st1 /\
             st_affectedCardsMap st2 = st_affectedCardsMap st1 /\
             incl (st_userIdsSet st1) (st_userIdsSet st2) /\
             (forall u, comment_userId comment = Some u -> u <> "" ->
                        In u (st_userIdsSet st2))).
  { intros st1. cbv zeta. destruct (comment_userId comment) as [u|].
    - destruct (u =? "") eqn:Eu.
      + apply String.eqb_eq in Eu. conjs; auto; [apply incl_refl|].
        intros u' Hu' Hne. inversion Hu'; subst. contradiction.
      + cbn. conjs; auto; [apply setAdd_incl|].
        intros u' Hu' _. inversion Hu'; subst. apply setAdd_In.
    - conjs; auto; [apply incl_refl|]. discriminate. }
  destruct (Z.of_nat (st_newComments st) <? maxComments)%Z eqn:El.
  - apply Z.ltb_lt in El.
    match goal with
    | |- context [pushChange ?e st] =>
        set (entry := e); destruct (Hu (pushChange entry st))
          as (U1 & U2 & U3 & U4 & U5 & U6 & U7)
    end.
    cbn [fst snd]. rewrite orb_true_r.
    refine (conj _ (conj _ (conj _ (conj _ (conj _ (conj _ _)))))).
    + cbn [incNewComments st_changes]. rewrite U1. cbn [pushChange st_changes].
      rewrite filter_app. cbn. now rewrite app_nil_r.
    + reflexivity.
    + cbn [incNewComments st_newComments]. rewrite U4. cbn. lia.
    + cbn [incNewComments st_affectedCardsMap]. rewrite U5. reflexivity.
    + cbn [incNewComments st_userIdsSet]. exact U6.
    + intros _. cbn [incNewComments st_userIdsSet]. exact U7.
    + intros H. eapply counted_push with (e := entry); [exact H| | |..].
      * now apply isWithinRange_dated.
      * cbn [incNewComments st_changes]. exact U1.
      * unfold cardsSum in *. cbn in *. lia.
      * unfold tasksSum in *. cbn in *. lia.
      * cbn [incNewComments st_newComments isCommentEvent entry e_type].
        rewrite U4. cbn [pushChange st_newComments]. lia.
  - apply Z.ltb_ge in El.
    destruct (Hu st) as (U1 & U2 & U3 & U4 & U5 & U6 & U7).
    cbn [fst snd]. rewrite orb_true_r.
    refine (conj _ (conj _ (conj _ (conj _ (conj _ (conj _ _)))))).
    + cbn [incNewComments st_changes]. now rewrite U1.
    + reflexivity.
    + cbn [incNewComments st_newComments]. rewrite U4. lia.
    + cbn [incNewComments st_affectedCardsMap]. rewrite U5. reflexivity.
    + cbn [incNewComments st_userIdsSet]. exact U6.
    + intros _. cbn [incNewComments st_userIdsSet]. exact U7.
    + intros H. eapply counted_skip; [exact H| | | |].
      * cbn [incNewComments st_changes]. exact U1.
      * unfold cardsSum in *. cbn in *. lia.
      * unfold tasksSum in *. cbn in *. lia.
      * cbn [incNewComments st_newComments]. rewrite U4. lia.
Qed.

Lemma commentSteps_spec (boardId listId cardId : string)
  (comments : list Comment) (acc : FeedState * bool) :
  let r := fold_left (commentStep parseDate from to maxComments boardId
                        listId cardId) comments acc in
  let inWindow :=
    filter (fun c => isWithinRange parseDate (comment_createdAt c) from to)
      comments in
  filter isCardEvent (st_changes (fst r))
  = filter isCardEvent (st_changes (fst acc)) /\
  (snd acc = true -> snd r = true) /\
  (inWindow <> [] -> snd r = true) /\
  st_newComments (fst r)
  = (st_newComments (fst acc) + List.length inWindow)%nat /\
  st_affectedCardsMap (fst r) = st_affectedCardsMap (fst acc) /\
  incl (st_userIdsSet (fst acc)) (st_userIdsSet (fst r)) /\
  (forall cm u, In cm inWindow -> comment_userId cm = Some u -> u <> "" ->
                In u (st_userIdsSet (fst r))) /\
  (counted (fst acc) -> counted (fst r)).
Proof.
  revert acc. induction comments as [|cm comments IH]; intros acc.
  - cbn. rewrite Nat.add_0_r.
    refine (conj _ (conj _ (conj _ (conj _ (conj _ (conj _ (conj _ _)))))));
      auto; try apply incl_refl; try contradiction.
  - cbn [fold_left filter].
    destruct (commentStep_spec boardId listId cardId acc cm)
      as (A1 & A2 & A3 & A4 & A5 & A6 & A7).
    destruct (IH (commentStep parseDate from to maxComments boardId listId
                    cardId acc cm))
      as (B1 & B2 & B3 & B4 & B5 & B6 & B7 & B8).
    cbv zeta in *.
    refine (conj _ (conj _ (conj _ (conj _ (conj _ (conj _ (conj _ _))))))).
    + congruence.
    + intros Hf. apply B2. rewrite A2, Hf. reflexivity.
    + destruct (isWithinRange parseDate (comment_createdAt cm) from to) eqn:Ew.
      * intros _. apply B2. rewrite A2. apply orb_true_r.
      * exact B3.
    + rewrite B4, A3.
      destruct (isWithinRange parseDate (comment_createdAt cm) from to);
        cbn [List.length]; lia.
    + congruence.
    + eapply incl_tran; eassumption.
    + intros c u Hin Hu Hne.
      destruct (isWithinRange parseDate (comment_createdAt cm) from to) eqn:Ew.
      * destruct Hin as [<- |Hin]; [|exact (B7 c u Hin Hu Hne)].
        apply B6. exact (A6 eq_refl u Hu Hne).
      * exact (B7 c u Hin Hu Hne).
    + auto.
Qed.

Lemma commentsBlock_spec (boardId listId : string) (card : Card)
  (acc : FeedState * bool) :
  let r := commentsBlock parseDate getComments from to maxComments boardId
             listId (card_id card) acc in
  let inWindow := inWindowComments parseDate getComments from to card in
  filter isCardEvent (st_changes (fst r))
  = filter isCardEvent (st_changes (fst acc)) /\
  (snd acc = true -> snd r = true) /\
  (inWindow <> [] -> snd r = true) /\
  st_newComments (fst r)
  = (st_newComments (fst acc) + List.length inWindow)%nat /\
  st_affectedCardsMap (fst r) = st_affectedCardsMap (fst acc) /\
  incl (st_userIdsSet (fst acc)) (st_userIdsSet (fst r)) /\
  (forall cm u, In cm inWindow -> comment_userId cm = Some u -> u <> "" ->
                In u (st_userIdsSet (fst r))) /\
  (counted (fst acc) -> counted (fst r)).
Proof.
  unfold commentsBlock, inWindowComments, commentsOf.
  destruct (getComments (card_id card)) as [comments|].
  - apply commentSteps_spec.
  - cbn. rewrite Nat.add_0_r.
    refine (conj _ (conj _ (conj _ (conj _ (conj _ (conj _ (conj _ _)))))));
      auto; try apply incl_refl; try contradiction.
Qed.

(** What visiting one card does to the state. *)
Lemma visit_spec (st : FeedState) (x : string * string * Card) :
  let st' := visit parseDate getTasks getComments from to maxComments st x in
  let inWindow := inWindowComments parseDate getComments from to (snd x) in
  filter isCardEvent (st_changes st')
  = filter isCardEvent (st_changes st)
    ++ specCardEvents parseDate from to (fst (fst x)) (snd (fst x)) (snd x) /\
  st_newComments st' = (st_newComments st + List.length inWindow)%nat /\
  incl (st_userIdsSet st) (st_userIdsSet st') /\
  (forall cm u, In cm inWindow -> comment_userId cm = Some u -> u <> "" ->
                In u (st_userIdsSet st')) /\
  incl (map fst (st_affectedCardsMap st)) (map fst (st_affectedCardsMap st')) /\
  (inWindow <> [] -> In (card_id (snd x)) (map fst (st_affectedCardsMap st'))) /\
  (counted st -> counted st') /\
  (Keyed st -> Keyed st').
Proof.
  destruct x as [[boardId listId] card]. unfold visit, processCard.
  cbn [fst snd]. cbv zeta.
  destruct (cardStep_spec boardId listId card st)
    as (A1 & A2 & A3 & A4 & A5 & A6).
  set (acc1 := cardStep parseDate from to boardId listId card st) in *.
  destruct (tasksBlock_spec boardId listId (card_id card) acc1)
    as (B1 & B2 & B3 & B4 & B5 & B6).
  set (acc2 := tasksBlock parseDate getTasks from to boardId listId
                 (card_id card) acc1) in *.
  destruct (commentsBlock_spec boardId listId card acc2)
    as (C1 & C2 & C3 & C4 & C5 & C6 & C7 & C8).
  set (acc3 := commentsBlock parseDate getComments from to maxComments
                 boardId listId (card_id card) acc2) in *.
  cbv zeta in *.
  assert (Hcards : filter isCardEvent (st_changes (fst acc3))
                   = filter isCardEvent (st_changes st)
                     ++ specCardEvents parseDate from to boardId listId card).
  { rewrite C1, B1, A1, filter_app. f_equal.
    unfold specCardEvents.
    destruct (isWithinRange parseDate (card_createdAt card) from to);
      [reflexivity|].
    destruct (isWithinRange parseDate (card_updatedAt card) from to);
      [|reflexivity].
    destruct (truthyBool (card_isCompleted card)); reflexivity. }
  assert (Hn : st_newComments (fst acc3)
               = (st_newComments st
                  + List.length (inWindowComments parseDate getComments from
                                   to card))%nat) by congruence.
  assert (Hu : incl (st_userIdsSet st) (st_userIdsSet (fst acc3))).
  { rewrite <- A4, <- B4. exact C6. }
  assert (Ha : st_affectedCardsMap (fst acc3) = st_affectedCardsMap st)
    by congruence.
  destruct acc3 as [st3 flag]. cbn [fst snd] in *.
  destruct flag.
  - unfold setAffected. cbn [st_changes st_newComments st_userIdsSet
                               st_affectedCardsMap].
    refine (conj Hcards (conj Hn (conj Hu (conj C7 (conj _ (conj _ (conj _ _))))))).
    + rewrite Ha. apply mapSet_incl.
    + intros _. apply mapSet_In.
    + intros H. specialize (C8 (B6 (A6 H))).
      eapply counted_skip; [exact C8| | | |]; reflexivity.
    + unfold Keyed. cbn [st_affectedCardsMap]. rewrite Ha.
      apply mapSet_keyed. reflexivity.
  - refine (conj Hcards (conj Hn (conj Hu (conj C7 (conj _ (conj _ (conj _ _))))))).
    + rewrite Ha. apply incl_refl.
    + intros Hne. specialize (C3 Hne). discriminate.
    + intros H. exact (C8 (B6 (A6 H))).
    + unfold Keyed. now rewrite Ha.
Qed.

Local Notation "'visitE'" :=
  (visit parseDate getTasks getComments from to maxComments).
Local Notation "'cardEventsOf'" :=
  (fun x : string * string * Card =>
     specCardEvents parseDate from to (fst (fst x)) (snd (fst x)) (snd x)).
Local Notation "'windowCommentsOf'" :=
  (fun x : string * string * Card =>
     inWindowComments parseDate getComments from to (snd x)).

(** What visiting a sequence of cards does to the state. *)
Lemma visits_spec (xs : list (string * string * Card)) (st : FeedState) :
  let st' := fold_left visitE xs st in
  filter isCardEvent (st_changes st')
  = filter isCardEvent (st_changes st) ++ flat_map cardEventsOf xs /\
  st_newComments st'
  = (st_newComments st + List.length (flat_map windowCommentsOf xs))%nat /\
  incl (st_userIdsSet st) (st_userIdsSet st') /\
  incl (map fst (st_affectedCardsMap st)) (map fst (st_affectedCardsMap st')) /\
  (forall x cm, In x xs -> In cm (windowCommentsOf x) ->
     (forall u, comment_userId cm = Some u -> u <> "" ->
                In u (st_userIdsSet st')) /\
     In (card_id (snd x)) (map fst (st_affectedCardsMap st'))) /\
  (counted st -> counted st') /\
  (Keyed st -> Keyed st').
Proof.
  revert st. induction xs as [|x xs IH]; intros st.
  - cbn. rewrite app_nil_r, Nat.add_0_r.
    refine (conj eq_refl (conj eq_refl (conj _ (conj _ (conj _ (conj _ _))))));
      try apply incl_refl; auto.
    intros x cm [].
  - cbn [fold_left flat_map].
    destruct (visit_spec st x) as (A1 & A2 & A3 & A4 & A5 & A6 & A7 & A8).
    destruct (IH (visitE st x)) as (B1 & B2 & B3 & B4 & B5 & B6 & B7).
    cbv zeta in *.
    refine (conj _ (conj _ (conj _ (conj _ (conj _ (conj _ _)))))).
    + rewrite B1, A1, app_assoc. reflexivity.
    + rewrite B2, A2, length_app. lia.
    + eapply incl_tran; eassumption.
    + eapply incl_tran; eassumption.
    + intros y cm [<- |Hy] Hcm.
      * split.
        -- intros u Hu Hne. apply B3. exact (A4 cm u Hcm Hu Hne).
        -- apply B4. apply A6. intros E. rewrite E in Hcm. contradiction.
      * exact (B5 y cm Hy Hcm).
    + auto.
    + auto.
Qed.

Lemma fold_left_cards (boardId listId : string) (cards : list Card)
  (st : FeedState) :
  fold_left (processCard parseDate getTasks getComments from to maxComments
               boardId listId) cards st
  = fold_left visitE (map (fun c => (boardId, listId, c)) cards) st.
Proof.
  revert st. induction cards as [|c cards IH]; intros st; [reflexivity|].
  cbn [fold_left map]. rewrite IH. reflexivity.
Qed.

Lemma forLists_visits (boardId : string) (lists : list PList)
  (st st' : FeedState) :
  forLists parseDate getCards getTasks getComments from to maxComments
    boardId st lists = Ok st' ->
  st' = fold_left visitE (flat_map (cardsOfList getCards boardId) lists) st.
Proof.
  revert st. induction lists as [|l lists IH]; intros st H.
  - cbn in H. inversion H. reflexivity.
  - cbn [forLists] in H. cbn [flat_map]. unfold cardsOfList at 1.
    destruct (getCards (list_id l)) as [cards|]; [|discriminate].
    cbn [bind] in H. rewrite fold_left_app, <- fold_left_cards.
    exact (IH _ H).
Qed.

Lemma forBoards_visits (boards : list Board) (st st' : FeedState) :
  forBoards parseDate getLists getCards getTasks getComments from to
    maxComments st boards = Ok st' ->
  st' = fold_left visitE
          (flat_map (cardsOfBoard getLists getCards) boards) st.
Proof.
  revert st. induction boards as [|b boards IH]; intros st H.
  - cbn in H. inversion H. reflexivity.
  - cbn [forBoards] in H. cbn [flat_map]. unfold cardsOfBoard at 1.
    destruct (getLists (board_id b)) as [lists|]; [|discriminate].
    cbn [bind] in H.
    destruct (forLists parseDate getCards getTasks getComments from to
                maxComments (board_id b) st lists) as [st1|] eqn:E;
      [|discriminate].
    cbn [bind] in H. apply forLists_visits in E. subst st1.
    rewrite fold_left_app. exact (IH _ H).
Qed.

(** A traversal that completes has visited the cards of the project, in
    order, from the initial state. *)
Lemma traverse_visits (projectId : string) (st : FeedState) :
  traverse parseDate getBoards getLists getCards getTasks getComments
    from to maxComments projectId = Ok st ->
  st = fold_left visitE
         (traversedCards getBoards getLists getCards projectId) initialState.
Proof.
  unfold traverse, traversedCards.
  destruct (getBoards projectId) as [boards|]; [|discriminate].
  cbn [bind]. apply forBoards_visits.
Qed.

Lemma counted_initial : counted initialState.
Proof.
  unfold Counted. cbn. conjs; auto.
Qed.

Lemma keyed_initial : Keyed initialState.
Proof. constructor. Qed.

(** The state a completed traversal ends in. *)
Lemma traverse_spec (projectId : string) (st : FeedState) :
  traverse parseDate getBoards getLists getCards getTasks getComments
    from to maxComments projectId = Ok st ->
  let xs := traversedCards getBoards getLists getCards projectId in
  filter isCardEvent (st_changes st) = flat_map cardEventsOf xs /\
  st_newComments st = List.length (flat_map windowCommentsOf xs) /\
  (forall x cm, In x xs -> In cm (windowCommentsOf x) ->
     (forall u, comment_userId cm = Some u -> u <> "" ->
                In u (st_userIdsSet st)) /\
     In (card_id (snd x)) (map fst (st_affectedCardsMap st))) /\
  counted st /\
  Keyed st.
Proof.
  intros H. apply traverse_visits in H. subst st. cbv zeta.
  destruct (visits_spec
              (traversedCards getBoards getLists getCards projectId)
              initialState) as (A1 & A2 & _ & _ & A5 & A6 & A7).
  cbv zeta in *.
  refine (conj A1 (conj A2 (conj A5 (conj _ _)))).
  - apply A6, counted_initial.
  - apply A7, keyed_initial.
Qed.

End FeedFacts.

(** ** The activity feed *)

Lemma events_partition (l : list ActivityEntry) :
  List.length l
  = (List.length (filter isCardEvent l)
     + List.length (filter isTaskEvent l)
     + List.length (filter isCommentEvent l))%nat.
Proof.
  induction l as [|e l IH]; [reflexivity|].
  cbn [filter List.length].
  destruct (isCardEvent e) eqn:A, (isTaskEvent e) eqn:B,
           (isCommentEvent e) eqn:C;
    cbn [List.length]; try lia;
    unfold isCardEvent, isTaskEvent, isCommentEvent in A, B, C;
    destruct (e_type e); discriminate.
Qed.

Lemma keyed_ids (m : list (string * AffectedCard)) :
  Forall (fun kv => ac_cardId (snd kv) = fst kv) m ->
  map ac_cardId (map snd m) = map fst m.
Proof.
  induction 1 as [|kv m H _ IH]; cbn; [reflexivity|]. now rewrite H, IH.
Qed.

Lemma filter_andb (A : Type) (p q : A -> bool) (l : list A) :
  filter (fun x => p x && q x) l = filter q (filter p l).
Proof.
  induction l as [|x l IH]; [reflexivity|]. cbn.
  destruct (p x); cbn; [destruct (q x)|]; now rewrite IH.
Qed.

(** The rule gives a card at most one event, under the id of the card. *)
Lemma specCardEvents_count (parseDate : string -> option Z)
  (from to : option Z) (id : string) (xs : list (string * string * Card)) :
  (List.length
     (filter (fun e => String.eqb (e_cardId e) id)
        (flat_map (fun x => specCardEvents parseDate from to (fst (fst x))
                              (snd (fst x)) (snd x)) xs))
   <= List.length (filter (fun x => String.eqb (card_id (snd x)) id) xs))%nat.
Proof.
  induction xs as [|x xs IH]; [reflexivity|].
  cbn [flat_map filter]. rewrite filter_app, length_app.
  unfold specCardEvents at 1.
  destruct (isWithinRange parseDate (card_createdAt (snd x)) from to);
    [|destruct (isWithinRange parseDate (card_updatedAt (snd x)) from to)];
    cbn [filter e_cardId]; destruct (String.eqb (card_id (snd x)) id);
    cbn [List.length]; lia.
Qed.

(** The whole number the loops carry for the cap decides the test of the
    code: [newComments < maxComments] on the numbers as they are. *)
Lemma belowCap_threshold (newComments : nat) (maxComments : QArith_base.Q) :
  belowCap newComments maxComments
  = (Z.of_nat newComments <? Qround.Qceiling maxComments)%Z.
Proof.
  unfold belowCap.
  destruct (QArith_base.Qlt_le_dec
              (QArith_base.inject_Z (Z.of_nat newComments)) maxComments)
    as [Hlt|Hle]; symmetry.
  - apply Z.ltb_lt. rewrite QArith_base.Zlt_Qlt.
    eapply QArith_base.Qlt_le_trans; [exact Hlt|].
    apply Qround.Qle_ceiling.
  - apply Z.ltb_ge.
    assert (H : (Qround.Qceiling maxComments - 1 < Z.of_nat newComments)%Z).
    { rewrite QArith_base.Zlt_Qlt.
      eapply QArith_base.Qlt_le_trans; [apply Qround.Qceiling_lt|exact Hle]. }
    lia.
Qed.

Lemma belowCap_capOf (newComments : nat) (params : GetActivityFeedParams) :
  belowCap newComments (maxCommentsOf params)
  = (Z.of_nat newComments <? capOf params)%Z.
Proof. apply belowCap_threshold. Qed.

Lemma capOf_whole (projectId : string) (since until : option string)
  (n : Z) :
  capOf (mkFeedParams projectId since until (Some (QArith_base.inject_Z n)))
  = n.
Proof.
  unfold capOf, maxCommentsOf. cbn [fp_maxComments].
  apply Qround.Qceiling_Z.
Qed.

Section FeedTheorems.

Variable parseDate : string -> option Z.
Variable getBoards : string -> Result (list Board).
Variable getLists : string -> Result (list PList).
Variable getCards : string -> Result (list Card).
Variable getTasks : string -> Result (list Task).
Variable getComments : string -> Result (list Comment).

Local Notation "'feed'" :=
  (getActivityFeed parseDate getBoards getLists getCards getTasks getComments).
Local Notation "'traverseE'" :=
  (traverse parseDate getBoards getLists getCards getTasks getComments).
Local Notation "'visited'" := (traversedCards getBoards getLists getCards).

(** A feed that resolves comes from a completed traversal over a valid
    window. *)
Lemma getActivityFeed_inv (now : Z) (params : GetActivityFeedParams)
  (r : ActivityFeedResult) :
  feed now params = Ok r ->
  exists st f t,
    windowFrom parseDate now params = Some f /\
    windowTo parseDate now params = Some t /\
    traverseE (Some f) (Some t) (capOf params) (fp_projectId params) = Ok st /\
    r = mkFeedResult
          (mkQuery (fp_projectId params) f t)
          (mkSummary (List.length (sortChanges parseDate (st_changes st)))
             (st_newCards st) (st_updatedCards st) (st_completedCards st)
             (st_newComments st) (st_newTasks st) (st_completedTasks st))
          (sortChanges parseDate (st_changes st))
          (map snd (st_affectedCardsMap st))
          (st_userIdsSet st).
Proof.
  unfold getActivityFeed. cbv zeta.
  destruct (traverse _ _ _ _ _ _ _ _ _ _) as [st|] eqn:Et; [|discriminate].
  cbn [bind].
  destruct (windowFrom parseDate now params) as [f|]; [|discriminate].
  destruct (windowTo parseDate now params) as [t|]; [|discriminate].
  intros H. inversion H; subst; clear H. exists st, f, t. auto.
Qed.

(** The feed resolves whenever the traversal completes over a valid
    window. *)
Lemma getActivityFeed_resolves (now : Z) (params : GetActivityFeedParams)
  (st : FeedState) (f t : Z) :
  windowFrom parseDate now params = Some f ->
  windowTo parseDate now params = Some t ->
  traverseE (Some f) (Some t) (capOf params) (fp_projectId params) = Ok st ->
  isOk (feed now params) = true.
Proof.
  intros Hf Ht Htr. unfold getActivityFeed. cbv zeta.
  rewrite Hf, Ht, Htr. reflexivity.
Qed.

(** C7.  The changes of a feed are in non-increasing order of instant:
    of two adjacent entries the first is not older than the second.  They
    are the entries of the traversal, and entries of the same instant
    stand in the order in which the traversal produced them. *)
Theorem changes_sorted_stable (now : Z) (params : GetActivityFeedParams)
  (r : ActivityFeedResult) :
  feed now params = Ok r ->
  (forall i e1 e2,
      nth_error (changes r) i = Some e1 ->
      nth_error (changes r) (S i) = Some e2 ->
      notOlderThan parseDate e1 e2) /\
  exists st,
    traverseE (windowFrom parseDate now params) (windowTo parseDate now params)
      (capOf params) (fp_projectId params) = Ok st /\
    Permutation (st_changes st) (changes r) /\
    forall t,
      filter (atInstant parseDate t) (changes r)
      = filter (atInstant parseDate t) (st_changes st).
Proof.
  intros H. destruct (getActivityFeed_inv _ _ H)
    as (st & f & t & Hf & Ht & Htr & ->).
  cbn [changes].
  destruct (traverse_spec _ _ _ _ _ _ _ _ _ _ Htr) as (_ & _ & _ & Hc & _).
  destruct Hc as (Fd & _).
  split.
  - intros i e1 e2 H1 H2.
    eapply Sorted_adjacent; [apply sortChanges_sorted; exact Fd| |];
      eassumption.
  - exists st. rewrite Hf, Ht. split; [exact Htr|].
    split; [apply sortChanges_perm|]. intros t'. apply sortChanges_stable.
Qed.

(** C3.  The card events among the changes of a feed are, up to the final
    sort, the events the rule gives for the visited cards, one card after
    the other, so a card id carries no more card events than there are
    visited cards with that id; for each card the loop body appends exactly
    the events of the rule; and the rule gives at most one event:
    [card_created] when
    [createdAt] is in the window, whatever [updatedAt] is; otherwise, when
    [updatedAt] is in the window, [card_completed] for a completed card
    and [card_updated] for any other. *)
Theorem card_events_at_most_one (now : Z) (params : GetActivityFeedParams)
  (r : ActivityFeedResult) :
  feed now params = Ok r ->
  let from := windowFrom parseDate now params in
  let to := windowTo parseDate now params in
  Permutation
    (filter isCardEvent (changes r))
    (flat_map (fun x => specCardEvents parseDate from to (fst (fst x))
                          (snd (fst x)) (snd x))
       (visited (fp_projectId params))) /\
  (forall id,
      (List.length
         (filter (fun e => isCardEvent e && String.eqb (e_cardId e) id) (changes r))
       <= List.length
            (filter (fun x => String.eqb (card_id (snd x)) id)
               (visited (fp_projectId params))))%nat) /\
  (forall boardId listId card st,
      st_changes (fst (cardStep parseDate from to boardId listId card st))
      = st_changes st ++ specCardEvents parseDate from to boardId listId card) /\
  (forall boardId listId card,
      (List.length (specCardEvents parseDate from to boardId listId card)
       <= 1)%nat /\
      forall e,
        In e (specCardEvents parseDate from to boardId listId card) ->
        e_cardId e = card_id card /\
        (isWithinRange parseDate (card_createdAt card) from to = true ->
         e_type e = card_created /\ e_timestamp e = card_createdAt card) /\
        (isWithinRange parseDate (card_createdAt card) from to = false ->
         isWithinRange parseDate (card_updatedAt card) from to = true /\
         e_timestamp e = card_updatedAt card /\
         e_type e = if truthyBool (card_isCompleted card)
                    then card_completed else card_updated)).
Proof.
  intros H. destruct (getActivityFeed_inv _ _ H)
    as (st & f & t & Hf & Ht & Htr & ->).
  cbv zeta. cbn [changes]. rewrite Hf, Ht.
  destruct (traverse_spec _ _ _ _ _ _ _ _ _ _ Htr) as (Hc & _).
  cbv zeta in Hc.
  assert (Hperm : Permutation
                    (filter isCardEvent (sortChanges parseDate (st_changes st)))
                    (flat_map
                       (fun x => specCardEvents parseDate (Some f) (Some t)
                                   (fst (fst x)) (snd (fst x)) (snd x))
                       (visited (fp_projectId params)))).
  { rewrite <- Hc. apply Permutation_sym.
    apply Permutation_filter. apply sortChanges_perm. }
  split; [exact Hperm|]. split; [|split].
  - intros id. rewrite filter_andb.
    rewrite (Permutation_length
               (Permutation_filter (fun e => String.eqb (e_cardId e) id) Hperm)).
    apply specCardEvents_count.
  - intros boardId listId card st0.
    exact (proj1 (cardStep_spec parseDate (Some f) (Some t) 0 boardId listId
                    card st0)).
  - intros boardId listId card. unfold specCardEvents.
    destruct (isWithinRange parseDate (card_createdAt card) (Some f) (Some t))
      eqn:Ec.
    + split; [cbn; lia|]. intros e [<- |[]]. cbn.
      split; [reflexivity|]. split; [auto|discriminate].
    + destruct (isWithinRange parseDate (card_updatedAt card) (Some f) (Some t))
        eqn:Eu.
      * split; [cbn; lia|]. intros e [<- |[]]. cbn.
        split; [reflexivity|]. split; [discriminate|auto].
      * split; [cbn; lia|]. intros e [].
Qed.

(** C2 (amended).  With a whole cap [maxComments = N], the comment entries
    among the changes number [min (newComments, max (N, 0))], hence at most
    [N] when [N] is not negative (for a cap that is not whole, [N] is the
    least whole number not below it); [newComments] is the number of comments
    of the window on all visited cards; every non-empty [userId] of such a
    comment is in [userIds], and the id of its card is one of
    [affectedCards]. *)
Theorem comments_cap (now : Z) (params : GetActivityFeedParams)
  (r : ActivityFeedResult) :
  feed now params = Ok r ->
  let from := windowFrom parseDate now params in
  let to := windowTo parseDate now params in
  let N := capOf params in
  let materialized := List.length (filter isCommentEvent (changes r)) in
  materialized = Nat.min (newComments (summary r)) (Z.to_nat N) /\
  ((0 <= N)%Z -> (Z.of_nat materialized <= N)%Z) /\
  newComments (summary r)
  = List.length
      (flat_map (fun x => inWindowComments parseDate getComments from to (snd x))
         (visited (fp_projectId params))) /\
  (forall x cm,
      In x (visited (fp_projectId params)) ->
      In cm (inWindowComments parseDate getComments from to (snd x)) ->
      (forall u, comment_userId cm = Some u -> u <> "" -> In u (userIds r)) /\
      In (card_id (snd x)) (map ac_cardId (affectedCards r))).
Proof.
  intros H. destruct (getActivityFeed_inv _ _ H)
    as (st & f & t & Hf & Ht & Htr & ->).
  cbv zeta. cbn [changes summary newComments userIds affectedCards].
  rewrite Hf, Ht.
  destruct (traverse_spec _ _ _ _ _ _ _ _ _ _ Htr)
    as (_ & Hn & Hu & (_ & _ & _ & Hm) & Hk).
  cbv zeta in *.
  assert (Hlen : List.length (filter isCommentEvent
                                (sortChanges parseDate (st_changes st)))
                 = List.length (filter isCommentEvent (st_changes st))).
  { apply Permutation_length, Permutation_filter, Permutation_sym,
      sortChanges_perm. }
  rewrite Hlen, Hm. split; [reflexivity|]. split; [lia|].
  split; [exact Hn|]. intros x cm Hx Hcm.
  destruct (Hu x cm Hx Hcm) as [U A]. split; [exact U|].
  now rewrite (keyed_ids Hk).
Qed.

(** C10 (amended).  [totalChanges] is the length of [changes], which is
    the sum of the card and task counters and of
    [min (newComments, max (N, 0))], where [N] is the least whole number
    not below [maxComments] ([maxComments] itself when it is whole, 3 for
    2.5); so it is strictly less than the sum of the six counters whenever
    [newComments] exceeds [max (N, 0)]. *)
Theorem totalChanges_counts (now : Z) (params : GetActivityFeedParams)
  (r : ActivityFeedResult) :
  feed now params = Ok r ->
  let s := summary r in
  let N := capOf params in
  totalChanges s = List.length (changes r) /\
  totalChanges s
  = (newCards s + updatedCards s + completedCards s + newTasks s
     + completedTasks s + Nat.min (newComments s) (Z.to_nat N))%nat /\
  ((Z.max N 0 < Z.of_nat (newComments s))%Z ->
   (totalChanges s
    < newCards s + updatedCards s + completedCards s + newComments s
      + newTasks s + completedTasks s)%nat).
Proof.
  intros H. destruct (getActivityFeed_inv _ _ H)
    as (st & f & t & Hf & Ht & Htr & ->).
  cbv zeta.
  cbn [changes summary totalChanges newCards updatedCards completedCards
         newComments newTasks completedTasks].
  destruct (traverse_spec _ _ _ _ _ _ _ _ _ _ Htr)
    as (_ & _ & _ & (_ & Hc & Htk & Hm) & _).
  assert (Hlen : List.length (sortChanges parseDate (st_changes st))
                 = List.length (st_changes st)).
  { apply Permutation_length, Permutation_sym, sortChanges_perm. }
  rewrite Hlen, (events_partition (st_changes st)), Hc, Htk, Hm.
  unfold cardsSum, tasksSum. split; [reflexivity|]. split; lia.
Qed.

End FeedTheorems.

(** ** The activity feed over the accessors of [operations/] *)

Section FeedOnFacts.

Variable parseDate : string -> option Z.
Variable getBoards : string -> Result (list Board).
Variable plankaRequest : Request -> Result Response.

Local Notation "'getListsE'" :=
  (fun boardId => Ok (Snapshot.getLists plankaRequest boardId)).
Local Notation "'getCardsE'" :=
  (fun listId => Ok (Snapshot.getCards plankaRequest listId)).
Local Notation "'getTasksE'" :=
  (fun cardId => Ok (Snapshot.getTasks plankaRequest cardId)).
Local Notation "'getCommentsE'" :=
  (fun cardId => Ok (Snapshot.getComments plankaRequest cardId)).

Lemma forLists_total (from to : option Z) (maxComments : Z)
  (boardId : string) (lists : list PList) (st : FeedState) :
  isOk (forLists parseDate getCardsE getTasksE getCommentsE from to
          maxComments boardId st lists) = true.
Proof.
  revert st. induction lists as [|l lists IH]; intros st; [reflexivity|].
  cbn [forLists bind]. apply IH.
Qed.

Lemma forBoards_total (from to : option Z) (maxComments : Z)
  (boards : list Board) (st : FeedState) :
  isOk (forBoards parseDate getListsE getCardsE getTasksE getCommentsE from
          to maxComments st boards) = true.
Proof.
  revert st. induction boards as [|b boards IH]; intros st; [reflexivity|].
  cbn [forBoards bind].
  pose proof (forLists_total from to maxComments (board_id b)
                (Snapshot.getLists plankaRequest (board_id b)) st) as T.
  destruct (forLists _ _ _ _ _ _ _ _ _ _) as [st'|]; [|discriminate].
  cbn [bind]. apply IH.
Qed.

(** Over the accessors of [operations/] the feed resolves as soon as the
    boards of the project can be listed and the window is valid. *)
Lemma getActivityFeedOn_resolves (now : Z) (params : GetActivityFeedParams)
  (boards : list Board) (f t : Z) :
  getBoards (fp_projectId params) = Ok boards ->
  windowFrom parseDate now params = Some f ->
  windowTo parseDate now params = Some t ->
  isOk (getActivityFeedOn parseDate getBoards plankaRequest now params) = true.
Proof.
  intros Hb Hf Ht. unfold getActivityFeedOn, getActivityFeed, traverse.
  cbv zeta. rewrite Hb, Hf, Ht. cbn [bind].
  pose proof (forBoards_total (Some f) (Some t) (capOf params) boards
                initialState) as T.
  destruct (forBoards _ _ _ _ _ _ _ _ _ _) as [st|]; [|discriminate].
  reflexivity.
Qed.

End FeedOnFacts.

(** The four properties of the feed, on the sample project. *)

Lemma changes_sorted_stable_witness :
  exists r,
    sampleFeed "p1" (Some 2%Z) = Ok r /\
    List.length (changes r) = 6%nat /\
    forall i e1 e2,
      nth_error (changes r) i = Some e1 ->
      nth_error (changes r) (S i) = Some e2 ->
      notOlderThan sampleParseDate e1 e2.
Proof.
  destruct (sampleFeed "p1" (Some 2%Z)) as [r|e] eqn:E;
    [|vm_compute in E; discriminate].
  pose proof (changes_sorted_stable _ _ _ _ _ _ _ _ E) as [Hsorted _].
  exists r. split; [reflexivity|]. split; [|exact Hsorted].
  vm_compute in E. inversion E. reflexivity.
Defined.

Lemma card_events_at_most_one_witness :
  exists r,
    sampleFeed "p1" (Some 2%Z) = Ok r /\
    Permutation
      (filter isCardEvent (changes r))
      [mkEntry (Some "2024-05-02T10:00:00.000Z") card_created "b1" (Some "l1")
         "cA" None None None None;
       mkEntry (Some "2024-05-02T11:30:00.000Z") card_completed "b1"
         (Some "l2") "cC" None None None None].
Proof.
  destruct (sampleFeed "p1" (Some 2%Z)) as [r|e] eqn:E;
    [|vm_compute in E; discriminate].
  pose proof (card_events_at_most_one _ _ _ _ _ _ _ _ E) as [Hperm _].
  exists r. split; [reflexivity|].
  eapply Permutation_trans; [exact Hperm|].
  vm_compute. reflexivity.
Defined.

Lemma comments_cap_witness :
  exists r,
    sampleFeed "p1" (Some 2%Z) = Ok r /\
    newComments (summary r) = 3%nat /\
    List.length (filter isCommentEvent (changes r)) = 2%nat /\
    In "u1" (userIds r) /\ In "u2" (userIds r) /\
    In "cA" (map ac_cardId (affectedCards r)).
Proof.
  destruct (sampleFeed "p1" (Some 2%Z)) as [r|e] eqn:E;
    [|vm_compute in E; discriminate].
  pose proof (comments_cap _ _ _ _ _ _ _ _ E) as (Hm & _ & Hn & Hu).
  cbv zeta in Hm, Hn, Hu.
  assert (H3 : newComments (summary r) = 3%nat)
    by (rewrite Hn; vm_compute; reflexivity).
  pose (cA := mkCard "cA" "l1" "Draft the report"
                (Some "2024-05-02T10:00:00.000Z")
                (Some "2024-05-02T11:00:00.000Z") (Some false) None).
  assert (Hx : In ("b1", "l1", cA)
                 (traversedCards sampleGetBoards
                    (fun boardId =>
                       Ok (Snapshot.getLists (feedSnapshot true) boardId))
                    (fun listId =>
                       Ok (Snapshot.getCards (feedSnapshot true) listId))
                    "p1")) by (vm_compute; auto).
  destruct (Hu ("b1", "l1", cA)
              (mkComment "m1" (Some "u1") (Some "Looks good") None
                 (Some "2024-05-02T11:00:00.000Z")) Hx) as [U1 A1];
    [vm_compute; auto|].
  destruct (Hu ("b1", "l1", cA)
              (mkComment "m3" (Some "u2") (Some "Please add figures") None
                 (Some "2024-05-02T11:30:00.000Z")) Hx) as [U2 _];
    [vm_compute; auto|].
  exists r. split; [reflexivity|]. split; [exact H3|].
  split; [rewrite Hm, H3; reflexivity|].
  split; [apply (U1 "u1" eq_refl); discriminate|].
  split; [apply (U2 "u2" eq_refl); discriminate|exact A1].
Defined.

Lemma totalChanges_counts_witness :
  exists r,
    sampleFeed "p1" (Some 2%Z) = Ok r /\
    totalChanges (summary r) = List.length (changes r) /\
    (totalChanges (summary r)
     < newCards (summary r) + updatedCards (summary r)
       + completedCards (summary r) + newComments (summary r)
       + newTasks (summary r) + completedTasks (summary r))%nat.
Proof.
  destruct (sampleFeed "p1" (Some 2%Z)) as [r|e] eqn:E;
    [|vm_compute in E; discriminate].
  pose proof (totalChanges_counts _ _ _ _ _ _ _ _ E) as (Hl & _ & Hlt).
  cbv zeta in Hl, Hlt.
  exists r. split; [reflexivity|]. split; [exact Hl|]. apply Hlt.
  vm_compute in E. inversion E. vm_compute. reflexivity.
Defined.

(** The two claims about the cap, as the specification states them, fail
    for a negative cap; the one about user ids fails for a comment whose
    [userId] is the empty string. *)

Lemma comments_cap_counterexample :
  match sampleFeed "p1" (Some (-1)%Z) with
  | Ok r =>
      ~ (Z.of_nat (List.length (filter isCommentEvent (changes r))) <= -1)%Z /\
      In (mkComment "m2" (Some "") None (Some "Imported note")
            (Some "2024-05-02T11:00:00.000Z"))
        (inWindowComments sampleParseDate
           (fun cardId =>
              Ok (Snapshot.getComments (feedSnapshot true) cardId))
           (Some (sampleNow - 24 * 60 * 60 * 1000)%Z) (Some sampleNow)
           (mkCard "cA" "l1" "Draft the report"
              (Some "2024-05-02T10:00:00.000Z")
              (Some "2024-05-02T11:00:00.000Z") (Some false) None)) /\
      ~ In "" (userIds r)
  | Err _ => False
  end.
Proof.
  vm_compute. split; [intros H; apply H; reflexivity|].
  split; [right; left; reflexivity|].
  intros [H|[H|[]]]; discriminate H.
Qed.

Lemma totalChanges_counts_counterexample :
  match sampleFeed "p2" (Some (-1)%Z) with
  | Ok r =>
      (-1 < Z.of_nat (newComments (summary r)))%Z /\
      ~ (totalChanges (summary r)
         < newCards (summary r) + updatedCards (summary r)
           + completedCards (summary r) + newComments (summary r)
           + newTasks (summary r) + completedTasks (summary r))%nat
  | Err _ => False
  end.
Proof.
  vm_compute. split; [reflexivity|]. intros H. inversion H.
Qed.

(** ** The two scenarios of the specification *)

(** A board with two cards in "Backlog" and one in "Done". *)
Example board_summary_scenario :
  match getBoardSummaryOn asciiLower sampleGetBoard (boardSnapshot 2 1)
          (mkSummaryParams "b1" false false) with
  | Ok s =>
      bs_stats s = mkStats 3 2 0 0 1 0 0 33 /\
      nextActionSuggestion (bs_workflowState s)
      = "Start working on a card from Backlog"
  | Err _ => False
  end.
Proof. vm_compute. split; reflexivity. Qed.

(** A project whose backlog has a card two hours old and one forty hours
    old, and whose "Done" list has a card completed within the last day:
    two changes, the old card not affected. *)
Example activity_feed_scenario :
  match getActivityFeedOn sampleParseDate sampleGetBoards (feedSnapshot false)
          sampleNow (mkFeedParams "p1" None None None) with
  | Ok r =>
      map e_type (changes r) = [card_completed; card_created] /\
      totalChanges (summary r) = 2%nat /\
      map ac_cardId (affectedCards r) = ["cA"; "cC"]
  | Err _ => False
  end.
Proof. vm_compute. repeat split. Qed.

(** The same project with its details and the cap 2.5: the three comments
    of the window are all below the cap when they are met, and all three
    are entries of the feed. *)
Example fractional_cap_scenario :
  match getActivityFeedOn sampleParseDate sampleGetBoards (feedSnapshot true)
          sampleNow
          (mkFeedParams "p1" None None (Some (QArith_base.Qmake 5 2))) with
  | Ok r =>
      List.length (filter isCommentEvent (changes r)) = 3%nat /\
      newComments (summary r) = 3%nat /\
      totalChanges (summary r)
      = (newCards (summary r) + updatedCards (summary r)
         + completedCards (summary r) + newComments (summary r)
         + newTasks (summary r) + completedTasks (summary r))%nat
  | Err _ => False
  end.
Proof. vm_compute. repeat split. Qed.

(* ================================================================== *)
(** * Part III. Further properties                                     *)
(* ================================================================== *)

(** ** The activity feed, entry by entry *)

Lemma countType_app (ty : EntryType) (l1 l2 : list ActivityEntry) :
  countType ty (l1 ++ l2) = (countType ty l1 + countType ty l2)%nat.
Proof. unfold countType. now rewrite filter_app, length_app. Qed.

Lemma Pushed_refl (st : FeedState) : Pushed st st [].
Proof.
  unfold Pushed. cbn. rewrite app_nil_r, !Nat.add_0_r. conjs; reflexivity.
Qed.

Lemma Pushed_trans (st1 st2 st3 : FeedState) (e1 e2 : list ActivityEntry) :
  Pushed st1 st2 e1 -> Pushed st2 st3 e2 -> Pushed st1 st3 (e1 ++ e2).
Proof.
  intros (A0 & A1 & A2 & A3 & A4 & A5) (B0 & B1 & B2 & B3 & B4 & B5).
  unfold Pushed. rewrite !countType_app, B0, B1, B2, B3, B4, B5,
    A0, A1, A2, A3, A4, A5, app_assoc.
  conjs; lia || reflexivity.
Qed.

Lemma Pushed_counted (st st' : FeedState) (evs : list ActivityEntry) :
  KindCounted st -> Pushed st st' evs -> KindCounted st'.
Proof.
  intros (K1 & K2 & K3 & K4 & K5) (A0 & A1 & A2 & A3 & A4 & A5).
  unfold KindCounted.
  rewrite A0, !countType_app, A1, A2, A3, A4, A5, K1, K2, K3, K4, K5.
  conjs; reflexivity.
Qed.

Lemma cap_test (k : nat) (N : Z) :
  (Z.of_nat k <? N)%Z = (k <? Z.to_nat N)%nat.
Proof.
  destruct (Z.of_nat k <? N)%Z eqn:E1, (k <? Z.to_nat N)%nat eqn:E2;
    try reflexivity.
  - apply Z.ltb_lt in E1. apply Nat.ltb_ge in E2. lia.
  - apply Z.ltb_ge in E1. apply Nat.ltb_lt in E2. lia.
Qed.

Section FeedExact.

Variable parseDate : string -> option Z.
Variable getTasks : string -> Result (list Task).
Variable getComments : string -> Result (list Comment).
Variables from to : option Z.
Variable maxComments : Z.

Local Notation "'cap'" := (Z.to_nat maxComments).
Local Notation "'visitE'" :=
  (visit parseDate getTasks getComments from to maxComments).

Lemma cardStep_pushed (boardId listId : string) (card : Card)
  (st : FeedState) :
  Pushed st (fst (cardStep parseDate from to boardId listId card st))
    (specCardEvents parseDate from to boardId listId card).
Proof.
  unfold cardStep, specCardEvents, Pushed. cbv zeta.
  destruct (isWithinRange parseDate (card_createdAt card) from to) eqn:Ec.
  - cbn. conjs; lia || reflexivity.
  - destruct (isWithinRange parseDate (card_updatedAt card) from to) eqn:Eu.
    + rewrite (isWithinRange_truthy _ _ _ _ Eu), andb_true_r.
      destruct (truthyBool (card_isCompleted card)); cbn;
        conjs; lia || reflexivity.
    + cbn. rewrite app_nil_r. conjs; lia || reflexivity.
Qed.

Lemma taskStep_pushed (boardId listId cardId : string)
  (acc : FeedState * bool) (task : Task) :
  let r := taskStep parseDate from to boardId listId cardId acc task in
  let evs := specTaskEvents parseDate from to boardId listId cardId task in
  Pushed (fst acc) (fst r) evs /\
  snd r = snd acc || negb (Nat.eqb (List.length evs) 0).
Proof.
  destruct acc as [st flag]. unfold taskStep, specTaskEvents, Pushed.
  cbv zeta.
  destruct (isWithinRange parseDate (task_createdAt task) from to).
  - cbn. rewrite orb_true_r. conjs; lia || reflexivity.
  - destruct (task_isCompleted task
              && isWithinRange parseDate (task_updatedAt task) from to).
    + cbn. rewrite orb_true_r. conjs; lia || reflexivity.
    + cbn. rewrite app_nil_r, orb_false_r. conjs; lia || reflexivity.
Qed.

Lemma taskSteps_pushed (boardId listId cardId : string) (tasks : list Task)
  (acc : FeedState * bool) :
  let r := fold_left (taskStep parseDate from to boardId listId cardId)
             tasks acc in
  let evs := flat_map (specTaskEvents parseDate from to boardId listId cardId)
               tasks in
  Pushed (fst acc) (fst r) evs /\
  snd r = snd acc || negb (Nat.eqb (List.length evs) 0).
Proof.
  revert acc. induction tasks as [|task tasks IH]; intros acc; cbv zeta.
  - cbn. rewrite orb_false_r. split; [apply Pushed_refl|reflexivity].
  - cbn [fold_left flat_map].
    destruct (taskStep_pushed boardId listId cardId acc task) as [A1 A2].
    destruct (IH (taskStep parseDate from to boardId listId cardId acc task))
      as [B1 B2].
    cbv zeta in *. split; [exact (Pushed_trans A1 B1)|].
    rewrite B2, A2, length_app, <- orb_assoc. f_equal.
    destruct (List.length (specTaskEvents parseDate from to boardId listId
                             cardId task)),
             (List.length (flat_map (specTaskEvents parseDate from to boardId
                                       listId cardId) tasks)); reflexivity.
Qed.

Lemma tasksBlock_pushed (boardId listId : string) (card : Card)
  (acc : FeedState * bool) :
  let r := tasksBlock parseDate getTasks from to boardId listId
             (card_id card) acc in
  let evs := taskEventsOf parseDate getTasks from to (boardId, listId, card) in
  Pushed (fst acc) (fst r) evs /\
  snd r = snd acc || negb (Nat.eqb (List.length evs) 0).
Proof.
  unfold tasksBlock, taskEventsOf, tasksOfCard. cbn [fst snd].
  destruct (getTasks (card_id card)) as [tasks|].
  - apply taskSteps_pushed.
  - cbn. rewrite orb_false_r. split; [apply Pushed_refl|reflexivity].
Qed.

(** A comment step pushes the comment of the window while the cap is not
    reached, and records a truthy user id whether it pushes or not. *)
Lemma commentStep_pushed (boardId listId cardId : string)
  (acc : FeedState * bool) (cm : Comment) :
  let r := commentStep parseDate from to maxComments boardId listId cardId
             acc cm in
  let w := isWithinRange parseDate (comment_createdAt cm) from to in
  Pushed (fst acc) (fst r)
    (if w && (st_newComments (fst acc) <? cap)%nat
     then [commentEntryOf boardId listId cardId cm] else []) /\
  st_userIdsSet (fst r)
  = (if w then addTruthy (comment_userId cm) (st_userIdsSet (fst acc))
     else st_userIdsSet (fst acc)).
Proof.
  destruct acc as [st flag]. unfold commentStep, Pushed. cbv zeta.
  cbn [fst snd]. rewrite <- cap_test.
  destruct (isWithinRange parseDate (comment_createdAt cm) from to).
  2: { cbn. rewrite app_nil_r. conjs; lia || reflexivity. }
  cbn [andb].
  destruct (Z.of_nat (st_newComments st) <? maxComments)%Z;
    unfold addTruthy, commentEntryOf;
    (destruct (comment_userId cm) as [u|]; [destruct (u =? "")|]);
    cbn; rewrite ?app_nil_r; conjs; lia || reflexivity.
Qed.

Lemma commentSteps_pushed (boardId listId cardId : string)
  (comments : list Comment) (acc : FeedState * bool) :
  let r := fold_left (commentStep parseDate from to maxComments boardId
                        listId cardId) comments acc in
  let inWindow :=
    filter (fun c => isWithinRange parseDate (comment_createdAt c) from to)
      comments in
  Pushed (fst acc) (fst r)
    (firstn (cap - st_newComments (fst acc))
       (map (commentEntryOf boardId listId cardId) inWindow)) /\
  st_userIdsSet (fst r)
  = fold_left (fun s c => addTruthy (comment_userId c) s) inWindow
      (st_userIdsSet (fst acc)).
Proof.
  revert acc. induction comments as [|cm comments IH]; intros acc; cbv zeta.
  - cbn. rewrite firstn_nil. split; [apply Pushed_refl|reflexivity].
  - cbn [fold_left filter].
    destruct (commentStep_pushed boardId listId cardId acc cm) as [A1 A2].
    destruct (commentStep_spec parseDate from to maxComments boardId listId
                cardId acc cm) as (_ & _ & A3 & _).
    destruct (IH (commentStep parseDate from to maxComments boardId listId
                    cardId acc cm)) as [B1 B2].
    cbv zeta in *. rewrite A3 in B1. rewrite B2, A2. clear B2 A2 A3.
    destruct (isWithinRange parseDate (comment_createdAt cm) from to).
    + cbn [andb map fold_left] in *. split; [|reflexivity].
      destruct (st_newComments (fst acc) <? cap)%nat eqn:El.
      * apply Nat.ltb_lt in El.
        replace (cap - st_newComments (fst acc))%nat
          with (S (cap - (st_newComments (fst acc) + 1)))%nat by lia.
        cbn [firstn]. exact (Pushed_trans A1 B1).
      * apply Nat.ltb_ge in El.
        replace (cap - st_newComments (fst acc))%nat with 0%nat by lia.
        replace (cap - (st_newComments (fst acc) + 1))%nat with 0%nat in B1
          by lia.
        cbn [firstn] in *. exact (Pushed_trans A1 B1).
    + cbn [andb] in *. rewrite Nat.add_0_r in B1.
      split; [exact (Pushed_trans A1 B1)|reflexivity].
Qed.

Lemma commentsBlock_pushed (boardId listId : string) (card : Card)
  (acc : FeedState * bool) :
  let r := commentsBlock parseDate getComments from to maxComments boardId
             listId (card_id card) acc in
  Pushed (fst acc) (fst r)
    (firstn (cap - st_newComments (fst acc))
       (commentEntriesOf parseDate getComments from to
          (boardId, listId, card))) /\
  st_userIdsSet (fst r)
  = fold_left (fun s c => addTruthy (comment_userId c) s)
      (inWindowComments parseDate getComments from to card)
      (st_userIdsSet (fst acc)).
Proof.
  unfold commentsBlock, commentEntriesOf, inWindowComments, commentsOf.
  cbn [fst snd].
  destruct (getComments (card_id card)) as [comments|].
  - apply commentSteps_pushed.
  - cbn. rewrite firstn_nil. split; [apply Pushed_refl|reflexivity].
Qed.

Lemma commentSteps_flag (boardId listId cardId : string)
  (comments : list Comment) (acc : FeedState * bool) :
  snd (fold_left (commentStep parseDate from to maxComments boardId listId
                    cardId) comments acc)
  = snd acc
    || negb (Nat.eqb
               (List.length
                  (filter (fun c => isWithinRange parseDate
                                      (comment_createdAt c) from to)
                     comments)) 0).
Proof.
  revert acc. induction comments as [|cm comments IH]; intros acc.
  - cbn. now rewrite orb_false_r.
  - cbn [fold_left filter]. rewrite IH.
    destruct (commentStep_spec parseDate from to maxComments boardId listId
                cardId acc cm) as (_ & A2 & _).
    cbv zeta in A2. rewrite A2.
    destruct (isWithinRange parseDate (comment_createdAt cm) from to);
      cbn; now rewrite ?orb_true_r, ?orb_false_r.
Qed.

Lemma commentsBlock_flag (boardId listId : string) (card : Card)
  (acc : FeedState * bool) :
  snd (commentsBlock parseDate getComments from to maxComments boardId
         listId (card_id card) acc)
  = snd acc
    || negb (Nat.eqb
               (List.length
                  (inWindowComments parseDate getComments from to card)) 0).
Proof.
  unfold commentsBlock, inWindowComments, commentsOf.
  destruct (getComments (card_id card)) as [comments|].
  - apply commentSteps_flag.
  - cbn. now rewrite orb_false_r.
Qed.

Lemma Pushed_setAffected (st st' : FeedState) (evs : list ActivityEntry)
  (k : string) (v : AffectedCard) :
  Pushed st st' evs -> Pushed st (setAffected k v st') evs.
Proof. intros H. exact H. Qed.

(** What visiting one card does to the array, the counters, the set of
    user ids and the map of affected cards. *)
Lemma visit_exact (st : FeedState) (x : string * string * Card) :
  let st' := visitE st x in
  Pushed st st'
    (eventsOf parseDate getTasks getComments from to maxComments
       (st_newComments st) x) /\
  st_userIdsSet st'
  = fold_left (fun s c => addTruthy (comment_userId c) s)
      (inWindowComments parseDate getComments from to (snd x))
      (st_userIdsSet st) /\
  st_affectedCardsMap st'
  = (if activeCard parseDate getTasks getComments from to x
     then mapSet (card_id (snd x)) (affectedOf x) (st_affectedCardsMap st)
     else st_affectedCardsMap st).
Proof.
  destruct x as [[boardId listId] card]. unfold visit, processCard.
  cbn [fst snd]. cbv zeta.
  set (acc1 := cardStep parseDate from to boardId listId card st).
  set (acc2 := tasksBlock parseDate getTasks from to boardId listId
                 (card_id card) acc1).
  set (acc3 := commentsBlock parseDate getComments from to maxComments
                 boardId listId (card_id card) acc2).
  pose proof (cardStep_pushed boardId listId card st) as P1.
  destruct (cardStep_spec parseDate from to maxComments boardId listId card
              st)
    as (_ & F1 & N1 & U1 & M1 & _).
  destruct (tasksBlock_pushed boardId listId card acc1) as [P2 F2].
  destruct (tasksBlock_spec parseDate getTasks from to maxComments boardId
              listId (card_id card) acc1) as (_ & _ & N2 & U2 & M2 & _).
  destruct (commentsBlock_pushed boardId listId card acc2) as [P3 U3].
  destruct (commentsBlock_spec parseDate getComments from to maxComments
              boardId listId card acc2) as (_ & _ & _ & _ & M3 & _).
  pose proof (commentsBlock_flag boardId listId card acc2) as F3.
  cbv zeta in *. fold acc1 in P1, F1, N1, U1, M1.
  fold acc2 in P2, F2, N2, U2, M2. fold acc3 in P3, U3, M3, F3.
  rewrite N2, N1 in P3.
  assert (P : Pushed st (fst acc3)
                (eventsOf parseDate getTasks getComments from to maxComments
                   (st_newComments st) (boardId, listId, card))).
  { unfold eventsOf. cbn [fst snd].
    exact (Pushed_trans P1 (Pushed_trans P2 P3)). }
  assert (F : snd acc3
              = activeCard parseDate getTasks getComments from to
                  (boardId, listId, card)).
  { rewrite F3, F2, F1. unfold activeCard. cbn [fst snd]. f_equal.
    rewrite length_app.
    destruct (List.length (specCardEvents parseDate from to boardId listId
                             card)),
             (List.length (taskEventsOf parseDate getTasks from to
                             (boardId, listId, card))); reflexivity. }
  rewrite <- F.
  destruct acc3 as [st3 flag3]. cbn [fst snd] in *.
  destruct flag3.
  - refine (conj (Pushed_setAffected _ _ P) (conj _ _)).
    + cbn. now rewrite U3, U2, U1.
    + cbn. now rewrite M3, M2, M1.
  - refine (conj P (conj _ _)).
    + now rewrite U3, U2, U1.
    + now rewrite M3, M2, M1.
Qed.

Lemma visits_exact (xs : list (string * string * Card)) (st : FeedState) :
  let st' := fold_left visitE xs st in
  Pushed st st'
    (specChanges parseDate getTasks getComments from to maxComments
       (st_newComments st) xs) /\
  st_userIdsSet st'
  = fold_left (fun s x => addUsersOf parseDate getComments from to x s) xs
      (st_userIdsSet st) /\
  st_affectedCardsMap st'
  = fold_left (markAffected parseDate getTasks getComments from to) xs
      (st_affectedCardsMap st).
Proof.
  revert st. induction xs as [|x xs IH]; intros st; cbv zeta.
  - cbn. refine (conj (Pushed_refl st) (conj eq_refl eq_refl)).
  - cbn [fold_left specChanges].
    destruct (visit_exact st x) as (P1 & U1 & M1).
    destruct (visit_spec parseDate getTasks getComments from to maxComments
                st x) as (_ & N1 & _).
    destruct (IH (visitE st x)) as (P2 & U2 & M2).
    cbv zeta in *. rewrite N1 in P2.
    refine (conj (Pushed_trans P1 P2) (conj _ _)).
    + rewrite U2, U1. reflexivity.
    + rewrite M2, M1. reflexivity.
Qed.

End FeedExact.

Lemma In_firstn (A : Type) (n : nat) (l : list A) (a : A) :
  In a (firstn n l) -> In a l.
Proof.
  intros H. rewrite <- (firstn_skipn n l). apply in_or_app. now left.
Qed.

Lemma countType_perm (ty : EntryType) (l l' : list ActivityEntry) :
  Permutation l l' -> countType ty l = countType ty l'.
Proof.
  intros H. unfold countType. apply Permutation_length.
  now apply Permutation_filter.
Qed.

Lemma string_length_append (s1 s2 : string) :
  String.length (s1 ++ s2) = (String.length s1 + String.length s2)%nat.
Proof. induction s1 as [|c s1 IH]; cbn; [reflexivity|now rewrite IH]. Qed.

Lemma substring0_length (m : nat) (s : string) :
  String.length (substring 0 m s) = Nat.min m (String.length s).
Proof.
  revert s. induction m as [|m IH]; intros s.
  - destruct s; reflexivity.
  - destruct s as [|c s]; cbn; [reflexivity|now rewrite IH].
Qed.

Lemma setAdd_inv (x u : string) (s : list string) :
  In u (setAdd x s) -> u = x \/ In u s.
Proof.
  induction s as [|y s IH]; cbn.
  - intros [H|[]]; auto.
  - destruct (y =? x)%string eqn:E; cbn; [auto|].
    intros [H|H]; [auto|]. destruct (IH H); auto.
Qed.

Lemma setAdd_NoDup (x : string) (s : list string) :
  NoDup s -> NoDup (setAdd x s).
Proof.
  induction s as [|y s IH]; cbn; intros H.
  - constructor; [intros []|constructor].
  - destruct (y =? x)%string eqn:E; [exact H|].
    inversion H as [|? ? Hy Hs]; subst. constructor; [|auto].
    intros Hin. apply setAdd_inv in Hin. destruct Hin as [->|Hin];
      [|contradiction].
    rewrite String.eqb_refl in E. discriminate.
Qed.

Lemma mapSet_inv (k c : string) (v : AffectedCard)
  (m : list (string * AffectedCard)) :
  In c (map fst (mapSet k v m)) -> c = k \/ In c (map fst m).
Proof.
  induction m as [|[k' v'] m IH]; cbn.
  - intros [H|[]]; auto.
  - destruct (k' =? k)%string eqn:E; cbn.
    + intros [H|H]; auto.
    + intros [H|H]; [auto|]. destruct (IH H); auto.
Qed.

Lemma mapSet_NoDup (k : string) (v : AffectedCard)
  (m : list (string * AffectedCard)) :
  NoDup (map fst m) -> NoDup (map fst (mapSet k v m)).
Proof.
  induction m as [|[k' v'] m IH]; cbn; intros H.
  - constructor; [intros []|constructor].
  - inversion H as [|? ? Hk Hm]; subst.
    destruct (k' =? k)%string eqn:E; cbn.
    + apply String.eqb_eq in E. subst k'. now constructor.
    + constructor; [|auto]. intros Hin. apply mapSet_inv in Hin.
      destruct Hin as [->|Hin]; [|contradiction].
      rewrite String.eqb_refl in E. discriminate.
Qed.

Lemma mapSet_fresh (k : string) (v : AffectedCard)
  (m : list (string * AffectedCard)) :
  ~ In k (map fst m) -> mapSet k v m = m ++ [(k, v)].
Proof.
  induction m as [|[k' v'] m IH]; cbn; intros H; [reflexivity|].
  destruct (k' =? k)%string eqn:E.
  - apply String.eqb_eq in E. subst k'. exfalso. auto.
  - rewrite IH; auto.
Qed.

(** ** [truncateText] *)

Lemma truncateText_bound (text : string) (maxLength : nat) :
  (3 <= maxLength)%nat ->
  (String.length (truncateText text maxLength) <= maxLength)%nat.
Proof.
  intros H3. unfold truncateText.
  destruct (String.length text <=? maxLength)%nat eqn:E.
  - now apply Nat.leb_le in E.
  - rewrite string_length_append, substring0_length. cbn [String.length]. lia.
Qed.

(** X13.  [truncateText] returns a text no longer than [maxLength] as
    soon as [maxLength] leaves room for the ellipsis: a text that fits is
    returned as it is, a longer one is cut to [maxLength - 3] characters
    and ends with the ellipsis, which makes exactly [maxLength]
    characters. *)
Theorem truncateText_length (text : string) (maxLength : nat) :
  (3 <= maxLength)%nat ->
  (String.length (truncateText text maxLength) <= maxLength)%nat /\
  ((String.length text <= maxLength)%nat ->
   truncateText text maxLength = text) /\
  ((maxLength < String.length text)%nat ->
   truncateText text maxLength
   = (substring 0 (maxLength - 3) text ++ "...")%string /\
   String.length (truncateText text maxLength) = maxLength).
Proof.
  intros H3. unfold truncateText.
  destruct (String.length text <=? maxLength)%nat eqn:E.
  - apply Nat.leb_le in E. conjs; [exact E|reflexivity|lia].
  - apply Nat.leb_gt in E.
    rewrite string_length_append, substring0_length. cbn [String.length].
    conjs; [lia|lia|]. intros _. split; [reflexivity|lia].
Qed.

Lemma truncateText_length_witness :
  (3 <= 10)%nat /\
  truncateText "Please add the figures" 10 = "Please ..."%string.
Proof.
  split; [lia|].
  destruct (truncateText_length "Please add the figures" (maxLength := 10))
    as (_ & _ & H); [lia|].
  destruct H as [H _]; [cbn; lia|]. rewrite H. reflexivity.
Defined.

(** ** The activity feed as a function of what the traversal fetched *)

Section FeedCandidates.

Variable parseDate : string -> option Z.
Variable getTasks : string -> Result (list Task).
Variable getComments : string -> Result (list Comment).
Variables from to : option Z.
Variable maxComments : Z.

Local Notation "'candidates'" :=
  (candidateEvents parseDate getTasks getComments from to).
Local Notation "'spec'" :=
  (specChanges parseDate getTasks getComments from to maxComments).

Lemma within_bounds (d : option string) :
  isWithinRange parseDate d from to = true ->
  exists s z f t,
    d = Some s /\ parseDate s = Some z /\ from = Some f /\ to = Some t /\
    (f <= z <= t)%Z.
Proof.
  unfold isWithinRange. destruct d as [s|]; [|discriminate].
  destruct (s =? "")%string; [discriminate|].
  destruct (parseDate s) as [z|] eqn:Ez; [|discriminate].
  destruct from as [f|]; [|discriminate].
  destruct to as [t|]; [|discriminate].
  intros H. apply andb_true_iff in H. destruct H as [H1 H2].
  apply Z.leb_le in H1. apply Z.leb_le in H2.
  exists s, z, f, t. repeat split; auto.
Qed.

Lemma candidates_entryOf (x : string * string * Card) (e : ActivityEntry) :
  In e (candidates x) -> entryOf parseDate from to x e.
Proof.
  destruct x as [[boardId listId] card].
  unfold candidateEvents, entryOf. cbn [fst snd].
  rewrite !in_app_iff. intros [H|[H|H]].
  - unfold specCardEvents in H.
    destruct (isWithinRange parseDate (card_createdAt card) from to) eqn:Ec.
    + destruct H as [<-|[]]. cbn.
      destruct (within_bounds _ Ec) as (s & z & f & t & -> & Hz & Hf & Ht & B).
      conjs; auto; try discriminate; try congruence.
      exists z, f, t. unfold entryTime. cbn. auto.
    + destruct (isWithinRange parseDate (card_updatedAt card) from to) eqn:Eu;
        [|destruct H].
      destruct H as [<-|[]]. cbn.
      destruct (within_bounds _ Eu) as (s & z & f & t & -> & Hz & Hf & Ht & B).
      conjs; auto; try discriminate; try congruence.
      exists z, f, t. unfold entryTime. cbn. auto.
  - unfold taskEventsOf, tasksOfCard in H. cbn [fst snd] in H.
    apply in_flat_map in H. destruct H as (task & _ & H).
    unfold specTaskEvents in H.
    destruct (isWithinRange parseDate (task_createdAt task) from to) eqn:Ec.
    + destruct H as [<-|[]]. cbn.
      destruct (within_bounds _ Ec) as (s & z & f & t & -> & Hz & Hf & Ht & B).
      conjs; auto; try discriminate; try congruence.
      exists z, f, t. unfold entryTime. cbn. auto.
    + destruct (task_isCompleted task); cbn [andb] in H; [|destruct H].
      destruct (isWithinRange parseDate (task_updatedAt task) from to) eqn:Eu;
        [|destruct H].
      destruct H as [<-|[]]. cbn.
      destruct (within_bounds _ Eu) as (s & z & f & t & -> & Hz & Hf & Ht & B).
      conjs; auto; try discriminate; try congruence.
      exists z, f, t. unfold entryTime. cbn. auto.
  - unfold commentEntriesOf, inWindowComments in H. cbn [fst snd] in H.
    apply in_map_iff in H. destruct H as (cm & <- & H).
    apply filter_In in H. destruct H as [_ Ew].
    destruct (within_bounds _ Ew) as (s & z & f & t & Es & Hz & Hf & Ht & B).
    unfold commentEntryOf. cbn.
    conjs; auto.
    + exists z, f, t. unfold entryTime. cbn. rewrite Es. auto.
    + intros p Hp. inversion Hp; subst p.
      apply truncateText_bound. lia.
Qed.

Lemma eventsOf_candidates (k : nat) (x : string * string * Card) :
  incl (eventsOf parseDate getTasks getComments from to maxComments k x)
    (candidates x).
Proof.
  unfold eventsOf, candidateEvents. intros e. rewrite !in_app_iff.
  intros [H|[H|H]]; auto. right. right. eapply In_firstn; eauto.
Qed.

Lemma spec_In (e : ActivityEntry) (xs : list (string * string * Card))
  (k : nat) :
  In e (spec k xs) -> exists x, In x xs /\ In e (candidates x).
Proof.
  revert k. induction xs as [|x xs IH]; intros k; cbn [specChanges].
  - intros [].
  - rewrite in_app_iff. intros [H|H].
    + exists x. split; [now left|]. eapply eventsOf_candidates; eauto.
    + destruct (IH _ H) as (y & Hy & He). exists y. split; [now right|auto].
Qed.

Lemma candidates_active (x : string * string * Card) (e : ActivityEntry) :
  In e (candidates x) ->
  activeCard parseDate getTasks getComments from to x = true.
Proof.
  unfold candidateEvents, activeCard. rewrite app_assoc, in_app_iff.
  intros [H|H].
  - destruct (specCardEvents _ _ _ _ _ _ ++ taskEventsOf _ _ _ _ _);
      [destruct H|reflexivity].
  - unfold commentEntriesOf in H. apply in_map_iff in H.
    destruct H as (cm & _ & H).
    destruct (inWindowComments _ _ _ _ _); [destruct H|].
    cbn. now rewrite orb_true_r.
Qed.

End FeedCandidates.

Lemma filter_all (A : Type) (p : A -> bool) (l : list A) :
  Forall (fun a => p a = true) l -> filter p l = l.
Proof.
  induction 1 as [|a l Ha _ IH]; cbn; [reflexivity|now rewrite Ha, IH].
Qed.

Lemma filter_none (A : Type) (p : A -> bool) (l : list A) :
  Forall (fun a => p a = false) l -> filter p l = [].
Proof.
  induction 1 as [|a l Ha _ IH]; cbn; [reflexivity|now rewrite Ha].
Qed.

Lemma Forall_firstn_keep (A : Type) (P : A -> Prop) (n : nat) (l : list A) :
  Forall P l -> Forall P (firstn n l).
Proof.
  intros H. apply Forall_forall. intros a Ha.
  apply In_firstn in Ha. rewrite Forall_forall in H. auto.
Qed.

Lemma addTruthy_fold_In (u : string) (cms : list Comment) (s : list string) :
  In u (fold_left (fun s c => addTruthy (comment_userId c) s) cms s) <->
  In u s \/
  (u <> ""%string /\ exists cm, In cm cms /\ comment_userId cm = Some u).
Proof.
  revert s. induction cms as [|cm cms IH]; intros s; cbn [fold_left].
  - split; [auto|]. intros [H|(_ & cm & [] & _)]. exact H.
  - rewrite IH. unfold addTruthy at 1.
    destruct (comment_userId cm) as [v|] eqn:Ev.
    + destruct (v =? "")%string eqn:E.
      * apply String.eqb_eq in E. subst v. split.
        -- intros [H|(Hn & c & Hc & Hu)]; [auto|].
           right. split; [exact Hn|]. exists c. split; [now right|exact Hu].
        -- intros [H|(Hn & c & [Hc|Hc] & Hu)]; [auto| |].
           ++ subst c. rewrite Ev in Hu. inversion Hu. subst u.
              now contradiction Hn.
           ++ right. split; [exact Hn|]. exists c. auto.
      * apply String.eqb_neq in E. split.
        -- intros [H|(Hn & c & Hc & Hu)].
           ++ apply setAdd_inv in H. destruct H as [->|H]; [|auto].
              right. split; [exact E|]. exists cm. split; [now left|exact Ev].
           ++ right. split; [exact Hn|]. exists c. split; [now right|exact Hu].
        -- intros [H|(Hn & c & [Hc|Hc] & Hu)].
           ++ left. now apply setAdd_incl.
           ++ subst c. rewrite Ev in Hu. inversion Hu. subst u.
              left. apply setAdd_In.
           ++ right. split; [exact Hn|]. exists c. auto.
    + split.
      * intros [H|(Hn & c & Hc & Hu)]; [auto|].
        right. split; [exact Hn|]. exists c. split; [now right|exact Hu].
      * intros [H|(Hn & c & [Hc|Hc] & Hu)]; [auto| |].
        -- subst c. rewrite Ev in Hu. discriminate.
        -- right. split; [exact Hn|]. exists c. auto.
Qed.

Lemma addTruthy_fold_NoDup (cms : list Comment) (s : list string) :
  NoDup s ->
  NoDup (fold_left (fun s c => addTruthy (comment_userId c) s) cms s).
Proof.
  revert s. induction cms as [|cm cms IH]; intros s H; cbn [fold_left];
    [exact H|].
  apply IH. unfold addTruthy. destruct (comment_userId cm) as [v|]; [|exact H].
  destruct (v =? "")%string; [exact H|]. now apply setAdd_NoDup.
Qed.

Section FeedFolds.

Variable parseDate : string -> option Z.
Variable getTasks : string -> Result (list Task).
Variable getComments : string -> Result (list Comment).
Variables from to : option Z.
Variable maxComments : Z.

Local Notation "'spec'" :=
  (specChanges parseDate getTasks getComments from to maxComments).
Local Notation "'active'" :=
  (activeCard parseDate getTasks getComments from to).
Local Notation "'mark'" :=
  (markAffected parseDate getTasks getComments from to).
Local Notation "'windowComments'" :=
  (fun x : string * string * Card =>
     inWindowComments parseDate getComments from to (snd x)).

Lemma users_fold_In (u : string) (xs : list (string * string * Card))
  (s : list string) :
  In u (fold_left (fun s x => addUsersOf parseDate getComments from to x s)
          xs s) <->
  In u s \/
  (u <> ""%string /\
   exists x cm, In x xs /\ In cm (windowComments x) /\
                comment_userId cm = Some u).
Proof.
  revert s. induction xs as [|x xs IH]; intros s; cbn [fold_left].
  - split; [auto|]. intros [H|(_ & x & cm & [] & _)]. exact H.
  - rewrite IH. unfold addUsersOf at 1. rewrite addTruthy_fold_In. split.
    + intros [[H|(Hn & cm & Hc & Hu)]|(Hn & y & cm & Hy & Hc & Hu)].
      * now left.
      * right. split; [exact Hn|]. exists x, cm. split; [now left|auto].
      * right. split; [exact Hn|]. exists y, cm. split; [now right|auto].
    + intros [H|(Hn & y & cm & [Hy|Hy] & Hc & Hu)].
      * left. now left.
      * subst y. left. right. split; [exact Hn|]. exists cm. auto.
      * right. split; [exact Hn|]. exists y, cm. auto.
Qed.

Lemma users_fold_NoDup (xs : list (string * string * Card))
  (s : list string) :
  NoDup s ->
  NoDup (fold_left (fun s x => addUsersOf parseDate getComments from to x s)
           xs s).
Proof.
  revert s. induction xs as [|x xs IH]; intros s H; cbn [fold_left];
    [exact H|].
  apply IH. unfold addUsersOf. now apply addTruthy_fold_NoDup.
Qed.

Lemma mark_fold_In (c : string) (xs : list (string * string * Card))
  (m : list (string * AffectedCard)) :
  In c (map fst (fold_left mark xs m)) <->
  In c (map fst m) \/
  exists x, In x xs /\ card_id (snd x) = c /\ active x = true.
Proof.
  revert m. induction xs as [|x xs IH]; intros m; cbn [fold_left].
  - split; [auto|]. intros [H|(x & [] & _)]. exact H.
  - rewrite IH. unfold markAffected at 1.
    destruct (active x) eqn:Ea.
    + split.
      * intros [H|(y & Hy & Hc & Ha)].
        -- apply mapSet_inv in H. destruct H as [->|H]; [|auto].
           right. exists x. split; [now left|auto].
        -- right. exists y. split; [now right|auto].
      * intros [H|(y & [Hy|Hy] & Hc & Ha)].
        -- left. now apply mapSet_incl.
        -- subst y. subst c. left. apply mapSet_In.
        -- right. exists y. auto.
    + split.
      * intros [H|(y & Hy & Hc & Ha)]; [auto|].
        right. exists y. split; [now right|auto].
      * intros [H|(y & [Hy|Hy] & Hc & Ha)]; [auto| |].
        -- subst y. rewrite Ea in Ha. discriminate.
        -- right. exists y. auto.
Qed.

Lemma mark_fold_NoDup (xs : list (string * string * Card))
  (m : list (string * AffectedCard)) :
  NoDup (map fst m) -> NoDup (map fst (fold_left mark xs m)).
Proof.
  revert m. induction xs as [|x xs IH]; intros m H; cbn [fold_left];
    [exact H|].
  apply IH. unfold markAffected. destruct (active x); [|exact H].
  now apply mapSet_NoDup.
Qed.

Lemma mark_fold_distinct (xs : list (string * string * Card))
  (m : list (string * AffectedCard)) :
  NoDup (map (fun x => card_id (snd x)) xs) ->
  (forall x, In x xs -> ~ In (card_id (snd x)) (map fst m)) ->
  fold_left mark xs m
  = m ++ map (fun x => (card_id (snd x), affectedOf x)) (filter active xs).
Proof.
  revert m. induction xs as [|x xs IH]; intros m Hnd Hm; cbn [fold_left].
  - cbn. now rewrite app_nil_r.
  - cbn [map] in Hnd. inversion Hnd as [|? ? Hx Hxs]; subst.
    cbn [filter].
    assert (E : mark m x
                = if active x
                  then mapSet (card_id (snd x)) (affectedOf x) m else m)
      by reflexivity.
    rewrite E. clear E.
    destruct (active x) eqn:Ea.
    + rewrite mapSet_fresh by (apply Hm; now left).
      rewrite IH; [cbn [map]; now rewrite <- app_assoc|exact Hxs|].
      intros y Hy. rewrite map_app, in_app_iff. cbn.
      intros [H|[H|[]]].
      * apply (Hm y); [now right|exact H].
      * apply Hx. rewrite H. apply in_map_iff. exists y. auto.
    + apply IH; [exact Hxs|]. intros y Hy. apply Hm. now right.
Qed.

Lemma spec_tasks (xs : list (string * string * Card)) (k : nat) :
  filter isTaskEvent (spec k xs)
  = flat_map (taskEventsOf parseDate getTasks from to) xs.
Proof.
  revert k. induction xs as [|x xs IH]; intros k; cbn [specChanges flat_map];
    [reflexivity|].
  unfold eventsOf. rewrite !filter_app, IH. f_equal.
  rewrite (@filter_none _ isTaskEvent (specCardEvents _ _ _ _ _ _)).
  2: { unfold specCardEvents.
       destruct (isWithinRange _ _ _ _); [repeat constructor|].
       destruct (isWithinRange _ _ _ _); [|constructor].
       destruct (truthyBool _); repeat constructor. }
  rewrite (@filter_none _ isTaskEvent (firstn _ _)).
  2: { apply Forall_firstn_keep. unfold commentEntriesOf.
       apply Forall_forall. intros e He. apply in_map_iff in He.
       destruct He as (cm & <- & _). reflexivity. }
  cbn [app]. rewrite app_nil_r. apply filter_all.
  unfold taskEventsOf. apply Forall_forall. intros e He.
  apply in_flat_map in He. destruct He as (task & _ & He).
  unfold specTaskEvents in He.
  destruct (isWithinRange _ _ _ _); [destruct He as [<-|[]]; reflexivity|].
  destruct (_ && _); [destruct He as [<-|[]]; reflexivity|destruct He].
Qed.

Lemma spec_comments (xs : list (string * string * Card)) (k : nat) :
  filter isCommentEvent (spec k xs)
  = firstn (Z.to_nat maxComments - k)
      (flat_map (commentEntriesOf parseDate getComments from to) xs).
Proof.
  revert k. induction xs as [|x xs IH]; intros k; cbn [specChanges flat_map].
  - now rewrite firstn_nil.
  - unfold eventsOf. rewrite !filter_app, IH.
    rewrite (@filter_none _ isCommentEvent (specCardEvents _ _ _ _ _ _)).
    2: { unfold specCardEvents.
         destruct (isWithinRange _ _ _ _); [repeat constructor|].
         destruct (isWithinRange _ _ _ _); [|constructor].
         destruct (truthyBool _); repeat constructor. }
    rewrite (@filter_none _ isCommentEvent (taskEventsOf _ _ _ _ _)).
    2: { unfold taskEventsOf. apply Forall_forall. intros e He.
         apply in_flat_map in He. destruct He as (task & _ & He).
         unfold specTaskEvents in He.
         destruct (isWithinRange _ _ _ _);
           [destruct He as [<-|[]]; reflexivity|].
         destruct (_ && _); [destruct He as [<-|[]]; reflexivity|destruct He]. }
    cbn [app]. rewrite filter_all.
    2: { apply Forall_firstn_keep. unfold commentEntriesOf.
         apply Forall_forall. intros e He. apply in_map_iff in He.
         destruct He as (cm & <- & _). reflexivity. }
    rewrite firstn_app. f_equal. f_equal.
    unfold commentEntriesOf. rewrite length_map. lia.
Qed.

End FeedFolds.

Section FeedMore.

Variable parseDate : string -> option Z.
Variable getBoards : string -> Result (list Board).
Variable getLists : string -> Result (list PList).
Variable getCards : string -> Result (list Card).
Variable getTasks : string -> Result (list Task).
Variable getComments : string -> Result (list Comment).

Local Notation "'feed'" :=
  (getActivityFeed parseDate getBoards getLists getCards getTasks getComments).
Local Notation "'visited'" := (traversedCards getBoards getLists getCards).
Local Notation "'spec'" := (specChanges parseDate getTasks getComments).

(** A feed that resolves, as a function of the visited cards. *)
Lemma feed_exact (now : Z) (params : GetActivityFeedParams)
  (r : ActivityFeedResult) :
  feed now params = Ok r ->
  exists f t,
    windowFrom parseDate now params = Some f /\
    windowTo parseDate now params = Some t /\
    query r = mkQuery (fp_projectId params) f t /\
    let xs := visited (fp_projectId params) in
    let S := spec (Some f) (Some t) (capOf params) 0%nat xs in
    changes r = sortChanges parseDate S /\
    newCards (summary r) = countType card_created S /\
    updatedCards (summary r) = countType card_updated S /\
    completedCards (summary r) = countType card_completed S /\
    newTasks (summary r) = countType task_created S /\
    completedTasks (summary r) = countType task_completed S /\
    userIds r
    = fold_left
        (fun s x => addUsersOf parseDate getComments (Some f) (Some t) x s)
        xs [] /\
    map ac_cardId (affectedCards r)
    = map fst
        (fold_left
           (markAffected parseDate getTasks getComments (Some f) (Some t))
           xs []) /\
    affectedCards r
    = map snd
        (fold_left
           (markAffected parseDate getTasks getComments (Some f) (Some t))
           xs []).
Proof.
  intros H. apply getActivityFeed_inv in H.
  destruct H as (st & f & t & Hf & Ht & Htr & ->).
  exists f, t. refine (conj Hf (conj Ht (conj eq_refl _))). cbv zeta.
  destruct (traverse_spec _ _ _ _ _ _ _ _ _ _ Htr) as (_ & _ & _ & _ & K).
  apply traverse_visits in Htr.
  destruct (visits_exact parseDate getTasks getComments (Some f) (Some t)
              (capOf params) (visited (fp_projectId params)) initialState)
    as ((A0 & A1 & A2 & A3 & A4 & A5) & U & M).
  cbv zeta in *. rewrite <- Htr in *. cbn in A0, A1, A2, A3, A4, A5, U, M.
  cbn [changes summary newCards updatedCards completedCards newTasks
       completedTasks userIds affectedCards].
  rewrite A0. conjs; auto.
  - rewrite keyed_ids by exact K. now rewrite M.
  - now rewrite M.
Qed.

(** X1.  The changes of a feed are a function of what the traversal
    fetched: the stable sort, by instant, of the entries of the visited
    cards in traversal order, each card giving its own event, then the
    events of its tasks, then its comments of the window as long as fewer
    than [maxComments] comments of the window were counted before. *)
Theorem feed_changes_exact (now : Z) (params : GetActivityFeedParams)
  (r : ActivityFeedResult) :
  feed now params = Ok r ->
  changes r
  = sortChanges parseDate
      (spec (windowFrom parseDate now params) (windowTo parseDate now params)
         (capOf params) 0%nat (visited (fp_projectId params))).
Proof.
  intros H. destruct (feed_exact _ _ H) as (f & t & -> & -> & _ & Hc & _).
  exact Hc.
Qed.

(** X2.  Every entry of a feed carries an instant that lies in the window
    the feed reports, both ends included, and the ids of a visited card,
    its list and its board; a preview has at most 100 characters and only
    a comment entry carries a user id. *)
Theorem feed_entries_in_window (now : Z) (params : GetActivityFeedParams)
  (r : ActivityFeedResult) :
  feed now params = Ok r ->
  forall e, In e (changes r) ->
    (exists z, entryTime parseDate e = Some z /\
               (q_from (query r) <= z <= q_to (query r))%Z) /\
    (exists x, In x (visited (fp_projectId params)) /\
               e_boardId e = fst (fst x) /\
               e_listId e = Some (snd (fst x)) /\
               e_cardId e = card_id (snd x)) /\
    (forall p, e_preview e = Some p -> (String.length p <= 100)%nat) /\
    (e_userId e <> None -> e_type e = comment_added).
Proof.
  intros H e He.
  destruct (feed_exact _ _ H) as (f & t & _ & _ & Hq & Hc & _).
  cbv zeta in Hc. rewrite Hc in He.
  apply (Permutation_in _ (Permutation_sym (sortChanges_perm parseDate _)))
    in He.
  apply spec_In in He. destruct He as (x & Hx & He).
  apply candidates_entryOf in He.
  destruct He as (Eb & El & Ec & (z & f' & t' & Ez & Ef & Et & B) & Hp & Hu).
  inversion Ef; inversion Et; subst f' t'. rewrite Hq. cbn.
  conjs; auto.
  - exists z. auto.
  - exists x. auto.
Qed.

(** X3.  Each of the five card and task counters of the summary is the
    number of entries of its type among the changes. *)
Theorem feed_kind_counters (now : Z) (params : GetActivityFeedParams)
  (r : ActivityFeedResult) :
  feed now params = Ok r ->
  newCards (summary r) = countType card_created (changes r) /\
  updatedCards (summary r) = countType card_updated (changes r) /\
  completedCards (summary r) = countType card_completed (changes r) /\
  newTasks (summary r) = countType task_created (changes r) /\
  completedTasks (summary r) = countType task_completed (changes r).
Proof.
  intros H.
  destruct (feed_exact _ _ H)
    as (f & t & _ & _ & _ & Hc & H1 & H2 & H3 & H4 & H5 & _).
  cbv zeta in *. rewrite Hc, H1, H2, H3, H4, H5.
  conjs; apply countType_perm, sortChanges_perm.
Qed.

(** X4.  The task entries of a feed are those of the tasks fetched for the
    visited cards: each task gives one entry at most, a creation when it
    was created in the window, otherwise a completion when it is completed
    and was updated in the window; a card whose tasks cannot be fetched
    gives none. *)
Theorem feed_task_events (now : Z) (params : GetActivityFeedParams)
  (r : ActivityFeedResult) :
  feed now params = Ok r ->
  Permutation (filter isTaskEvent (changes r))
    (flat_map
       (taskEventsOf parseDate getTasks (windowFrom parseDate now params)
          (windowTo parseDate now params))
       (visited (fp_projectId params))).
Proof.
  intros H. destruct (feed_exact _ _ H) as (f & t & -> & -> & _ & Hc & _).
  cbv zeta in Hc. rewrite Hc.
  rewrite <- (spec_tasks parseDate getTasks getComments _ _ (capOf params) _ 0).
  apply Permutation_filter, Permutation_sym, sortChanges_perm.
Qed.

(** X5.  The cap keeps the comments met first: the comment entries of a
    feed are the first [N] comments of the window in traversal order,
    whatever their instants, where [N] is the least whole number not below
    [maxComments] ([maxComments] itself when it is whole, none when it is
    negative). *)
Theorem feed_comments_first_come (now : Z) (params : GetActivityFeedParams)
  (r : ActivityFeedResult) :
  feed now params = Ok r ->
  Permutation (filter isCommentEvent (changes r))
    (firstn (Z.to_nat (capOf params))
       (flat_map
          (commentEntriesOf parseDate getComments
             (windowFrom parseDate now params)
             (windowTo parseDate now params))
          (visited (fp_projectId params)))).
Proof.
  intros H. destruct (feed_exact _ _ H) as (f & t & -> & -> & _ & Hc & _).
  cbv zeta in Hc. rewrite Hc.
  replace (Z.to_nat (capOf params)) with (Z.to_nat (capOf params) - 0)%nat
    by lia.
  rewrite <- (spec_comments parseDate getTasks).
  apply Permutation_filter, Permutation_sym, sortChanges_perm.
Qed.

(** X6.  The affected cards of a feed are the visited cards with activity
    in the window, each id once: a card is listed exactly when it has an
    event of its own, an event of one of its tasks or a comment of the
    window, and the card of every entry of the changes is listed. *)
Theorem feed_affected_cards (now : Z) (params : GetActivityFeedParams)
  (r : ActivityFeedResult) :
  feed now params = Ok r ->
  let from := windowFrom parseDate now params in
  let to := windowTo parseDate now params in
  let ids := map ac_cardId (affectedCards r) in
  NoDup ids /\
  (forall cardId,
      In cardId ids <->
      exists x, In x (visited (fp_projectId params)) /\
                card_id (snd x) = cardId /\
                activeCard parseDate getTasks getComments from to x = true) /\
  (forall e, In e (changes r) -> In (e_cardId e) ids).
Proof.
  intros H.
  destruct (feed_exact _ _ H) as (f & t & -> & -> & _ & Hc & _ & _ & _ & _ & _
                                  & _ & Hi & _).
  cbv zeta in *. rewrite Hi. conjs.
  - apply mark_fold_NoDup. constructor.
  - intros cardId. rewrite mark_fold_In. cbn. split.
    + intros [[]|Hx]. exact Hx.
    + intros Hx. now right.
  - intros e He. rewrite Hc in He.
    apply (Permutation_in _ (Permutation_sym (sortChanges_perm parseDate _)))
      in He.
    apply spec_In in He. destruct He as (x & Hx & He).
    apply mark_fold_In. right. exists x.
    destruct (candidates_entryOf _ _ _ _ _ _ _ He) as (_ & _ & Ec & _).
    refine (conj Hx (conj (eq_sym Ec) _)).
    eapply candidates_active; eauto.
Qed.

(** X7.  When the visited cards have distinct ids, the affected cards are
    the visited cards with activity, in traversal order, each with its
    name and the ids of its board and list. *)
Theorem feed_affected_cards_distinct (now : Z)
  (params : GetActivityFeedParams) (r : ActivityFeedResult) :
  NoDup (map (fun x => card_id (snd x)) (visited (fp_projectId params))) ->
  feed now params = Ok r ->
  affectedCards r
  = map affectedOf
      (filter
         (activeCard parseDate getTasks getComments
            (windowFrom parseDate now params) (windowTo parseDate now params))
         (visited (fp_projectId params))).
Proof.
  intros Hnd H.
  destruct (feed_exact _ _ H) as (f & t & -> & -> & _ & _ & _ & _ & _ & _ & _
                                  & _ & _ & Ha).
  cbv zeta in Ha. rewrite Ha, mark_fold_distinct; [|exact Hnd|intros x _ []].
  cbn [app]. rewrite map_map. reflexivity.
Qed.

(** X8.  The user ids of a feed are the non-empty user ids of the
    comments of the window on the visited cards, capped or not, each
    once. *)
Theorem feed_user_ids (now : Z) (params : GetActivityFeedParams)
  (r : ActivityFeedResult) :
  feed now params = Ok r ->
  let from := windowFrom parseDate now params in
  let to := windowTo parseDate now params in
  NoDup (userIds r) /\
  (forall u,
      In u (userIds r) <->
      u <> ""%string /\
      exists x cm,
        In x (visited (fp_projectId params)) /\
        In cm (inWindowComments parseDate getComments from to (snd x)) /\
        comment_userId cm = Some u).
Proof.
  intros H.
  destruct (feed_exact _ _ H) as (f & t & -> & -> & _ & _ & _ & _ & _ & _ & _
                                  & Hu & _).
  cbv zeta in *. rewrite Hu. split.
  - apply users_fold_NoDup. constructor.
  - intros u. rewrite users_fold_In. cbn. split.
    + intros [[]|Hx]. exact Hx.
    + intros Hx. now right.
Qed.

End FeedMore.

(** ** Which fetches the activity feed depends on *)

Section FeedFailures.

Variable parseDate : string -> option Z.
Variable getBoards : string -> Result (list Board).
Variable getLists : string -> Result (list PList).
Variable getCards : string -> Result (list Card).
Variable getTasks : string -> Result (list Task).
Variable getComments : string -> Result (list Comment).

Local Notation "'feed'" :=
  (getActivityFeed parseDate getBoards getLists getCards getTasks getComments).

Lemma processCard_swallowing (from to : option Z) (maxComments : Z)
  (boardId listId : string) (st : FeedState) (card : Card) :
  processCard parseDate (swallowing getTasks) (swallowing getComments)
    from to maxComments boardId listId st card
  = processCard parseDate getTasks getComments from to maxComments boardId
      listId st card.
Proof.
  unfold processCard, tasksBlock, commentsBlock, swallowing.
  destruct (getTasks (card_id card)), (getComments (card_id card));
    reflexivity.
Qed.

Lemma cards_swallowing (from to : option Z) (maxComments : Z)
  (boardId listId : string) (cards : list Card) (st : FeedState) :
  fold_left
    (processCard parseDate (swallowing getTasks) (swallowing getComments)
       from to maxComments boardId listId) cards st
  = fold_left
      (processCard parseDate getTasks getComments from to maxComments
         boardId listId) cards st.
Proof.
  revert st. induction cards as [|c cards IH]; intros st; [reflexivity|].
  cbn [fold_left]. now rewrite processCard_swallowing, IH.
Qed.

Lemma forLists_swallowing (from to : option Z) (maxComments : Z)
  (boardId : string) (lists : list PList) (st : FeedState) :
  forLists parseDate getCards (swallowing getTasks) (swallowing getComments)
    from to maxComments boardId st lists
  = forLists parseDate getCards getTasks getComments from to maxComments
      boardId st lists.
Proof.
  revert st. induction lists as [|l lists IH]; intros st; [reflexivity|].
  cbn [forLists]. destruct (getCards (list_id l)) as [cards|]; [|reflexivity].
  cbn [bind]. now rewrite cards_swallowing, IH.
Qed.

Lemma forBoards_swallowing (from to : option Z) (maxComments : Z)
  (boards : list Board) (st : FeedState) :
  forBoards parseDate getLists getCards (swallowing getTasks)
    (swallowing getComments) from to maxComments st boards
  = forBoards parseDate getLists getCards getTasks getComments from to
      maxComments st boards.
Proof.
  revert st. induction boards as [|b boards IH]; intros st; [reflexivity|].
  cbn [forBoards]. destruct (getLists (board_id b)) as [lists|];
    [|reflexivity].
  cbn [bind]. rewrite forLists_swallowing.
  destruct (forLists _ _ _ _ _ _ _ _ _ _) as [st'|]; [|reflexivity].
  cbn [bind]. apply IH.
Qed.

(** X9.  A rejected fetch of the tasks or of the comments of a card is
    indistinguishable, in the feed, from an empty list: the feed is the
    one obtained over accessors that answer with an empty list where the
    given ones reject. *)
Theorem feed_swallows_details (now : Z) (params : GetActivityFeedParams) :
  feed now params
  = getActivityFeed parseDate getBoards getLists getCards
      (swallowing getTasks) (swallowing getComments) now params.
Proof.
  unfold getActivityFeed, traverse. cbv zeta.
  destruct (getBoards (fp_projectId params)) as [boards|]; [|reflexivity].
  cbn [bind]. now rewrite forBoards_swallowing.
Qed.

Lemma forLists_ok_iff (from to : option Z) (maxComments : Z)
  (boardId : string) (lists : list PList) (st : FeedState) :
  isOk (forLists parseDate getCards getTasks getComments from to maxComments
          boardId st lists) = true <->
  Forall (fun l => isOk (getCards (list_id l)) = true) lists.
Proof.
  revert st. induction lists as [|l lists IH]; intros st.
  - cbn. split; [constructor|reflexivity].
  - cbn [forLists]. destruct (getCards (list_id l)) as [cards|] eqn:E.
    + cbn [bind]. rewrite IH. split.
      * intros H. constructor; [now rewrite E|exact H].
      * intros H. now inversion H.
    + cbn. split; [discriminate|]. intros H. inversion H as [|? ? Hl _].
      rewrite E in Hl. discriminate.
Qed.

Lemma forBoards_ok_iff (from to : option Z) (maxComments : Z)
  (boards : list Board) (st : FeedState) :
  isOk (forBoards parseDate getLists getCards getTasks getComments from to
          maxComments st boards) = true <->
  Forall (fun b =>
            exists lists,
              getLists (board_id b) = Ok lists /\
              Forall (fun l => isOk (getCards (list_id l)) = true) lists)
    boards.
Proof.
  revert st. induction boards as [|b boards IH]; intros st.
  - cbn. split; [constructor|reflexivity].
  - cbn [forBoards]. destruct (getLists (board_id b)) as [lists|] eqn:E.
    + cbn [bind].
      pose proof (forLists_ok_iff from to maxComments (board_id b) lists st)
        as L.
      destruct (forLists _ _ _ _ _ _ _ _ _ _) as [st'|].
      * cbn [bind]. rewrite IH. split.
        -- intros H. constructor; [|exact H]. exists lists.
           split; [exact E|]. now apply L.
        -- intros H. now inversion H.
      * cbn. split; [discriminate|]. intros H.
        inversion H as [|? ? (lists' & El & Hl) _]. rewrite E in El.
        inversion El. subst lists'. apply L in Hl. discriminate.
    + cbn. split; [discriminate|]. intros H.
      inversion H as [|? ? (lists' & El & _) _]. rewrite E in El.
      discriminate.
Qed.

(** X10.  The feed resolves exactly when both ends of the window are
    valid dates and the boards of the project, the lists of every board
    and the cards of every list can be fetched; whether the tasks and the
    comments can be fetched plays no part. *)
Theorem feed_resolves_iff (now : Z) (params : GetActivityFeedParams) :
  isOk (feed now params) = true <->
  windowFrom parseDate now params <> None /\
  windowTo parseDate now params <> None /\
  fetchesResolve getBoards getLists getCards (fp_projectId params).
Proof.
  unfold getActivityFeed, traverse, fetchesResolve. cbv zeta.
  destruct (getBoards (fp_projectId params)) as [boards|] eqn:Eb.
  - cbn [bind].
    pose proof (forBoards_ok_iff (windowFrom parseDate now params)
                  (windowTo parseDate now params) (capOf params) boards
                  initialState) as B.
    destruct (forBoards _ _ _ _ _ _ _ _ _ _) as [st|].
    + cbn [bind].
      assert (HB : exists boards0,
                 Ok boards = Ok boards0 /\
                 Forall (fun b =>
                           exists lists,
                             getLists (board_id b) = Ok lists /\
                             Forall (fun l => isOk (getCards (list_id l))
                                              = true) lists) boards0)
        by (exists boards; split; [reflexivity|now apply B]).
      destruct (windowFrom parseDate now params);
        destruct (windowTo parseDate now params); cbn; split;
        try discriminate; try (intros (A & C & _); congruence).
      intros _. conjs; try discriminate. exact HB.
    + cbn. split; [discriminate|].
      intros (_ & _ & boards0 & E0 & H). inversion E0. subst boards0.
      apply B in H. discriminate.
  - cbn. split; [discriminate|]. intros (_ & _ & boards0 & E0 & _).
    discriminate.
Qed.

(** X11.  When the boards of the project cannot be fetched, the feed
    rejects with the message of that failure behind the prefix of the
    tool, and nothing else is consulted. *)
Theorem feed_rejects_on_boards (now : Z) (params : GetActivityFeedParams)
  (m : string) :
  getBoards (fp_projectId params) = Err m ->
  feed now params = Err ("Failed to get activity feed: " ++ m).
Proof.
  intros H. unfold getActivityFeed, traverse. cbv zeta. now rewrite H.
Qed.

(** X12.  A [since] or [until] that is not a date does not stop the
    traversal but loses its result: the feed rejects, and when every
    fetch of the traversal resolves the message is that of the invalid
    date. *)
Theorem feed_invalid_window (now : Z) (params : GetActivityFeedParams) :
  windowFrom parseDate now params = None \/
  windowTo parseDate now params = None ->
  isErr (feed now params) = true /\
  (fetchesResolve getBoards getLists getCards (fp_projectId params) ->
   feed now params
   = Err "Failed to get activity feed: Invalid time value").
Proof.
  intros Hw. unfold getActivityFeed, traverse, fetchesResolve. cbv zeta.
  destruct (getBoards (fp_projectId params)) as [boards|] eqn:Eb.
  - cbn [bind].
    pose proof (forBoards_ok_iff (windowFrom parseDate now params)
                  (windowTo parseDate now params) (capOf params) boards
                  initialState) as B.
    destruct (forBoards _ _ _ _ _ _ _ _ _ _) as [st|].
    + cbn [bind].
      destruct (windowFrom parseDate now params);
        destruct (windowTo parseDate now params); cbn;
        try (destruct Hw; discriminate); split; reflexivity.
    + cbn. split; [reflexivity|].
      intros (boards0 & E0 & H). inversion E0. subst boards0.
      apply B in H. discriminate.
  - cbn. split; [reflexivity|]. intros (boards0 & E0 & _). discriminate.
Qed.

End FeedFailures.

(** ** The further properties of the feed on the sample project *)

Lemma feed_changes_exact_witness :
  exists r,
    sampleFeed "p1" (Some 2%Z) = Ok r /\
    map e_type (changes r)
    = [card_completed; task_completed; comment_added; comment_added;
       card_created; task_created].
Proof.
  destruct (sampleFeed "p1" (Some 2%Z)) as [r|e] eqn:E;
    [|vm_compute in E; discriminate].
  pose proof (feed_changes_exact _ _ _ _ _ _ _ _ E) as H.
  exists r. split; [reflexivity|]. rewrite H. vm_compute. reflexivity.
Defined.

Lemma feed_entries_in_window_witness :
  exists r,
    sampleFeed "p1" (Some 2%Z) = Ok r /\
    forall e, In e (changes r) ->
      exists z, entryTime sampleParseDate e = Some z /\
                (q_from (query r) <= z <= q_to (query r))%Z.
Proof.
  destruct (sampleFeed "p1" (Some 2%Z)) as [r|e] eqn:E;
    [|vm_compute in E; discriminate].
  pose proof (feed_entries_in_window _ _ _ _ _ _ _ _ E) as H.
  exists r. split; [reflexivity|]. intros e He.
  destruct (H e He) as [Hz _]. exact Hz.
Defined.

Lemma feed_kind_counters_witness :
  exists r,
    sampleFeed "p1" (Some 2%Z) = Ok r /\
    newCards (summary r) = countType card_created (changes r) /\
    completedTasks (summary r) = countType task_completed (changes r).
Proof.
  destruct (sampleFeed "p1" (Some 2%Z)) as [r|e] eqn:E;
    [|vm_compute in E; discriminate].
  destruct (feed_kind_counters _ _ _ _ _ _ _ _ E) as (H1 & _ & _ & _ & H5).
  exists r. split; [reflexivity|]. split; [exact H1|exact H5].
Defined.

Lemma feed_task_events_witness :
  exists r,
    sampleFeed "p1" (Some 2%Z) = Ok r /\
    List.length (filter isTaskEvent (changes r)) = 2%nat.
Proof.
  destruct (sampleFeed "p1" (Some 2%Z)) as [r|e] eqn:E;
    [|vm_compute in E; discriminate].
  pose proof (feed_task_events _ _ _ _ _ _ _ _ E) as H.
  exists r. split; [reflexivity|].
  rewrite (Permutation_length H). vm_compute. reflexivity.
Defined.

Lemma feed_comments_first_come_witness :
  exists r,
    sampleFeed "p1" (Some 2%Z) = Ok r /\
    forall e, In e (filter isCommentEvent (changes r)) ->
              e_commentId e = Some "m1" \/ e_commentId e = Some "m2".
Proof.
  destruct (sampleFeed "p1" (Some 2%Z)) as [r|e] eqn:E;
    [|vm_compute in E; discriminate].
  pose proof (feed_comments_first_come _ _ _ _ _ _ _ _ E) as H.
  exists r. split; [reflexivity|]. intros e He.
  apply (Permutation_in _ H) in He. vm_compute in He.
  destruct He as [<-|[<-|[]]]; [left|right]; reflexivity.
Defined.

Lemma feed_affected_cards_witness :
  exists r,
    sampleFeed "p1" (Some 2%Z) = Ok r /\
    NoDup (map ac_cardId (affectedCards r)) /\
    forall e, In e (changes r) ->
              In (e_cardId e) (map ac_cardId (affectedCards r)).
Proof.
  destruct (sampleFeed "p1" (Some 2%Z)) as [r|e] eqn:E;
    [|vm_compute in E; discriminate].
  destruct (feed_affected_cards _ _ _ _ _ _ _ _ E) as (H1 & _ & H3).
  exists r. split; [reflexivity|]. split; [exact H1|exact H3].
Defined.

Lemma feed_affected_cards_distinct_witness :
  exists r,
    sampleFeed "p1" (Some 2%Z) = Ok r /\
    affectedCards r
    = [mkAffectedCard "cA" "Draft the report" "b1" "l1";
       mkAffectedCard "cC" "Book the room" "b1" "l2"].
Proof.
  destruct (sampleFeed "p1" (Some 2%Z)) as [r|e] eqn:E;
    [|vm_compute in E; discriminate].
  assert (Hnd : NoDup
                  (map (fun x => card_id (snd x))
                     (traversedCards sampleGetBoards
                        (fun boardId =>
                           Ok (Snapshot.getLists (feedSnapshot true) boardId))
                        (fun listId =>
                           Ok (Snapshot.getCards (feedSnapshot true) listId))
                        (fp_projectId
                           (mkFeedParams "p1" None None
                              (Some (QArith_base.inject_Z 2))))))).
  { vm_compute. repeat constructor; cbn; intuition discriminate. }
  pose proof (feed_affected_cards_distinct _ _ _ _ _ _ _ _ Hnd E) as H.
  exists r. split; [reflexivity|]. rewrite H. vm_compute. reflexivity.
Defined.

Lemma feed_user_ids_witness :
  exists r,
    sampleFeed "p1" (Some 2%Z) = Ok r /\
    NoDup (userIds r) /\ ~ In ""%string (userIds r).
Proof.
  destruct (sampleFeed "p1" (Some 2%Z)) as [r|e] eqn:E;
    [|vm_compute in E; discriminate].
  destruct (feed_user_ids _ _ _ _ _ _ _ _ E) as (H1 & H2).
  exists r. split; [reflexivity|]. split; [exact H1|].
  intros Hin. apply H2 in Hin. destruct Hin as [Hn _]. now apply Hn.
Defined.

Lemma feed_rejects_on_boards_witness :
  getActivityFeedOn sampleParseDate sampleGetBoards (feedSnapshot true)
    sampleNow (mkFeedParams "p3" None None None)
  = Err "Failed to get activity feed: Project not found".
Proof.
  apply (feed_rejects_on_boards sampleParseDate sampleGetBoards
           (fun boardId => Ok (Snapshot.getLists (feedSnapshot true) boardId))
           (fun listId => Ok (Snapshot.getCards (feedSnapshot true) listId))
           (fun cardId => Ok (Snapshot.getTasks (feedSnapshot true) cardId))
           (fun cardId => Ok (Snapshot.getComments (feedSnapshot true) cardId))
           sampleNow (mkFeedParams "p3" None None None)).
  reflexivity.
Defined.

Lemma feed_invalid_window_witness :
  isErr (getActivityFeedOn sampleParseDate sampleGetBoards
           (feedSnapshot true) sampleNow
           (mkFeedParams "p1" (Some "yesterday") None None)) = true.
Proof.
  apply (feed_invalid_window sampleParseDate sampleGetBoards
           (fun boardId => Ok (Snapshot.getLists (feedSnapshot true) boardId))
           (fun listId => Ok (Snapshot.getCards (feedSnapshot true) listId))
           (fun cardId => Ok (Snapshot.getTasks (feedSnapshot true) cardId))
           (fun cardId => Ok (Snapshot.getComments (feedSnapshot true) cardId))
           sampleNow (mkFeedParams "p1" (Some "yesterday") None None)).
  left. reflexivity.
Defined.

(** ** The board summary as a function of what it fetched *)

Lemma promiseAllMap_ok (A B : Type) (f : A -> Result B) (xs : list A) :
  (forall x, In x xs -> isOk (f x) = true) ->
  isOk (promiseAllMap f xs) = true.
Proof.
  induction xs as [|x xs IH]; intros H; cbn; [reflexivity|].
  pose proof (H x (or_introl eq_refl)) as Hx.
  destruct (f x); [|discriminate]. cbn.
  destruct (promiseAllMap f xs); [reflexivity|].
  discriminate IH. intros y Hy. apply H. now right.
Qed.

Lemma Forall2_map_left (A B C : Type) (g : B -> C) (h : A -> C)
  (R : A -> B -> Prop) (xs : list A) (ys : list B) :
  (forall x y, R x y -> g y = h x) ->
  Forall2 R xs ys -> map g ys = map h xs.
Proof.
  intros H. induction 1 as [|x y xs ys Hxy _ IH]; cbn; [reflexivity|].
  now rewrite (H _ _ Hxy), IH.
Qed.

Lemma fold_left_counts (lws : list ListWithCards) (a : nat) :
  fold_left (fun sum list => (sum + lwc_cardCount list)%nat) lws a
  = (a + list_sum (map lwc_cardCount lws))%nat.
Proof.
  revert a. induction lws as [|lw lws IH]; intros a; [cbn; lia|].
  cbn [fold_left map]. rewrite IH. unfold list_sum. cbn [fold_right]. lia.
Qed.

Lemma counts_flat_map (lws : list ListWithCards) :
  Forall (fun lw => lwc_cardCount lw = List.length (lwc_cards lw)) lws ->
  list_sum (map lwc_cardCount lws) = List.length (flat_map lwc_cards lws).
Proof.
  induction 1 as [|lw lws Hlw _ IH]; [reflexivity|].
  cbn [map flat_map]. rewrite length_app, <- IH, <- Hlw. reflexivity.
Qed.

Section SummaryMore.

Variable toLowerCase : string -> string.
Variable getBoard : string -> Result (option Board).
Variable getLists : string -> Result (list PList).
Variable getCards : string -> Result (list Card).
Variable getTasks : string -> Result (list Task).
Variable getComments : string -> Result (list Comment).
Variable getLabels : string -> Result (list Label).

Local Notation "'summaryOf'" :=
  (getBoardSummary toLowerCase getBoard getLists getCards getTasks
     getComments getLabels).
Local Notation "'pick'" :=
  (fun lit lws => cardCountOr0 (findList toLowerCase lit lws)).

Lemma cardWithDetails_inv (itd ic : bool) (c : Card) (cd : CardWithDetails) :
  cardWithDetails getTasks getComments itd ic c = Ok cd ->
  cwd_card cd = c /\
  match cwd_tasks cd with
  | Some ts =>
      itd = true /\
      getTasks (card_id c) = Ok (ts_items ts) /\
      ts_total ts = List.length (ts_items ts) /\
      ts_completed ts = List.length (filter task_isCompleted (ts_items ts)) /\
      ts_completionPercentage ts
      = roundedPercentage (ts_completed ts) (ts_total ts)
  | None => itd = false
  end /\
  match cwd_comments cd with
  | Some comments => ic = true /\ getComments (card_id c) = Ok comments
  | None => ic = false
  end.
Proof.
  unfold cardWithDetails.
  destruct itd, ic;
    try (destruct (getTasks (card_id c)) as [tasks|]; [|discriminate]);
    try (destruct (getComments (card_id c)) as [comments|]; [|discriminate]);
    cbn; intros H; inversion H; subst; cbn; conjs; reflexivity.
Qed.

Lemma listWithCards_inv (itd ic : bool) (l : PList) (lw : ListWithCards) :
  listWithCards getCards getTasks getComments itd ic l = Ok lw ->
  lwc_list lw = l /\
  lwc_cardCount lw = List.length (lwc_cards lw) /\
  exists cards,
    getCards (list_id l) = Ok cards /\
    Forall2 (fun c cd =>
               cardWithDetails getTasks getComments itd ic c = Ok cd)
      cards (lwc_cards lw).
Proof.
  unfold listWithCards.
  destruct (getCards (list_id l)) as [cards|]; [|discriminate]. cbn [bind].
  destruct (promiseAllMap _ cards) as [cds|] eqn:E; [|discriminate].
  cbn [bind]. intros H. inversion H; subst; clear H. cbn.
  conjs; auto. exists cards. split; [reflexivity|].
  now apply promiseAllMap_resolves.
Qed.

(** A summary that resolves, as a function of what was fetched. *)
Lemma summary_inv (params : GetBoardSummaryParams) (s : BoardSummary) :
  summaryOf params = Ok s ->
  exists board lists,
    getBoard (sp_boardId params) = Ok (Some board) /\
    getLists (sp_boardId params) = Ok lists /\
    Forall2 (fun l lw =>
               listWithCards getCards getTasks getComments
                 (sp_includeTaskDetails params) (sp_includeComments params) l
               = Ok lw)
      lists (bs_lists s) /\
    getLabels (sp_boardId params) = Ok (bs_labels s) /\
    bs_board s = board /\
    bs_stats s
    = mkStats (list_sum (map lwc_cardCount (bs_lists s)))
        (pick "backlog" (bs_lists s)) (pick "in progress" (bs_lists s))
        (pick "testing" (bs_lists s)) (pick "done" (bs_lists s))
        (List.length (filter (hasLabelNamed toLowerCase (bs_labels s) "urgent")
                        (flat_map lwc_cards (bs_lists s))))
        (List.length (filter (hasLabelNamed toLowerCase (bs_labels s) "bug")
                        (flat_map lwc_cards (bs_lists s))))
        (roundedPercentage (pick "done" (bs_lists s))
           (list_sum (map lwc_cardCount (bs_lists s)))) /\
    hasCardsInBacklog (bs_workflowState s)
    = (0 <? pick "backlog" (bs_lists s))%nat /\
    hasCardsInProgress (bs_workflowState s)
    = (0 <? pick "in progress" (bs_lists s))%nat /\
    hasCardsInTesting (bs_workflowState s)
    = (0 <? pick "testing" (bs_lists s))%nat.
Proof.
  unfold getBoardSummary.
  destruct (getBoard (sp_boardId params)) as [[board|]|]; try discriminate.
  cbn [bind].
  destruct (getLists (sp_boardId params)) as [lists|]; [|discriminate].
  cbn [bind].
  destruct (promiseAllMap _ lists) as [lws|] eqn:E; [|discriminate].
  cbn [bind].
  destruct (getLabels (sp_boardId params)) as [labels|]; [|discriminate].
  cbn [bind]. intros H. inversion H; subst; clear H.
  cbn [bs_board bs_lists bs_labels bs_stats bs_workflowState
       hasCardsInBacklog hasCardsInProgress hasCardsInTesting].
  exists board, lists. rewrite fold_left_counts. cbn [Nat.add].
  conjs; try reflexivity. now apply promiseAllMap_resolves.
Qed.

Lemma lists_counted (itd ic : bool) (lists : list PList)
  (lws : list ListWithCards) :
  Forall2 (fun l lw =>
             listWithCards getCards getTasks getComments itd ic l = Ok lw)
    lists lws ->
  Forall (fun lw => lwc_cardCount lw = List.length (lwc_cards lw)) lws.
Proof.
  induction 1 as [|l lw lists lws H _ IH]; constructor; [|exact IH].
  now destruct (listWithCards_inv _ _ _ H) as (_ & Hn & _).
Qed.

(** X14.  A summary that resolves holds the board, the lists of the board
    in the order they were fetched, and under each list the cards fetched
    for it, in order; [cardCount] is the number of those cards and
    [totalCards] the number of cards under all lists. *)
Theorem summary_structure (params : GetBoardSummaryParams)
  (s : BoardSummary) :
  summaryOf params = Ok s ->
  getBoard (sp_boardId params) = Ok (Some (bs_board s)) /\
  getLists (sp_boardId params) = Ok (map lwc_list (bs_lists s)) /\
  getLabels (sp_boardId params) = Ok (bs_labels s) /\
  Forall (fun lw =>
            getCards (list_id (lwc_list lw))
            = Ok (map cwd_card (lwc_cards lw)) /\
            lwc_cardCount lw = List.length (lwc_cards lw))
    (bs_lists s) /\
  totalCards (bs_stats s)
  = List.length (flat_map lwc_cards (bs_lists s)).
Proof.
  intros H.
  pose proof H as Hinv. apply summary_inv in Hinv.
  destruct Hinv as (board & lists & Hb & Hl & F & Hlab & <- & Hs & _).
  rewrite Hs. cbn [totalCards]. conjs; auto.
  - rewrite Hl. f_equal. symmetry.
    rewrite <- (map_id lists) at 1.
    apply (Forall2_map_left lwc_list (fun l => l) (R := fun l lw =>
             listWithCards getCards getTasks getComments
               (sp_includeTaskDetails params) (sp_includeComments params) l
             = Ok lw)); [|exact F].
    intros l lw Hlw. now destruct (listWithCards_inv _ _ _ Hlw).
  - clear Hl Hs. induction F as [|l lw lists lws Hlw _ IH]; constructor;
      [|exact IH].
    destruct (listWithCards_inv _ _ _ Hlw) as (-> & Hn & cards & Hc & Fc).
    split; [|exact Hn]. rewrite Hc. f_equal. symmetry.
    rewrite <- (map_id cards) at 1.
    apply (Forall2_map_left cwd_card (fun c => c) (R := fun c cd =>
             cardWithDetails getTasks getComments
               (sp_includeTaskDetails params) (sp_includeComments params) c
             = Ok cd)); [|exact Fc].
    intros c cd Hcd. now destruct (cardWithDetails_inv _ _ _ Hcd).
  - apply counts_flat_map. eapply lists_counted; eauto.
Qed.

(** X15.  In a summary that resolves, a card carries a task summary
    exactly when task details were asked for, and then the tasks are those
    fetched for the card, [total] is their number and [completed] the
    number of completed ones, never more than [total]; it carries
    comments exactly when comments were asked for, and then those fetched
    for the card. *)
Theorem summary_card_details (params : GetBoardSummaryParams)
  (s : BoardSummary) :
  summaryOf params = Ok s ->
  forall lw cd,
    In lw (bs_lists s) -> In cd (lwc_cards lw) ->
    match cwd_tasks cd with
    | Some ts =>
        sp_includeTaskDetails params = true /\
        getTasks (card_id (cwd_card cd)) = Ok (ts_items ts) /\
        ts_total ts = List.length (ts_items ts) /\
        ts_completed ts
        = List.length (filter task_isCompleted (ts_items ts)) /\
        (ts_completed ts <= ts_total ts)%nat
    | None => sp_includeTaskDetails params = false
    end /\
    match cwd_comments cd with
    | Some comments =>
        sp_includeComments params = true /\
        getComments (card_id (cwd_card cd)) = Ok comments
    | None => sp_includeComments params = false
    end.
Proof.
  intros H lw cd Hlw Hcd.
  pose proof H as Hinv. apply summary_inv in Hinv.
  destruct Hinv as (board & lists & _ & _ & F & _).
  destruct (@Forall2_In_right _ _ _ _ _ _ F Hlw) as (l & _ & Hl).
  destruct (listWithCards_inv _ _ _ Hl) as (_ & _ & cards & _ & Fc).
  destruct (@Forall2_In_right _ _ _ _ _ _ Fc Hcd) as (c & _ & Hc).
  destruct (cardWithDetails_inv _ _ _ Hc) as (Ec & Ht & Hm).
  rewrite Ec. split.
  - destruct (cwd_tasks cd) as [ts|]; [|exact Ht].
    destruct Ht as (A & B & C & D & _). conjs; auto.
    rewrite C, D. apply filter_length_le.
  - exact Hm.
Qed.

Lemma nameIs_unique (name : option string) (a b : string) :
  nameIs toLowerCase name a = true -> nameIs toLowerCase name b = true ->
  a = b.
Proof.
  unfold nameIs, optStrEq. destruct name as [n|]; cbn; [|discriminate].
  intros Ha Hb. apply String.eqb_eq in Ha. apply String.eqb_eq in Hb.
  congruence.
Qed.

Lemma pick_cons (lit : string) (lw : ListWithCards)
  (lws : list ListWithCards) :
  pick lit (lw :: lws)
  = if nameIs toLowerCase (list_name (lwc_list lw)) lit
    then lwc_cardCount lw else pick lit lws.
Proof.
  unfold findList, jsFind. cbn [find].
  destruct (nameIs toLowerCase (list_name (lwc_list lw)) lit); reflexivity.
Qed.

Lemma picks_bounded (a b c d : string) (lws : list ListWithCards) :
  a <> b -> a <> c -> a <> d -> b <> c -> b <> d -> c <> d ->
  (pick a lws + pick b lws + pick c lws + pick d lws
   <= list_sum (map lwc_cardCount lws))%nat.
Proof.
  intros Hab Hac Had Hbc Hbd Hcd.
  induction lws as [|lw lws IH]; [cbn; lia|].
  cbn beta in *. rewrite !pick_cons. cbn beta in *.
  unfold list_sum in *. cbn [map fold_right].
  destruct (nameIs toLowerCase (list_name (lwc_list lw)) a) eqn:Ea;
    destruct (nameIs toLowerCase (list_name (lwc_list lw)) b) eqn:Eb;
    destruct (nameIs toLowerCase (list_name (lwc_list lw)) c) eqn:Ec;
    destruct (nameIs toLowerCase (list_name (lwc_list lw)) d) eqn:Ed;
    try (exfalso;
         first [ apply Hab; eapply nameIs_unique; eassumption
               | apply Hac; eapply nameIs_unique; eassumption
               | apply Had; eapply nameIs_unique; eassumption
               | apply Hbc; eapply nameIs_unique; eassumption
               | apply Hbd; eapply nameIs_unique; eassumption
               | apply Hcd; eapply nameIs_unique; eassumption ]);
    cbn beta in *; lia.
Qed.

(** X16.  The statistics of a summary are consistent: the four named
    counts belong to four different lists, so together they never exceed
    [totalCards]; neither do the urgent nor the bug count; and each of
    the three workflow flags is on exactly when its count is positive. *)
Theorem summary_stats_consistent (params : GetBoardSummaryParams)
  (s : BoardSummary) :
  summaryOf params = Ok s ->
  let st := bs_stats s in
  let w := bs_workflowState s in
  (backlogCount st + inProgressCount st + testingCount st + doneCount st
   <= totalCards st)%nat /\
  (urgentCount st <= totalCards st)%nat /\
  (bugCount st <= totalCards st)%nat /\
  (hasCardsInBacklog w = true <-> (0 < backlogCount st)%nat) /\
  (hasCardsInProgress w = true <-> (0 < inProgressCount st)%nat) /\
  (hasCardsInTesting w = true <-> (0 < testingCount st)%nat).
Proof.
  intros H.
  pose proof H as Hinv. apply summary_inv in Hinv.
  destruct Hinv
    as (board & lists & _ & _ & F & _ & _ & Hs & Hb & Hp & Ht).
  cbv zeta. rewrite Hs, Hb, Hp, Ht.
  cbn [backlogCount inProgressCount testingCount doneCount totalCards
       urgentCount bugCount].
  pose proof F as Hn. apply lists_counted in Hn.
  apply counts_flat_map in Hn.
  conjs.
  - apply picks_bounded; discriminate.
  - rewrite Hn. apply filter_length_le.
  - rewrite Hn. apply filter_length_le.
  - apply Nat.ltb_lt.
  - apply Nat.ltb_lt.
  - apply Nat.ltb_lt.
Qed.

(** X17.  When [getBoard] resolves with no board, the summary rejects
    with the message naming the board id, before fetching anything
    else. *)
Theorem summary_missing_board (params : GetBoardSummaryParams) :
  getBoard (sp_boardId params) = Ok None ->
  summaryOf params
  = Err ("Board with ID " ++ sp_boardId params ++ " not found").
Proof.
  intros H. unfold getBoardSummary. now rewrite H.
Qed.

(** X18.  The summary resolves exactly when the board exists, its lists
    can be fetched and no fetch of a nested collection rejects. *)
Theorem summary_resolves_iff (params : GetBoardSummaryParams) :
  isOk (summaryOf params) = true <->
  exists board lists,
    getBoard (sp_boardId params) = Ok (Some board) /\
    getLists (sp_boardId params) = Ok lists /\
    ~ NestedFetchRejects getCards getTasks getComments getLabels params
        lists.
Proof.
  split.
  - intros H. destruct (summaryOf params) as [s|] eqn:E; [|discriminate].
    pose proof E as Hinv. apply summary_inv in Hinv.
    destruct Hinv as (board & lists & Hb & Hl & _).
    exists board, lists. refine (conj Hb (conj Hl _)). intros R.
    pose proof (@getBoardSummary_propagates toLowerCase getBoard getLists
                  getCards getTasks getComments getLabels params board lists
                  Hb Hl R) as X.
    rewrite E in X. discriminate.
  - intros (board & lists & Hb & Hl & N). unfold getBoardSummary.
    rewrite Hb. cbn [bind]. rewrite Hl. cbn [bind].
    assert (P : isOk (promiseAllMap
                        (listWithCards getCards getTasks getComments
                           (sp_includeTaskDetails params)
                           (sp_includeComments params)) lists) = true).
    { apply promiseAllMap_ok. intros l Hin. unfold listWithCards.
      destruct (getCards (list_id l)) as [cards|e] eqn:Ec.
      2: { exfalso. apply N. eapply CardsReject; eauto. }
      cbn [bind].
      assert (Q : isOk (promiseAllMap
                          (cardWithDetails getTasks getComments
                             (sp_includeTaskDetails params)
                             (sp_includeComments params)) cards) = true).
      { apply promiseAllMap_ok. intros c Hc. unfold cardWithDetails.
        destruct (sp_includeTaskDetails params) eqn:Ft.
        - destruct (getTasks (card_id c)) as [tasks|e] eqn:Et.
          2: { exfalso. apply N. eapply TasksReject; eauto. }
          cbn [bind]. destruct (sp_includeComments params) eqn:Fc;
            [|reflexivity].
          destruct (getComments (card_id c)) as [cms|e] eqn:Em;
            [reflexivity|].
          exfalso. apply N. eapply CommentsReject; eauto.
        - cbn [bind]. destruct (sp_includeComments params) eqn:Fc;
            [|reflexivity].
          destruct (getComments (card_id c)) as [cms|e] eqn:Em;
            [reflexivity|].
          exfalso. apply N. eapply CommentsReject; eauto. }
      destruct (promiseAllMap _ cards); [reflexivity|discriminate]. }
    destruct (promiseAllMap _ lists); [|discriminate]. cbn [bind].
    destruct (getLabels (sp_boardId params)) as [labels|e] eqn:El;
      [reflexivity|].
    exfalso. apply N. eapply LabelsReject; eauto.
Qed.

(** X19.  When neither task details nor comments are asked for, the
    summary does not depend on the tasks and comments accessors: it
    fetches neither. *)
Theorem summary_details_off (boardId : string)
  (getTasks' : string -> Result (list Task))
  (getComments' : string -> Result (list Comment)) :
  summaryOf (mkSummaryParams boardId false false)
  = getBoardSummary toLowerCase getBoard getLists getCards getTasks'
      getComments' getLabels (mkSummaryParams boardId false false).
Proof.
  unfold getBoardSummary, listWithCards, cardWithDetails.
  cbn [sp_boardId sp_includeTaskDetails sp_includeComments].
  reflexivity.
Qed.

End SummaryMore.

(** ** The further properties of the summary on the sample board *)

Lemma summary_structure_witness :
  exists s,
    getBoardSummaryOn asciiLower sampleGetBoard (boardSnapshot 2 1)
      (mkSummaryParams "b1" true false) = Ok s /\
    map lwc_list (bs_lists s)
    = [mkPList "l1" "b1" (Some "Backlog"); mkPList "l2" "b1" (Some "Done")] /\
    totalCards (bs_stats s) = List.length (flat_map lwc_cards (bs_lists s)).
Proof.
  destruct (getBoardSummaryOn asciiLower sampleGetBoard (boardSnapshot 2 1)
              (mkSummaryParams "b1" true false)) as [s|e] eqn:Hs;
    [|vm_compute in Hs; discriminate].
  pose proof Hs as H. unfold getBoardSummaryOn in H.
  apply summary_structure in H. destruct H as (_ & Hl & _ & _ & Ht).
  exists s. split; [reflexivity|]. split; [|exact Ht].
  cbn in Hl. inversion Hl as [E]. reflexivity.
Defined.

Lemma summary_card_details_witness :
  exists s,
    getBoardSummaryOn asciiLower sampleGetBoard (boardSnapshot 2 1)
      (mkSummaryParams "b1" true false) = Ok s /\
    forall lw cd,
      In lw (bs_lists s) -> In cd (lwc_cards lw) ->
      cwd_comments cd = None /\
      exists ts, cwd_tasks cd = Some ts /\ (ts_completed ts <= ts_total ts)%nat.
Proof.
  destruct (getBoardSummaryOn asciiLower sampleGetBoard (boardSnapshot 2 1)
              (mkSummaryParams "b1" true false)) as [s|e] eqn:Hs;
    [|vm_compute in Hs; discriminate].
  pose proof Hs as H. unfold getBoardSummaryOn in H.
  exists s. split; [reflexivity|]. intros lw cd Hlw Hcd.
  destruct (summary_card_details _ _ _ _ _ _ _ _ H lw cd Hlw Hcd) as [Ht Hc].
  split.
  - destruct (cwd_comments cd); [|reflexivity].
    destruct Hc as [Hc _]. discriminate Hc.
  - destruct (cwd_tasks cd) as [ts|]; [|discriminate Ht].
    exists ts. split; [reflexivity|]. now destruct Ht as (_ & _ & _ & _ & Hle).
Defined.

Lemma summary_stats_consistent_witness :
  exists s,
    getBoardSummaryOn asciiLower sampleGetBoard (boardSnapshot 2 1)
      (mkSummaryParams "b1" false false) = Ok s /\
    (backlogCount (bs_stats s) + inProgressCount (bs_stats s)
     + testingCount (bs_stats s) + doneCount (bs_stats s)
     <= totalCards (bs_stats s))%nat /\
    (hasCardsInBacklog (bs_workflowState s) = true <->
     (0 < backlogCount (bs_stats s))%nat).
Proof.
  destruct (getBoardSummaryOn asciiLower sampleGetBoard (boardSnapshot 2 1)
              (mkSummaryParams "b1" false false)) as [s|e] eqn:Hs;
    [|vm_compute in Hs; discriminate].
  pose proof Hs as H. unfold getBoardSummaryOn in H.
  apply summary_stats_consistent in H. cbv zeta in H.
  destruct H as (H1 & _ & _ & H4 & _).
  exists s. split; [reflexivity|]. split; [exact H1|exact H4].
Defined.

Lemma summary_missing_board_witness :
  getBoardSummaryOn asciiLower sampleGetBoard (boardSnapshot 2 1)
    (mkSummaryParams "b9" true true)
  = Err "Board with ID b9 not found".
Proof.
  unfold getBoardSummaryOn.
  rewrite summary_missing_board; reflexivity.
Defined.

(** ** Tasks: [getTask] and [batchCreateTasks] *)

Section TaskFacts.

Variable World : Type.
Variable plankaRequest : Request -> World -> Result Response * World.
Variable inherited : string -> option string.

Local Notation "'ENV'" := (Effects.Env World).
Local Notation "'appended'" := (@requestsAppended World).
Local Notation "'getTaskE'" := (TaskOps.getTask plankaRequest inherited).

Ltac run_requests :=
  repeat (match goal with
          | |- context [plankaRequest ?r ?w] =>
              let E := fresh "E" in
              destruct (plankaRequest r w) as [[?|?] ?] eqn:E
          | |- context [match resp_included ?r with _ => _ end] =>
              destruct (resp_included r) as [?|]
          | |- context [match inc_taskLists ?i with _ => _ end] =>
              destruct (inc_taskLists i) as [[|? ?]|]
          | |- context [match resp_item ?r with _ => _ end] =>
              let I := fresh "I" in destruct (resp_item r) as [?|] eqn:I
          | |- context [if (itemId ?i =? "")%string then _ else _] =>
              let N := fresh "N" in destruct (itemId i =? "")%string eqn:N
          end; cbn [fst snd Effects.world Effects.log Effects.taskCardIdMap]).

(** A task that [createTask] returns with an id is remembered with the
    card it was created on. *)
Lemma createTask_remembers (params : CreateTaskParams) (s s' : ENV)
  (item : Item) :
  Effects.createTask plankaRequest params s = (Ok (Some item), s') ->
  itemId item <> ""%string ->
  exists m,
    Effects.taskCardIdMap s' = (itemId item, ctp_cardId params) :: m.
Proof.
  unfold Effects.createTask, Effects.getOrCreateTaskList, Effects.tryCatch,
    Effects.bindM, Effects.request, Effects.ret, Effects.throw,
    Effects.rememberTask.
  intros H Hid. revert H. run_requests;
    intros H; inversion H; subst; clear H;
    try (apply String.eqb_eq in N; contradiction);
    try (eexists; reflexivity);
    try match goal with
        | I : resp_item _ = Some ?i, N : (itemId ?i =? "")%string = true |- _ =>
            apply String.eqb_eq in N; contradiction
        end.
Qed.

(** X20.  A task created through [createTask] can be fetched without a
    card id: [getTask] then reads the card the task was created on, and
    does exactly what it does when given that card id. *)
Theorem getTask_after_createTask (params : CreateTaskParams) (s s' : ENV)
  (item : Item) :
  Effects.createTask plankaRequest params s = (Ok (Some item), s') ->
  itemId item <> ""%string ->
  itemId item <> "__proto__"%string ->
  ctp_cardId params <> ""%string ->
  getTaskE (itemId item) None s'
  = getTaskE (itemId item) (Some (ctp_cardId params)) s'.
Proof.
  intros H Hid Hproto Hcard.
  destruct (createTask_remembers _ _ H Hid) as (m & Hm).
  unfold TaskOps.getTask, Effects.tryCatch.
  assert (E : TaskOps.taskCardIdOf inherited None (Effects.taskCardIdMap s')
                (itemId item)
              = TaskOps.taskCardIdOf inherited (Some (ctp_cardId params))
                  (Effects.taskCardIdMap s') (itemId item)).
  { unfold TaskOps.taskCardIdOf, TaskOps.lookupTaskCardId. rewrite Hm.
    apply String.eqb_neq in Hproto. rewrite Hproto.
    cbn [find fst snd]. rewrite String.eqb_refl. cbn [snd].
    apply String.eqb_neq in Hcard. now rewrite Hcard. }
  now rewrite E.
Qed.

(** X21.  Without a card id, and for a task id that was never
    remembered, [getTask] rejects with its own message and touches
    nothing: no request is issued. *)
Theorem getTask_without_card (id : string) (cardId : option string)
  (s : ENV) :
  truthyStr cardId = false ->
  TaskOps.lookupTaskCardId inherited (Effects.taskCardIdMap s) id = None ->
  getTaskE id cardId s
  = (Err ("Failed to get task: Card ID is required to get a task. "
          ++ "Either provide it directly or create the task first."), s).
Proof.
  intros Hc Hl. unfold TaskOps.getTask, Effects.tryCatch, Effects.throw.
  assert (E : TaskOps.taskCardIdOf inherited cardId (Effects.taskCardIdMap s)
                id = None).
  { unfold TaskOps.taskCardIdOf. destruct cardId as [c|]; [|exact Hl].
    cbn in Hc. destruct (c =? "")%string; [exact Hl|discriminate]. }
  now rewrite E.
Qed.

(** X22.  When [getTask] resolves, the task has the id asked for and was
    found among the tasks of one card, fetched by the single request the
    call issued: the card given or, without one, the card remembered for
    the task. *)
Theorem getTask_found (id : string) (cardId : option string) (s s' : ENV)
  (task : Task) :
  getTaskE id cardId s = (Ok task, s') ->
  task_id task = id /\
  exists taskCardId response,
    TaskOps.taskCardIdOf inherited cardId (Effects.taskCardIdMap s) id
    = Some taskCardId /\
    (truthyStr cardId = true -> cardId = Some taskCardId) /\
    plankaRequest (get ("/api/cards/" ++ taskCardId)) (Effects.world s)
    = (Ok response, Effects.world s') /\
    (exists included tasks,
        resp_included response = Some included /\
        inc_tasks included = Some tasks /\ In task tasks) /\
    appended s s' [get ("/api/cards/" ++ taskCardId)] /\
    Effects.taskCardIdMap s' = Effects.taskCardIdMap s.
Proof.
  unfold TaskOps.getTask, Effects.tryCatch, Effects.bindM, Effects.request,
    Effects.throw, Effects.ret.
  destruct (TaskOps.taskCardIdOf inherited cardId (Effects.taskCardIdMap s) id)
    as [c|] eqn:Ec; [|discriminate].
  destruct (plankaRequest (get ("/api/cards/" ++ c)) (Effects.world s))
    as [[response|e] w] eqn:Er; [|discriminate].
  destruct (resp_included response) as [included|] eqn:Ei; [|discriminate].
  destruct (inc_tasks included) as [tasks|] eqn:Et; [|discriminate].
  destruct (jsFind (fun task0 => task_id task0 =? id)%string tasks)
    as [found|] eqn:Ef; [|discriminate].
  intros H. inversion H; subst; clear H.
  unfold jsFind in Ef. apply find_some in Ef. destruct Ef as [Hin Hid].
  apply String.eqb_eq in Hid. split; [exact Hid|].
  exists c, response. cbn [Effects.world Effects.log Effects.taskCardIdMap].
  conjs; auto.
  - intros Ht. unfold TaskOps.taskCardIdOf in Ec.
    destruct cardId as [c'|]; [|discriminate Ht]. cbn in Ht.
    destruct (c' =? "")%string; [discriminate Ht|exact Ec].
  - exists included, tasks. auto.
  - reflexivity.
Qed.

Lemma positioned_cardId (i : nat) (task : CreateTaskParams) :
  ctp_cardId (TaskOps.positioned i task) = ctp_cardId task.
Proof.
  unfold TaskOps.positioned. destruct (ctp_position task) as [p|];
    [destruct (p =? 0)%Z|]; reflexivity.
Qed.

Lemma positioned_position (i : nat) (task : CreateTaskParams) :
  exists p, ctp_position (TaskOps.positioned i task) = Some p /\ p <> 0%Z.
Proof.
  unfold TaskOps.positioned. destruct (ctp_position task) as [p|] eqn:E.
  - destruct (p =? 0)%Z eqn:E0.
    + eexists. split; [reflexivity|lia].
    + apply Z.eqb_neq in E0. exists p. auto.
  - eexists. split; [reflexivity|lia].
Qed.

(** The one read of [createTask] is the first thing it does. *)
Lemma createTask_gets (params : CreateTaskParams) (s s' : ENV)
  (res : Result (option Item)) :
  Effects.createTask plankaRequest params s = (res, s') ->
  exists extra,
    appended s s' extra /\
    filter isGet extra = [get ("/api/cards/" ++ ctp_cardId params)].
Proof.
  unfold Effects.createTask, Effects.getOrCreateTaskList, Effects.tryCatch,
    Effects.bindM, Effects.request, Effects.ret, Effects.throw,
    Effects.rememberTask, requestsAppended.
  run_requests; intros H; inversion H; subst; clear H;
    cbn [Effects.log]; rewrite <- ?app_assoc;
    eexists; (split; [reflexivity|reflexivity]).
Qed.

(** The loop of [batchCreateTasks] from index [i] on. *)
Lemma batchLoop_spec (tasks : list CreateTaskParams) (i : nat)
  (acc : BatchResult) (s : ENV) :
  exists results successes failures s' extra,
    TaskOps.batchLoop plankaRequest i tasks acc s
    = (Ok (mkBatchResult (br_results acc ++ results)
             (br_successes acc ++ successes)
             (br_failures acc ++ failures)), s') /\
    List.length results = List.length tasks /\
    (List.length successes + List.length failures)%nat = List.length tasks /\
    map te_index failures = failedFrom i results /\
    Forall (fun f =>
              exists t, nth_error tasks (te_index f - i) = Some t /\
                        (i <= te_index f)%nat /\
                        te_task f = TaskOps.positioned (te_index f) t)
      failures /\
    appended s s' extra /\
    filter isGet extra
    = map (fun t => get ("/api/cards/" ++ ctp_cardId t)) tasks.
Proof.
  revert i acc s. induction tasks as [|task tasks IH]; intros i acc s.
  - exists [], [], [], s, []. cbn. rewrite !app_nil_r.
    destruct acc. conjs; auto. unfold requestsAppended.
    now rewrite app_nil_r.
  - cbn [TaskOps.batchLoop].
    destruct (Effects.createTask plankaRequest (TaskOps.positioned i task) s)
      as [[result|e] s1] eqn:Ec.
    + destruct (createTask_gets _ _ Ec) as (x1 & A1 & G1).
      destruct (IH (S i)
                  (mkBatchResult (br_results acc ++ [TaskCreated result])
                     (br_successes acc ++ [result]) (br_failures acc)) s1)
        as (results & successes & failures & s' & x2 & Hrun & Hn & Hsum & Hidx
            & Hf & A2 & G2).
      exists (TaskCreated result :: results), (result :: successes), failures,
        s', (x1 ++ x2).
      cbn [br_results br_successes br_failures] in Hrun.
      rewrite <- !app_assoc in Hrun. cbn [app] in Hrun.
      rewrite positioned_cardId in G1.
      conjs.
      * exact Hrun.
      * cbn. lia.
      * cbn. lia.
      * exact Hidx.
      * eapply Forall_impl; [|exact Hf]. cbn beta.
        intros f (t & Ht & Hi & Hp). exists t.
        replace (te_index f - i)%nat with (S (te_index f - S i)) by lia.
        cbn [nth_error]. conjs; auto. lia.
      * unfold requestsAppended in *. rewrite A2, A1.
        now rewrite app_assoc.
      * rewrite filter_app, G1, G2. reflexivity.
    + destruct (createTask_gets _ _ Ec) as (x1 & A1 & G1).
      destruct (IH (S i)
                  (mkBatchResult (br_results acc ++ [TaskFailed e])
                     (br_successes acc)
                     (br_failures acc
                      ++ [mkTaskError i (TaskOps.positioned i task) e])) s1)
        as (results & successes & failures & s' & x2 & Hrun & Hn & Hsum & Hidx
            & Hf & A2 & G2).
      exists (TaskFailed e :: results), successes,
        (mkTaskError i (TaskOps.positioned i task) e :: failures),
        s', (x1 ++ x2).
      cbn [br_results br_successes br_failures] in Hrun.
      rewrite <- !app_assoc in Hrun. cbn [app] in Hrun.
      rewrite positioned_cardId in G1.
      conjs.
      * exact Hrun.
      * cbn. lia.
      * cbn. lia.
      * cbn. now rewrite Hidx.
      * constructor.
        -- exists task. cbn [te_index te_task]. rewrite Nat.sub_diag.
           conjs; auto.
        -- eapply Forall_impl; [|exact Hf]. cbn beta.
           intros f (t & Ht & Hi & Hp). exists t.
           replace (te_index f - i)%nat with (S (te_index f - S i)) by lia.
           cbn [nth_error]. conjs; auto. lia.
      * unfold requestsAppended in *. rewrite A2, A1.
        now rewrite app_assoc.
      * rewrite filter_app, G1, G2. reflexivity.
Qed.

(** X23.  [batchCreateTasks] never rejects: it resolves with one result
    per task, in order; every task is either among the successes or among
    the failures; the failures carry, in order, the indexes of the failed
    results, each with the task as it was submitted, its position filled
    in. *)
Theorem batchCreateTasks_total (tasks : list CreateTaskParams) (s : ENV) :
  exists r s',
    TaskOps.batchCreateTasks plankaRequest tasks s = (Ok r, s') /\
    List.length (br_results r) = List.length tasks /\
    (List.length (br_successes r) + List.length (br_failures r))%nat
    = List.length tasks /\
    map te_index (br_failures r) = failedFrom 0 (br_results r) /\
    Forall (fun f =>
              exists t p,
                nth_error tasks (te_index f) = Some t /\
                te_task f = TaskOps.positioned (te_index f) t /\
                ctp_position (te_task f) = Some p /\ p <> 0%Z)
      (br_failures r).
Proof.
  destruct (batchLoop_spec tasks 0 (mkBatchResult [] [] []) s)
    as (results & successes & failures & s' & x & Hrun & Hn & Hsum & Hidx & Hf
        & _).
  cbn [br_results br_successes br_failures app] in Hrun.
  exists (mkBatchResult results successes failures), s'.
  unfold TaskOps.batchCreateTasks, Effects.tryCatch. rewrite Hrun.
  cbn [br_results br_successes br_failures]. conjs; auto.
  eapply Forall_impl; [|exact Hf]. cbn beta.
  intros f (t & Ht & _ & Hp). rewrite Nat.sub_0_r in Ht.
  destruct (positioned_position (te_index f) t) as (p & Hpos & Hnz).
  exists t, p. rewrite Hp. auto.
Qed.

(** X24.  [batchCreateTasks] attempts every task, whatever happened to
    the ones before: the reads it issues are the fetches of the cards of
    the tasks, one per task, in order. *)
Theorem batchCreateTasks_attempts_all (tasks : list CreateTaskParams)
  (s : ENV) :
  exists extra,
    appended s (snd (TaskOps.batchCreateTasks plankaRequest tasks s)) extra /\
    filter isGet extra
    = map (fun t => get ("/api/cards/" ++ ctp_cardId t)) tasks.
Proof.
  destruct (batchLoop_spec tasks 0 (mkBatchResult [] [] []) s)
    as (results & successes & failures & s' & x & Hrun & _ & _ & _ & _ & A & G).
  unfold TaskOps.batchCreateTasks, Effects.tryCatch. rewrite Hrun.
  exists x. auto.
Qed.

End TaskFacts.

(** ** Labels and cards: the remaining paths of the write helpers *)

Section WriteMore.

Variable World : Type.
Variable plankaRequest : Request -> World -> Result Response * World.

Local Notation "'ENV'" := (Effects.Env World).
Local Notation "'appended'" := (@requestsAppended World).

Lemma find_first (A : Type) (p : A -> bool) (pre post : list A) (a : A) :
  Forall (fun x => p x = false) pre -> p a = true ->
  find p (pre ++ a :: post) = Some a.
Proof.
  induction 1 as [|x pre Hx _ IH]; intros Ha; cbn.
  - now rewrite Ha.
  - rewrite Hx. auto.
Qed.

(** X25.  When the card carries the label, [removeLabelFromCard] deletes
    the first association of the card with the label, and nothing else:
    it issues the read and that one [DELETE].  It resolves without a
    message when the [DELETE] succeeds, and rejects with one fixed
    message, whatever the failure was, when it does not. *)
Theorem removeLabelFromCard_present (cardId labelId : string) (s : ENV)
  (cardResponse : Response) (w : World) (pre post : list CardLabel)
  (cl : CardLabel) :
  plankaRequest (get ("/api/cards/" ++ cardId)) (Effects.world s)
  = (Ok cardResponse, w) ->
  cardLabelsOf cardResponse = pre ++ cl :: post ->
  cardLabel_cardId cl = cardId -> cardLabel_labelId cl = labelId ->
  Forall (fun x => ~ (cardLabel_cardId x = cardId /\
                      cardLabel_labelId x = labelId)) pre ->
  let delete :=
    mkRequest DELETE ("/api/card-labels/" ++ cardLabel_id cl) NoBody in
  Effects.removeLabelFromCard plankaRequest cardId labelId s
  = (match fst (plankaRequest delete w) with
     | Ok _ => Ok (mkRemoveLabelResult true None)
     | Err _ =>
         Err ("Failed to remove label from card: "
              ++ "Cannot remove label - this may be a Planka version limitation. "
              ++ "The DELETE /api/card-labels endpoint returned an error. "
              ++ "Try removing the label manually through the Planka UI.")
     end,
     Effects.mkEnv (snd (plankaRequest delete w))
       (Effects.log s ++ [get ("/api/cards/" ++ cardId); delete])
       (Effects.taskCardIdMap s)).
Proof.
  intros Hget Hcls Hc Hl Hpre. cbv zeta.
  unfold Effects.removeLabelFromCard, Effects.tryCatch, Effects.bindM,
    Effects.request, Effects.ret, Effects.throw.
  rewrite Hget. cbn [Effects.world Effects.log Effects.taskCardIdMap].
  assert (F : jsFind (fun x => (cardLabel_cardId x =? cardId)%string
                               && (cardLabel_labelId x =? labelId)%string)
                (cardLabelsOf cardResponse) = Some cl).
  { rewrite Hcls. unfold jsFind. apply find_first.
    - eapply Forall_impl; [|exact Hpre]. cbn beta. intros x Hx.
      destruct (cardLabel_cardId x =? cardId)%string eqn:E1; [|reflexivity].
      destruct (cardLabel_labelId x =? labelId)%string eqn:E2; [|reflexivity].
      apply String.eqb_eq in E1. apply String.eqb_eq in E2. tauto.
    - rewrite Hc, Hl, !String.eqb_refl. reflexivity. }
  unfold cardLabelsOf in F. rewrite F. cbv beta iota.
  cbn [Effects.world Effects.log Effects.taskCardIdMap].
  destruct (plankaRequest
              (mkRequest DELETE ("/api/card-labels/" ++ cardLabel_id cl) NoBody)
              w) as [[r|e] w2];
    cbn [fst snd Effects.world Effects.log Effects.taskCardIdMap];
    rewrite <- app_assoc; reflexivity.
Qed.

Lemma createCard_error (options : CreateCardOptions) (s s' : ENV)
  (e : string) :
  Effects.createCard plankaRequest options s = (Err e, s') ->
  exists m, e = ("Failed to create card: " ++ m)%string.
Proof.
  unfold Effects.createCard, Effects.tryCatch, Effects.bindM,
    Effects.request, Effects.ret, Effects.throw.
  destruct (plankaRequest _ (Effects.world s)) as [[r|e0] w].
  - destruct (resp_item r) as [[c|t|tl|c]|];
      [destruct (parseCard c)| | | |]; intros H; inversion H;
      eexists; reflexivity.
  - intros H; inversion H. eexists; reflexivity.
Qed.

(** X26.  When the card cannot be created, [createCardWithTasks] rejects
    with the error of [createCard], a message behind "Failed to create
    card: ", and has issued one request only, the [POST] of the card: no
    task and no comment is attempted. *)
Theorem createCardWithTasks_card_failure
  (params : CreateCardWithTasksParams) (s s1 : ENV) (e : string) :
  Effects.createCard plankaRequest (cardOptionsOf params) s = (Err e, s1) ->
  Effects.createCardWithTasks plankaRequest params s = (Err e, s1) /\
  (exists m, e = ("Failed to create card: " ++ m)%string) /\
  exists cardPost,
    appended s s1 [cardPost] /\ req_method cardPost = POST /\
    req_path cardPost = ("/api/lists/" ++ cwt_listId params ++ "/cards")%string.
Proof.
  intros H. conjs.
  - unfold Effects.createCardWithTasks, Effects.tryCatch, Effects.bindM.
    unfold cardOptionsOf in H. rewrite H. reflexivity.
  - eapply createCard_error; eauto.
  - revert H. unfold Effects.createCard, Effects.tryCatch, Effects.bindM,
      Effects.request, Effects.ret, Effects.throw, requestsAppended.
    destruct (plankaRequest _ (Effects.world s)) as [[r|e0] w].
    + destruct (resp_item r) as [[c|t|tl|c]|];
        [destruct (parseCard c)| | | |]; intros H; inversion H;
        eexists; cbn; conjs; reflexivity.
    + intros H; inversion H. eexists; cbn; conjs; reflexivity.
Qed.


End WriteMore.

(** ** The further properties of the write helpers on the sample services *)

Lemma getTask_after_createTask_witness :
  exists s',
    Effects.createTask (taskService 3) (mkCreateTaskParams "c1" "outline" None)
      sampleEnv
    = (Ok (Some (ItemTask (storedTask 0))), s') /\
    TaskOps.getTask (taskService 3) noInherited "t1" None s'
    = TaskOps.getTask (taskService 3) noInherited "t1" (Some "c1") s' /\
    fst (TaskOps.getTask (taskService 3) noInherited "t1" None s')
    = Ok (storedTask 0).
Proof.
  pose (s' := snd (Effects.createTask (taskService 3)
                     (mkCreateTaskParams "c1" "outline" None) sampleEnv)).
  assert (H : Effects.createTask (taskService 3)
                (mkCreateTaskParams "c1" "outline" None) sampleEnv
              = (Ok (Some (ItemTask (storedTask 0))), s'))
    by (vm_compute; reflexivity).
  exists s'. split; [exact H|].
  assert (E := @getTask_after_createTask _ (taskService 3) noInherited _ _ _ _
                 H).
  cbn [itemId ctp_cardId] in E.
  assert (R : TaskOps.getTask (taskService 3) noInherited "t1" None s'
              = TaskOps.getTask (taskService 3) noInherited "t1" (Some "c1") s').
  { apply E; discriminate. }
  split; [exact R|]. rewrite R. vm_compute. reflexivity.
Defined.

Lemma getTask_without_card_witness :
  TaskOps.getTask (taskService 3) noInherited "t9" (Some "") sampleEnv
  = (Err ("Failed to get task: Card ID is required to get a task. "
          ++ "Either provide it directly or create the task first."),
     sampleEnv).
Proof.
  apply getTask_without_card; reflexivity.
Defined.

Lemma getTask_found_witness :
  exists task s',
    TaskOps.getTask (taskService 3) noInherited "t2" (Some "c1")
      (Effects.mkEnv 2%nat [] [])
    = (Ok task, s') /\
    task_id task = "t2"%string /\
    Effects.log s' = [get "/api/cards/c1"].
Proof.
  pose (s' := snd (TaskOps.getTask (taskService 3) noInherited "t2"
                     (Some "c1") (Effects.mkEnv 2%nat [] []))).
  assert (H : TaskOps.getTask (taskService 3) noInherited "t2" (Some "c1")
                (Effects.mkEnv 2%nat [] [])
              = (Ok (storedTask 1), s')) by (vm_compute; reflexivity).
  destruct (@getTask_found _ (taskService 3) noInherited _ _ _ _ _ H)
    as (Hid & c & response & Hc & _ & _ & _ & A & _).
  exists (storedTask 1), s'. split; [exact H|]. split; [exact Hid|].
  vm_compute. reflexivity.
Defined.

Lemma removeLabelFromCard_present_witness :
  Effects.removeLabelFromCard (taskService 3) "c1" "urgent-id" sampleEnv
  = (Ok (mkRemoveLabelResult true None),
     Effects.mkEnv 0%nat
       [get "/api/cards/c1";
        mkRequest DELETE "/api/card-labels/cl1" NoBody] []).
Proof.
  rewrite (@removeLabelFromCard_present _ (taskService 3) "c1" "urgent-id"
             sampleEnv
             (mkResponse (Some (ItemCard sampleCard)) None
                (Some (mkIncluded None None None None (Some [])
                         (Some [mkTaskList "tl1"])
                         (Some [mkCardLabel "cl0" "c1" "bug-id";
                                mkCardLabel "cl1" "c1" "urgent-id";
                                mkCardLabel "cl2" "c1" "urgent-id"]))))
             0%nat [mkCardLabel "cl0" "c1" "bug-id"]
             [mkCardLabel "cl2" "c1" "urgent-id"]
             (mkCardLabel "cl1" "c1" "urgent-id")).
  - reflexivity.
  - reflexivity.
  - reflexivity.
  - reflexivity.
  - reflexivity.
  - constructor; [|constructor]. intros [_ H]. discriminate H.
Defined.

Lemma createCardWithTasks_card_failure_witness :
  exists s1,
    Effects.createCardWithTasks (taskService 3) (sampleParams (Some "Go"))
      sampleEnv
    = (Err "Failed to create card: Not found", s1) /\
    List.length (Effects.log s1) = 1%nat.
Proof.
  pose (s1 := snd (Effects.createCard (taskService 3)
                     (cardOptionsOf (sampleParams (Some "Go"))) sampleEnv)).
  assert (H : Effects.createCard (taskService 3)
                (cardOptionsOf (sampleParams (Some "Go"))) sampleEnv
              = (Err "Failed to create card: Not found", s1))
    by (vm_compute; reflexivity).
  destruct (@createCardWithTasks_card_failure _ _ _ _ _ _ H)
    as (Hrun & _ & cardPost & A & _).
  exists s1. split; [exact Hrun|].
  unfold requestsAppended in A. rewrite A. reflexivity.
Defined.


(** ** [resolveUsers] *)

Lemma recordGet_recordSet (V : Type) (k k' : string) (v : V)
  (m : list (string * V)) :
  recordGet k (recordSet k' v m)
  = if (k' =? k)%string then Some v else recordGet k m.
Proof.
  unfold recordGet. induction m as [|[k0 v0] m IH]; cbn.
  - destruct (k' =? k)%string; reflexivity.
  - destruct (k0 =? k')%string eqn:E0; cbn.
    + apply String.eqb_eq in E0. subst k0.
      destruct (k' =? k)%string; reflexivity.
    + destruct (k0 =? k)%string eqn:E1.
      * apply String.eqb_eq in E1. subst k0.
        rewrite String.eqb_sym in E0. now rewrite E0.
      * exact IH.
Qed.

Lemma recordSet_keys (V : Type) (k c : string) (v : V)
  (m : list (string * V)) :
  In c (map fst (recordSet k v m)) -> c = k \/ In c (map fst m).
Proof.
  induction m as [|[k' v'] m IH]; cbn.
  - intros [H|[]]; auto.
  - destruct (k' =? k)%string eqn:E; cbn.
    + intros [H|H]; auto.
    + intros [H|H]; [auto|]. destruct (IH H); auto.
Qed.

Lemma recordSet_NoDup (V : Type) (k : string) (v : V)
  (m : list (string * V)) :
  NoDup (map fst m) -> NoDup (map fst (recordSet k v m)).
Proof.
  induction m as [|[k' v'] m IH]; cbn; intros H.
  - constructor; [intros []|constructor].
  - inversion H as [|? ? Hk Hm]; subst.
    destruct (k' =? k)%string eqn:E; cbn.
    + apply String.eqb_eq in E. subst k'. now constructor.
    + constructor; [|auto]. intros Hin. apply recordSet_keys in Hin.
      destruct Hin as [->|Hin]; [|contradiction].
      rewrite String.eqb_refl in E. discriminate.
Qed.

(** X28.  When the users can be listed, [resolveUsers] resolves with a
    record that has one entry at most per key: the entry of a key is the
    first listed user with that id when the key is among the requested
    ids, and the key is not [__proto__]; any other key has none. *)
Theorem resolveUsers_lookup (users : list User) (userIds : list string) :
  exists result,
    resolveUsers (Ok (Some users)) userIds = Ok result /\
    NoDup (map fst result) /\
    forall key,
      recordGet key result
      = if existsb (String.eqb key) userIds && negb (key =? "__proto__")%string
        then jsFind (fun u => user_id u =? key)%string users
        else None.
Proof.
  unfold resolveUsers. eexists. split; [reflexivity|].
  set (step := fun (result : list (string * User)) (userId : string) =>
                 match jsFind (fun u => user_id u =? userId)%string users with
                 | Some user =>
                     if (userId =? "__proto__")%string then result
                     else recordSet userId
                            (mkUser (user_id user) (user_name user)
                               (user_username user) (user_email user))
                            result
                 | None => result
                 end).
  assert (G : forall ids result,
             NoDup (map fst result) ->
             NoDup (map fst (fold_left step ids result)) /\
             forall key,
               recordGet key (fold_left step ids result)
               = match (if existsb (String.eqb key) ids
                           && negb (key =? "__proto__")%string
                        then jsFind (fun u => user_id u =? key)%string users
                        else None) with
                 | Some u => Some u
                 | None => recordGet key result
                 end).
  { induction ids as [|userId ids IH]; intros result Hnd.
    - cbn. auto.
    - cbn [fold_left existsb].
      assert (Hnd' : NoDup (map fst (step result userId))).
      { unfold step. destruct (jsFind _ users); [|exact Hnd].
        destruct (userId =? "__proto__")%string; [exact Hnd|].
        now apply recordSet_NoDup. }
      destruct (IH _ Hnd') as [N L]. split; [exact N|].
      intros key. rewrite L.
      destruct (existsb (String.eqb key) ids
                && negb (key =? "__proto__")%string) eqn:Ein.
      + apply andb_true_iff in Ein. destruct Ein as [E1 E2].
        rewrite E1, E2, orb_true_r. cbn [andb].
        destruct (jsFind (fun u => user_id u =? key)%string users) as [u|] eqn:Ef;
          [reflexivity|].
        unfold step.
        destruct (jsFind (fun u => user_id u =? userId)%string users)
          as [u'|] eqn:Ef'; [|reflexivity].
        destruct (userId =? "__proto__")%string; [reflexivity|].
        rewrite recordGet_recordSet.
        destruct (userId =? key)%string eqn:Ek; [|reflexivity].
        apply String.eqb_eq in Ek. subst userId. rewrite Ef in Ef'.
        discriminate.
      + assert (Hnone : (if existsb (String.eqb key) ids
                            && negb (key =? "__proto__")%string
                         then jsFind (fun u => user_id u =? key)%string users
                         else None) = None) by now rewrite Ein.
        clear Hnone.
        destruct (key =? userId)%string eqn:Ek.
        * apply String.eqb_eq in Ek. subst userId. cbn [orb].
          unfold step.
          destruct (jsFind (fun u => user_id u =? key)%string users)
            as [u|] eqn:Ef.
          -- destruct (key =? "__proto__")%string eqn:Ep; cbn [negb andb].
             ++ reflexivity.
             ++ rewrite recordGet_recordSet, String.eqb_refl.
                destruct u; reflexivity.
          -- destruct (negb (key =? "__proto__")%string); reflexivity.
        * cbn [orb]. rewrite Ein. unfold step.
          destruct (jsFind (fun u => user_id u =? userId)%string users)
            as [u'|]; [|reflexivity].
          destruct (userId =? "__proto__")%string; [reflexivity|].
          rewrite recordGet_recordSet, String.eqb_sym, Ek. reflexivity. }
  destruct (G userIds [] (NoDup_nil _)) as [N L]. split; [exact N|].
  intros key. rewrite L.
  destruct (existsb (String.eqb key) userIds
            && negb (key =? "__proto__")%string); [|reflexivity].
  destruct (jsFind _ users); reflexivity.
Qed.

(** ** [getCards] *)

Section CardsFacts.

Variable plankaRequest : Request -> Result Response.

Lemma getCardsLoop_one_board (listId : string) (boards : list Board)
  (cards : list Card) :
  Snapshot.getCardsLoop plankaRequest listId boards = Ok cards ->
  cards = [] \/
  exists pre board post boardResponse included boardCards,
    boards = pre ++ board :: post /\
    plankaRequest (get ("/api/boards/" ++ board_id board)) = Ok boardResponse /\
    resp_included boardResponse = Some included /\
    inc_cards included = Some boardCards /\
    cards = filter (fun card => card_listId card =? listId)%string boardCards /\
    Forall (fun b => isOk (plankaRequest (get ("/api/boards/" ++ board_id b)))
                     = true) pre.
Proof.
  revert cards. induction boards as [|board boards IH]; intros cards;
    cbn [Snapshot.getCardsLoop].
  - intros H. inversion H. now left.
  - destruct (plankaRequest (get ("/api/boards/" ++ board_id board)))
      as [boardResponse|e] eqn:Er; cbn [bind]; [|discriminate].
    assert (Next : Snapshot.getCardsLoop plankaRequest listId boards = Ok cards ->
                   cards = [] \/
                   exists pre board0 post boardResponse0 included boardCards,
                     board :: boards = pre ++ board0 :: post /\
                     plankaRequest (get ("/api/boards/" ++ board_id board0))
                     = Ok boardResponse0 /\
                     resp_included boardResponse0 = Some included /\
                     inc_cards included = Some boardCards /\
                     cards = filter (fun card => card_listId card =? listId)%string
                               boardCards /\
                     Forall (fun b =>
                               isOk (plankaRequest
                                       (get ("/api/boards/" ++ board_id b)))
                               = true) pre).
    { intros H. destruct (IH _ H)
        as [->|(pre & b0 & post & r0 & inc & bc & E & Hr & Hi & Hc & Hf & Hp)];
        [now left|].
      right. exists (board :: pre), b0, post, r0, inc, bc.
      rewrite E. conjs; auto. constructor; [now rewrite Er|exact Hp]. }
    destruct (resp_included boardResponse) as [included|] eqn:Ei; [|exact Next].
    destruct (inc_cards included) as [boardCards|] eqn:Ec; [|exact Next].
    destruct (0 <? List.length
                     (filter (fun card => card_listId card =? listId)%string
                        boardCards))%nat; [|exact Next].
    intros H. inversion H; subst; clear H. right.
    exists [], board, boards, boardResponse, included, boardCards.
    conjs; auto.
Qed.

(** X29.  [getCards] never rejects and returns cards of the list asked
    for only; what it returns is either nothing or all the cards of that
    list that one board of the project list reports, every board before
    it having answered. *)
Theorem getCards_one_board (listId : string) :
  let cards := Snapshot.getCards plankaRequest listId in
  Forall (fun card => card_listId card = listId) cards /\
  (cards <> [] ->
   exists projectsResponse projectsIncluded boards pre board post
          boardResponse included boardCards,
     plankaRequest (get "/api/projects") = Ok projectsResponse /\
     resp_included projectsResponse = Some projectsIncluded /\
     inc_boards projectsIncluded = Some boards /\
     boards = pre ++ board :: post /\
     plankaRequest (get ("/api/boards/" ++ board_id board)) = Ok boardResponse /\
     resp_included boardResponse = Some included /\
     inc_cards included = Some boardCards /\
     cards = filter (fun card => card_listId card =? listId)%string boardCards /\
     Forall (fun b => isOk (plankaRequest (get ("/api/boards/" ++ board_id b)))
                      = true) pre).
Proof.
  cbv zeta. unfold Snapshot.getCards.
  destruct (plankaRequest (get "/api/projects")) as [projectsResponse|e] eqn:Ep;
    cbn [bind]; [|split; [constructor|intros H; now contradiction H]].
  destruct (resp_included projectsResponse) as [projectsIncluded|] eqn:Ei;
    [|split; [constructor|intros H; now contradiction H]].
  destruct (inc_boards projectsIncluded) as [boards|] eqn:Eb;
    [|split; [constructor|intros H; now contradiction H]].
  destruct (Snapshot.getCardsLoop plankaRequest listId boards) as [cards|e]
    eqn:El; [|split; [constructor|intros H; now contradiction H]].
  destruct (getCardsLoop_one_board _ _ El)
    as [->|(pre & board & post & r & inc & bc & E & Hr & Hi & Hc & Hf & Hp)].
  - split; [constructor|intros H; now contradiction H].
  - split.
    + rewrite Hf. apply Forall_forall. intros c Hin.
      apply filter_In in Hin. destruct Hin as [_ Hin].
      now apply String.eqb_eq in Hin.
    + intros _. exists projectsResponse, projectsIncluded, boards, pre, board,
        post, r, inc, bc. conjs; auto.
Qed.

End CardsFacts.

(** ** [formatDuration] *)

Lemma numberToString_head (n : Z) :
  exists c rest,
    numberToString n = String c rest /\ isSpace c = false.
Proof.
  unfold numberToString.
  destruct (Z.to_int n) as [u|u]; cbn [NilZero.string_of_int].
  - destruct u; cbn; eexists; eexists; split; reflexivity.
  - eexists; eexists; split; reflexivity.
Qed.

Lemma trimEnd_s (a : string) : trimEnd (a ++ "s") = (a ++ "s")%string.
Proof.
  induction a as [|c a IH]; [reflexivity|].
  cbn [append trimEnd]. rewrite IH.
  destruct (a ++ "s")%string eqn:E; [|reflexivity].
  destruct a; discriminate E.
Qed.

Lemma append_assoc (a b c : string) :
  ((a ++ b) ++ c)%string = (a ++ (b ++ c))%string.
Proof. induction a as [|x a IH]; cbn; [reflexivity|now rewrite IH]. Qed.

Lemma trim_number_s (n : Z) (mid : string) :
  trim (numberToString n ++ mid ++ "s") = (numberToString n ++ mid ++ "s")%string.
Proof.
  unfold trim. rewrite <- append_assoc, trimEnd_s.
  destruct (numberToString_head n) as (c & rest & -> & Hc).
  cbn [append trimStart]. now rewrite Hc.
Qed.

(** X30.  [formatDuration] splits a whole number of seconds from 0 to
    below [2^53] into hours, minutes below 60 and seconds below 60, and
    prints the hours only when positive, the minutes when they or the
    hours are positive (so "1h 0m 0s" for an hour), and the seconds
    always; the final [trim] never removes anything. *)
Theorem formatDuration_shape (seconds : Z) :
  (0 <= seconds < 2 ^ 53)%Z ->
  let h := (seconds / 3600)%Z in
  let m := (seconds mod 3600 / 60)%Z in
  let r := (seconds mod 60)%Z in
  seconds = (3600 * h + 60 * m + r)%Z /\
  (0 <= m < 60)%Z /\ (0 <= r < 60)%Z /\
  formatDuration seconds
  = if (0 <? h)%Z then
      (numberToString h ++ "h " ++ numberToString m ++ "m "
       ++ numberToString r ++ "s")%string
    else if (0 <? m)%Z then
      (numberToString m ++ "m " ++ numberToString r ++ "s")%string
    else (numberToString r ++ "s")%string.
Proof.
  intros [H0 Hsafe]. cbv zeta.
  assert (R1 : Z.rem seconds 3600 = (seconds mod 3600)%Z)
    by (apply Z.rem_mod_nonneg; lia).
  assert (R2 : Z.rem seconds 60 = (seconds mod 60)%Z)
    by (apply Z.rem_mod_nonneg; lia).
  pose proof (Z.mod_pos_bound seconds 3600 ltac:(lia)) as B1.
  pose proof (Z.mod_pos_bound seconds 60 ltac:(lia)) as B2.
  pose proof (Z.div_mod seconds 3600 ltac:(lia)) as D1.
  pose proof (Z.div_mod (seconds mod 3600) 60 ltac:(lia)) as D2.
  pose proof (Z.mod_pos_bound (seconds mod 3600) 60 ltac:(lia)) as B3.
  assert (M : ((seconds mod 3600) mod 60 = seconds mod 60)%Z).
  { apply Z.mod_mod_divide. exists 60%Z. reflexivity. }
  assert (Bm : (0 <= seconds mod 3600 / 60 < 60)%Z).
  { split; [apply Z.div_pos; lia|apply Z.div_lt_upper_bound; lia]. }
  conjs; try lia.
  unfold formatDuration. cbv zeta. rewrite R1, R2.
  destruct (0 <? seconds / 3600)%Z.
  - rewrite orb_true_r.
    transitivity
      (trim (numberToString (seconds / 3600)
             ++ ("h " ++ numberToString (seconds mod 3600 / 60) ++ "m "
                 ++ numberToString (seconds mod 60)) ++ "s")%string).
    + f_equal. rewrite !append_assoc. reflexivity.
    + rewrite trim_number_s, !append_assoc. reflexivity.
  - rewrite orb_false_r.
    destruct (0 <? seconds mod 3600 / 60)%Z.
    + transitivity
        (trim (numberToString (seconds mod 3600 / 60)
               ++ ("m " ++ numberToString (seconds mod 60)) ++ "s")%string).
      * f_equal. rewrite !append_assoc. reflexivity.
      * rewrite trim_number_s, !append_assoc. reflexivity.
    + apply (trim_number_s (seconds mod 60) "").
Qed.

Lemma formatDuration_shape_witness :
  (0 <= 3600 < 2 ^ 53)%Z /\ formatDuration 3600 = "1h 0m 0s"%string.
Proof.
  split; [lia|].
  destruct (@formatDuration_shape 3600%Z) as (_ & _ & _ & H); [lia|].
  rewrite H. vm_compute. reflexivity.
Defined.
